(** * IAM role vending machine: a shallow embedding and its properties

    The development follows the Python package [iam_temprole_creator]:
    [models.py], [config.py], [policy_manager.py], [database.py] and
    [role_vendor.py].  Pure functions are Rocq functions; code that talks to
    AWS runs in a small state-and-exception monad over a [World] that holds
    the DynamoDB tables, the S3 bucket, the IAM roles, the clock and the
    faults the services may raise.

    Conventions.
    - Python [int] is [Z]; [str] is [string] (one character per byte, so
      [len] is [String.length] on ASCII text); [Optional[T]] is [option T].
    - Timestamps ([datetime.utcnow()], [time.time()]) are whole seconds since
      the epoch, as [Z]; the clock does not advance inside one operation.
    - [print] is not modelled.
    - The sessions table addresses an item by the pair of its attributes
      [ProjectId] and [SessionId].  An item is its set of attributes, each
      present or absent, with values of the type the code gives them.
      [database.py] spells attribute names in two ways and the table keeps
      them apart: [create_session] writes the fields of the session under
      their snake-case names, while the keys, the update, the queries and
      the mapping of [_item_to_session] use Pascal-case names.
    - [create_session] hands the table a dict without [ProjectId] and
      [SessionId].  Whether a call is accepted is the service's decision,
      which [fault] expresses (a table that insists on its key refuses the
      put with a [ClientError]); an accepted put files the item under the
      project and the identifier of the session.
    - A query is read once, as the code reads it: the response holds one
      page of the index, of [page_limit] items at most. *)

From Stdlib Require Import ZArith String Ascii List Bool Lia DecimalString.
From stdpp Require Import gmap strings.
Import ListNotations.
Local Open Scope string_scope.
Local Open Scope list_scope.
Local Open Scope Z_scope.
#[local] Set Warnings "-register-all".

(** ** Python basics *)

(** The exceptions that occur in the package.  [ValueError] carries the
    literal part of its message and the list interpolated into it (empty
    when there is none); pydantic's [ValidationError] is a [ValueError]. *)
Inductive exn : Type :=
  | ClientError (code : string)
  | BotoCoreError (msg : string)
  | ValueError (msg : string) (names : list string)
  | AttributeError (msg : string).

Definition is_ClientError (e : exn) : bool :=
  match e with ClientError _ => true | _ => false end.

Definition is_ValueError (e : exn) : bool :=
  match e with ValueError _ _ => true | _ => false end.

(** Outcome of a Python call: a value or a raised exception. *)
Inductive Res (A : Type) : Type :=
  | Ok (a : A)
  | Raise (e : exn).
Arguments Ok {A} a.
Arguments Raise {A} e.

Definition res_bind {A B} (r : Res A) (k : A -> Res B) : Res B :=
  match r with Ok a => k a | Raise e => Raise e end.

(** [str(n)] for an [int]. *)
Definition str_of_Z (z : Z) : string := NilZero.string_of_int (Z.to_int z).

(** [str(x)] for an [Optional[str]]. *)
Definition str_of_opt (o : option string) : string :=
  match o with Some s => s | None => "None" end.

(** Truth value of an [Optional[str]]: [None] and the empty string are false. *)
Definition truthy_str (o : option string) : bool :=
  match o with
  | Some s => negb (s =? EmptyString)%string
  | None => false
  end.

(** [s[:n]]. *)
Definition str_take (n : nat) (s : string) : string := String.substring 0 n s.

(** [s.startswith(p)]. *)
Fixpoint startswith (p s : string) : bool :=
  match p, s with
  | EmptyString, _ => true
  | String a p', String b s' => Ascii.eqb a b && startswith p' s'
  | String _ _, EmptyString => false
  end.

(** [s.replace(old, new)]: every occurrence of [old], found left to right
    without overlap, becomes [new].  [skip] counts the characters of a
    matched occurrence that are still to be dropped. *)
Fixpoint replace_from (old new : string) (skip : nat) (s : string) : string :=
  match s with
  | EmptyString => EmptyString
  | String c s' =>
      match skip with
      | S k => replace_from old new k s'
      | O =>
          if startswith old s
          then new +:+ replace_from old new (String.length old - 1)%nat s'
          else String c (replace_from old new O s')
      end
  end.

(** With an empty [old], Python inserts [new] before every character and at
    the end. *)
Fixpoint intersperse_str (new s : string) : string :=
  match s with
  | EmptyString => new
  | String c s' => new +:+ String c (intersperse_str new s')
  end.

Definition str_replace (old new s : string) : string :=
  match old with
  | EmptyString => intersperse_str new s
  | String _ _ => replace_from old new O s
  end.

(** ** hashlib.sha256

    SHA-256 (FIPS 180-4) on byte strings, with 32-bit words as [Z] reduced
    modulo [2^32]. *)
Module Sha256.

Definition w32 (x : Z) : Z := x mod 4294967296.
Definition add32 (x y : Z) : Z := w32 (x + y).
Definition rotr (n x : Z) : Z :=
  Z.lor (Z.shiftr x n) (w32 (Z.shiftl x (32 - n))).
Definition not32 (x : Z) : Z := 4294967295 - x.

Definition Ch (x y z : Z) : Z := Z.lxor (Z.land x y) (Z.land (not32 x) z).
Definition Maj (x y z : Z) : Z :=
  Z.lxor (Z.lxor (Z.land x y) (Z.land x z)) (Z.land y z).
Definition Sig0 (x : Z) : Z := Z.lxor (Z.lxor (rotr 2 x) (rotr 13 x)) (rotr 22 x).
Definition Sig1 (x : Z) : Z := Z.lxor (Z.lxor (rotr 6 x) (rotr 11 x)) (rotr 25 x).
Definition sig0 (x : Z) : Z := Z.lxor (Z.lxor (rotr 7 x) (rotr 18 x)) (Z.shiftr x 3).
Definition sig1 (x : Z) : Z := Z.lxor (Z.lxor (rotr 17 x) (rotr 19 x)) (Z.shiftr x 10).

(** The first primes, by trial division. *)
Definition is_prime (n : nat) : bool :=
  forallb (fun d => negb (Nat.eqb (n mod d) 0)) (seq 2 (n - 2)).

Definition primes (count : nat) : list Z :=
  map Z.of_nat (firstn count (List.filter is_prime (seq 2 310))).

(** The integer cube root, by bisection between [lo] and [hi]. *)
Fixpoint cube_root_between (steps : nat) (lo hi n : Z) : Z :=
  match steps with
  | O => lo
  | S steps' =>
      if hi - lo <=? 1 then lo
      else
        let mid := (lo + hi) / 2 in
        if mid * mid * mid <=? n
        then cube_root_between steps' mid hi n
        else cube_root_between steps' lo mid n
  end.

(** The round constants: the first 32 bits of the fractional parts of the
    cube roots of the first 64 primes. *)
Definition K : list Z :=
  map (fun p => w32 (cube_root_between 40 0 (2 ^ 35) (p * 2 ^ 96))) (primes 64).

(** The eight working variables, also the chaining value. *)
Record state : Type := mkState { sa : Z; sb : Z; sc : Z; sd : Z;
                                 se : Z; sf : Z; sg : Z; sh : Z }.

(** The initial value: the first 32 bits of the fractional parts of the
    square roots of the first 8 primes. *)
Definition H0 : state :=
  match map (fun p => w32 (Z.sqrt (p * 2 ^ 64))) (primes 8) with
  | [a; b; c; d; e; f; g; h] => mkState a b c d e f g h
  | _ => mkState 0 0 0 0 0 0 0 0
  end.

(** Padding: a 1 bit, zeros up to 56 modulo 64 bytes, then the bit length
    on 8 bytes, big-endian. *)
Definition be_bytes (n : nat) (x : Z) : list Z :=
  map (fun i => Z.land (Z.shiftr x (8 * Z.of_nat i)) 255) (rev (seq 0 n)).

Definition pad (msg : list Z) : list Z :=
  let len := Z.of_nat (length msg) in
  let zeros := Z.to_nat ((55 - len) mod 64) in
  msg ++ [128] ++ repeat 0 zeros ++ be_bytes 8 (8 * len).

Fixpoint words (bs : list Z) : list Z :=
  match bs with
  | b0 :: b1 :: b2 :: b3 :: rest =>
      (Z.shiftl b0 24 + Z.shiftl b1 16 + Z.shiftl b2 8 + b3) :: words rest
  | _ => []
  end.

(** Message schedule, most recent word first: [wrev] holds W[t-1], W[t-2], ... *)
Fixpoint extend (n : nat) (wrev : list Z) : list Z :=
  match n with
  | O => wrev
  | S n' =>
      let w := add32 (add32 (sig1 (nth 1 wrev 0)) (nth 6 wrev 0))
                     (add32 (sig0 (nth 14 wrev 0)) (nth 15 wrev 0)) in
      extend n' (w :: wrev)
  end.

Definition schedule (block : list Z) : list Z := rev (extend 48 (rev block)).

Definition round (s : state) (kw : Z * Z) : state :=
  let t1 := add32 (add32 (add32 (sh s) (Sig1 (se s)))
                         (add32 (Ch (se s) (sf s) (sg s)) (fst kw))) (snd kw) in
  let t2 := add32 (Sig0 (sa s)) (Maj (sa s) (sb s) (sc s)) in
  mkState (add32 t1 t2) (sa s) (sb s) (sc s) (add32 (sd s) t1) (se s) (sf s) (sg s).

Definition compress (h : state) (block : list Z) : state :=
  let s := fold_left round (combine K (schedule block)) h in
  mkState (add32 (sa h) (sa s)) (add32 (sb h) (sb s)) (add32 (sc h) (sc s))
          (add32 (sd h) (sd s)) (add32 (se h) (se s)) (add32 (sf h) (sf s))
          (add32 (sg h) (sg s)) (add32 (sh h) (sh s)).

(** The blocks of sixteen words are consumed in order; [n] bounds their number. *)
Fixpoint blocks (n : nat) (ws : list Z) (h : state) : state :=
  match n with
  | O => h
  | S n' =>
      match ws with
      | [] => h
      | _ => blocks n' (skipn 16 ws) (compress h (firstn 16 ws))
      end
  end.

Definition hex_digit (d : Z) : ascii :=
  if d <? 10 then ascii_of_nat (Z.to_nat (48 + d)) else ascii_of_nat (Z.to_nat (87 + d)).

Definition hex8 (x : Z) (rest : string) : string :=
  String (hex_digit (Z.land (Z.shiftr x 28) 15))
 (String (hex_digit (Z.land (Z.shiftr x 24) 15))
 (String (hex_digit (Z.land (Z.shiftr x 20) 15))
 (String (hex_digit (Z.land (Z.shiftr x 16) 15))
 (String (hex_digit (Z.land (Z.shiftr x 12) 15))
 (String (hex_digit (Z.land (Z.shiftr x 8) 15))
 (String (hex_digit (Z.land (Z.shiftr x 4) 15))
 (String (hex_digit (Z.land x 15)) rest))))))).

(** [data.encode()]: the bytes of an ASCII string. *)
Definition encode (s : string) : list Z :=
  map (fun c => Z.of_nat (nat_of_ascii c)) (list_ascii_of_string s).

Definition digest (msg : list Z) : state :=
  let ws := words (pad msg) in
  blocks (length ws) ws H0.

(** [hashlib.sha256(bs).hexdigest()]. *)
Definition hexdigest (msg : list Z) : string :=
  let s := digest msg in
  hex8 (sa s) (hex8 (sb s) (hex8 (sc s) (hex8 (sd s)
 (hex8 (se s) (hex8 (sf s) (hex8 (sg s) (hex8 (sh s) EmptyString))))))).

End Sha256.

(** ** ipaddress

    The standard [ipaddress] module, as the three operations
    [_is_ip_allowed] uses.  [None] stands for the [ValueError] that
    [ip_address] and [ip_network] raise on a string they cannot parse. *)
Class Ipaddress : Type := {
  IPAddress : Type;
  IPNetwork : Type;
  ip_address : string -> option IPAddress;
  ip_network : string -> option IPNetwork;
  ip_in_network : IPAddress -> IPNetwork -> bool
}.

(** An instance for IPv4 in dotted-quad and prefix-length notation, in strict
    mode (a network with host bits set is refused).  Netmask and hostmask
    notation and IPv6 are outside this instance. *)
Module IPv4.

Definition is_digit (c : ascii) : bool :=
  let n := nat_of_ascii c in (48 <=? n)%nat && (n <=? 57)%nat.

Fixpoint digits_value (acc : Z) (s : string) : option Z :=
  match s with
  | EmptyString => Some acc
  | String c s' =>
      if is_digit c
      then digits_value (10 * acc + Z.of_nat (nat_of_ascii c) - 48) s'
      else None
  end.

(** [s.split(sep)] for a one-character separator. *)
Fixpoint split (sep : ascii) (s : string) : list string :=
  match s with
  | EmptyString => [EmptyString]
  | String c s' =>
      if Ascii.eqb c sep then EmptyString :: split sep s'
      else match split sep s' with
           | [] => [String c EmptyString]
           | w :: ws => String c w :: ws
           end
  end.

(** One octet: one to three decimal digits, no leading zero, at most 255. *)
Definition parse_octet (s : string) : option Z :=
  match s with
  | EmptyString => None
  | String c s' =>
      if (3 <? String.length s)%nat then None
      else if Ascii.eqb c "0" && negb (s' =? EmptyString)%string then None
      else match digits_value 0 s with
           | Some v => if v <=? 255 then Some v else None
           | None => None
           end
  end.

Definition parse_address (s : string) : option Z :=
  match map parse_octet (split "." s) with
  | [Some a; Some b; Some c; Some d] =>
      Some (Z.shiftl a 24 + Z.shiftl b 16 + Z.shiftl c 8 + d)
  | _ => None
  end.

Definition parse_prefix (s : string) : option Z :=
  match s with
  | EmptyString => None
  | String _ _ =>
      match digits_value 0 s with
      | Some p => if p <=? 32 then Some p else None
      | None => None
      end
  end.

(** A network is its address and its prefix length. *)
Definition make_network (addr : option Z) (prefix : option Z) : option (Z * Z) :=
  match addr, prefix with
  | Some a, Some p => if a mod 2 ^ (32 - p) =? 0 then Some (a, p) else None
  | _, _ => None
  end.

Definition parse_network (s : string) : option (Z * Z) :=
  match split "/" s with
  | [a] => make_network (parse_address a) (Some 32)
  | [a; p] => make_network (parse_address a) (parse_prefix p)
  | _ => None
  end.

Definition contains (ip : Z) (net : Z * Z) : bool :=
  ip / 2 ^ (32 - snd net) =? fst net / 2 ^ (32 - snd net).

End IPv4.

#[global] Instance ipv4 : Ipaddress := {
  IPAddress := Z;
  IPNetwork := Z * Z;
  ip_address := IPv4.parse_address;
  ip_network := IPv4.parse_network;
  ip_in_network := IPv4.contains
}.

(** ** models.py *)

Inductive PermissionTier : Type := READ_ONLY | DEVELOPER | ADMIN | BREAK_GLASS.

Inductive SessionStatus : Type := PENDING | ACTIVE | EXPIRED | REVOKED | FAILED.

#[global] Instance PermissionTier_eq_dec : EqDecision PermissionTier.
Proof. solve_decision. Defined.

#[global] Instance SessionStatus_eq_dec : EqDecision SessionStatus.
Proof. solve_decision. Defined.

(** The [.value] of the two enumerations. *)
Definition tier_value (t : PermissionTier) : string :=
  match t with
  | READ_ONLY => "read-only"
  | DEVELOPER => "developer"
  | ADMIN => "admin"
  | BREAK_GLASS => "break-glass"
  end.

Definition status_value (s : SessionStatus) : string :=
  match s with
  | PENDING => "PENDING"
  | ACTIVE => "ACTIVE"
  | EXPIRED => "EXPIRED"
  | REVOKED => "REVOKED"
  | FAILED => "FAILED"
  end.

(** JSON-like values: what the dict literals of the package denote and what
    [json.dumps] prints.  A dict keeps its insertion order. *)
Inductive json : Type :=
  | JNull
  | JBool (b : bool)
  | JInt (n : Z)
  | JStr (s : string)
  | JList (l : list json)
  | JDict (l : list (string * json)).

Definition JStrs (l : list string) : json := JList (map JStr l).

Definition json_of_opt_str (o : option string) : json :=
  match o with Some s => JStr s | None => JNull end.

(** [d.get(k)] on a dict in insertion order. *)
Fixpoint dict_get {A} (k : string) (d : list (string * A)) : option A :=
  match d with
  | [] => None
  | (k', v) :: d' => if (k =? k')%string then Some v else dict_get k d'
  end.

Record RoleRequest : Type := mkRoleRequest {
  req_project_id : string;
  req_user_id : string;
  req_permission_tier : PermissionTier;
  req_duration_hours : Z;
  req_reason : string;
  req_ip_address : option string;
  req_mfa_used : bool;
  req_external_id : option string
}.

(** [RoleRequest.validate_duration]: the validator of [duration_hours], which
    sees the tier validated before it. *)
Definition validate_duration (v : Z) (permission_tier : PermissionTier) : Res Z :=
  if bool_decide (permission_tier = BREAK_GLASS) && (1 <? v)
  then Raise (ValueError "Break-glass access limited to 1 hour maximum" [])
  else if bool_decide (permission_tier = ADMIN) && (8 <? v)
  then Raise (ValueError "Admin access limited to 8 hours maximum" [])
  else Ok v.

(** The checks on [duration_hours]: the bounds of the field ([ge=1], [le=36]),
    then the validator. *)
Definition check_duration_hours (v : Z) (permission_tier : PermissionTier) : bool :=
  (1 <=? v) && (v <=? 36) &&
  match validate_duration v permission_tier with Ok _ => true | Raise _ => false end.

(** The check on [reason]: [min_length=10]. *)
Definition check_reason (reason : string) : bool :=
  (10 <=? String.length reason)%nat.

(** [RoleRequest(...)]: the object is built when every field passes;
    otherwise a validation error names the fields that did not. *)
Definition RoleRequest_init (r : RoleRequest) : Res RoleRequest :=
  let errors :=
    (if check_duration_hours (req_duration_hours r) (req_permission_tier r)
     then [] else ["duration_hours"]) ++
    (if check_reason (req_reason r) then [] else ["reason"]) in
  match errors with
  | [] => Ok r
  | _ => Raise (ValueError "validation error for RoleRequest" errors)
  end.

Record RoleSession : Type := mkRoleSession {
  project_id : string;
  session_id : string;
  user_id : string;
  role_arn : string;
  permission_tier : PermissionTier;
  requested_at : Z;
  expires_at : Z;
  status : SessionStatus;
  request_metadata : list (string * json)
}.

Record Credentials : Type := mkCredentials {
  access_key_id : string;
  secret_access_key : string;
  session_token : string;
  expiration : Z;
  cred_role_arn : string;
  session_name : string
}.

Record PolicyTemplate : Type := mkPolicyTemplate {
  tpl_name : string;
  tpl_permission_tier : PermissionTier;
  template_content : string;
  tpl_variables : list string;
  tpl_version : string
}.

Record TrustPolicy : Type := mkTrustPolicy {
  tp_version : string;
  tp_statement : list json
}.

(** [TrustPolicy.create_for_external_id]. *)
Definition create_for_external_id (external_id : option string)
    (allowed_departments ip_ranges : list string) (mfa_required : bool) : TrustPolicy :=
  let conditions :=
    [ ("StringEquals",
       JDict [ ("sts:ExternalId", json_of_opt_str external_id);
               ("aws:PrincipalTag/Department", JStrs allowed_departments) ]);
      ("IpAddress", JDict [ ("aws:SourceIp", JStrs ip_ranges) ]) ] ++
    (if mfa_required
     then [ ("NumericLessThan", JDict [ ("aws:MultiFactorAuthAge", JStr "3600") ]) ]
     else []) in
  mkTrustPolicy "2012-10-17"
    [ JDict [ ("Effect", JStr "Allow");
              ("Principal", JDict [ ("AWS", JStr "arn:aws:iam::ACCOUNT:root") ]);
              ("Action", JStr "sts:AssumeRole");
              ("Condition", JDict conditions) ] ].

(** [trust_policy.dict()]. *)
Definition TrustPolicy_dict (t : TrustPolicy) : json :=
  JDict [ ("version", JStr (tp_version t)); ("statement", JList (tp_statement t)) ].

Record AuditLog : Type := mkAuditLog {
  al_timestamp : Z;
  al_request_id : string;
  al_user_id : string;
  al_action : string;
  al_permission_tier : option PermissionTier;
  al_session_duration : option Z;
  al_source_ip : option string;
  al_mfa_used : bool;
  al_result : string;
  al_error_details : option (list (string * json))
}.

(** ** config.py *)

Record Settings : Type := mkSettings {
  aws_region : string;
  aws_account_id : option string;
  dynamodb_table_name : string;
  dynamodb_region : string;
  policy_templates_bucket : string;
  mfa_required : bool;
  max_session_duration : Z;
  allowed_ip_ranges : list string;
  allowed_departments : list string;
  api_gateway_stage : string;
  rate_limit_per_minute : Z;
  log_level : string;
  enable_cloudtrail : bool;
  break_glass_role_arn : option string;
  break_glass_notification_topic : option string;
  cleanup_interval_hours : Z;
  session_cleanup_delay_hours : Z
}.

(** [Settings()] with no [IAM_ROLE_*] variable in the environment. *)
Definition default_settings : Settings := {|
  aws_region := "us-east-1";
  aws_account_id := None;
  dynamodb_table_name := "iam-role-sessions";
  dynamodb_region := "us-east-1";
  policy_templates_bucket := "iam-role-templates";
  mfa_required := true;
  max_session_duration := 3600;
  allowed_ip_ranges := ["10.0.0.0/8"; "172.16.0.0/12"; "192.168.0.0/16"];
  allowed_departments := ["Engineering"; "DevOps"; "Security"];
  api_gateway_stage := "prod";
  rate_limit_per_minute := 100;
  log_level := "INFO";
  enable_cloudtrail := true;
  break_glass_role_arn := None;
  break_glass_notification_topic := None;
  cleanup_interval_hours := 1;
  session_cleanup_delay_hours := 24
|}.

Definition get_trust_policy_arn (account_id : string) : string :=
  "arn:aws:iam::" +:+ account_id +:+ ":root".

Definition get_role_arn (account_id : option string) (role_name : string) : string :=
  "arn:aws:iam::" +:+ str_of_opt account_id +:+ ":role/" +:+ role_name.

(** [get_external_id], given the reading [now] of [time.time()].  The hour
    number [int(time.time() // 3600)] is the floor of [now / 3600]; dropping
    the fraction of a second from [now] does not change it. *)
Definition get_external_id (now : Z) (project_id user_id : string) : string :=
  let data := project_id +:+ ":" +:+ user_id +:+ ":" +:+ str_of_Z (now / 3600) in
  str_take 16 (Sha256.hexdigest (Sha256.encode data)).

(** ** policy_manager.py *)

(** *** Regular expression [\$\{([^}]+)\}] *)

(** The characters up to the first closing brace, and what follows it. *)
Fixpoint until_close (s : string) : option (string * string) :=
  match s with
  | EmptyString => None
  | String c s' =>
      if Ascii.eqb c "}" then Some (EmptyString, s')
      else match until_close s' with
           | Some (name, rest) => Some (String c name, rest)
           | None => None
           end
  end.

(** A match of the pattern at the head of [s]: a dollar, an opening brace, one
    or more characters other than a closing brace, a closing brace.  The
    result is the captured group and the text after the match. *)
Definition match_placeholder (s : string) : option (string * string) :=
  match s with
  | String c1 (String c2 t) =>
      if Ascii.eqb c1 "$" && Ascii.eqb c2 "{"
      then match until_close t with
           | Some (String c name, rest) => Some (String c name, rest)
           | _ => None
           end
      else None
  | _ => None
  end.

(** [re.findall(pattern, content)]: the groups of the matches found left to
    right without overlap.  After a match the scan resumes behind it, else
    one character further; [fuel] bounds the number of steps. *)
Fixpoint findall_fuel (fuel : nat) (s : string) : list string :=
  match fuel with
  | O => []
  | S fuel' =>
      match s with
      | EmptyString => []
      | String _ s' =>
          match match_placeholder s with
          | Some (name, rest) => name :: findall_fuel fuel' rest
          | None => findall_fuel fuel' s'
          end
      end
  end.

Definition re_findall (content : string) : list string :=
  findall_fuel (String.length content) content.

(** *** PolicyManager *)

(** [var in variables], for a dict from names to values. *)
Definition dict_mem {A} (k : string) (d : list (string * A)) : bool :=
  match dict_get k d with Some _ => true | None => false end.

(** [PolicyManager._find_missing_variables]. *)
Definition _find_missing_variables (content : string) (variables : list (string * string))
  : list string :=
  List.filter (fun var => negb (dict_mem var variables)) (re_findall content).

(** The loop of [generate_policy]: the placeholder of each variable, in the
    order of the dict, is replaced by the variable's value ([str(var_value)]
    is the value itself, values being strings here). *)
Definition substitute (content : string) (variables : list (string * string)) : string :=
  fold_left
    (fun policy_content kv =>
       let placeholder := "${" +:+ fst kv +:+ "}" in
       str_replace placeholder (snd kv) policy_content)
    variables content.

(** [PolicyManager.generate_policy]. *)
Definition generate_policy (template : PolicyTemplate) (variables : list (string * string))
  : Res string :=
  let policy_content := substitute (template_content template) variables in
  let missing_vars := _find_missing_variables policy_content variables in
  match missing_vars with
  | [] => Ok policy_content
  | _ => Raise (ValueError "Missing required variables: " missing_vars)
  end.

(** [PolicyManager.create_trust_policy]: the document handed to
    [json.dumps(..., indent=2)]; the model keeps the value, of which the
    printed text is a faithful rendering. *)
Definition create_trust_policy (external_id : option string)
    (allowed_departments ip_ranges : list string) (mfa_required : bool) : json :=
  TrustPolicy_dict
    (create_for_external_id external_id allowed_departments ip_ranges mfa_required).

(** A statement of a boundary policy. *)
Definition statement (effect : string) (action : json) : json :=
  JDict [ ("Effect", JStr effect); ("Action", action); ("Resource", JStr "*") ].

(** [PolicyManager.create_permission_boundary]: the entry of the table
    [boundary_policies] for the tier, as handed to [json.dumps]. *)
Definition create_permission_boundary (permission_tier : PermissionTier) : json :=
  match permission_tier with
  | READ_ONLY =>
      JDict [ ("Version", JStr "2012-10-17");
              ("Statement", JList
                 [ statement "Allow"
                     (JStrs ["s3:GetObject"; "s3:ListBucket"; "ec2:Describe*";
                             "iam:Get*"; "iam:List*"]);
                   statement "Deny"
                     (JStrs ["iam:*"; "s3:PutObject"; "s3:DeleteObject";
                             "ec2:Modify*"; "ec2:Create*"; "ec2:Delete*"]) ]) ]
  | DEVELOPER =>
      JDict [ ("Version", JStr "2012-10-17");
              ("Statement", JList
                 [ statement "Allow"
                     (JStrs ["s3:*"; "ec2:*"; "lambda:*"; "iam:Get*"; "iam:List*";
                             "iam:PassRole"]);
                   statement "Deny"
                     (JStrs ["iam:CreateRole"; "iam:DeleteRole"; "iam:AttachRolePolicy";
                             "iam:DetachRolePolicy"; "iam:PutRolePolicy";
                             "iam:DeleteRolePolicy"; "kms:DeleteKey";
                             "kms:ScheduleKeyDeletion"]) ]) ]
  | ADMIN =>
      JDict [ ("Version", JStr "2012-10-17");
              ("Statement", JList
                 [ statement "Allow" (JStr "*");
                   statement "Deny"
                     (JStrs ["iam:DeleteAccountPasswordPolicy"; "iam:DeleteAccountAlias";
                             "iam:DeleteAccount"; "organizations:LeaveOrganization";
                             "organizations:DeleteOrganization"]) ]) ]
  | BREAK_GLASS =>
      JDict [ ("Version", JStr "2012-10-17");
              ("Statement", JList [ statement "Allow" (JStr "*") ]) ]
  end.

(** *** Reading a policy document *)

(** IAM matches an action against a pattern in which [*] stands for any run
    of characters and [?] for any one character. *)
Fixpoint action_matches (pattern : string) : string -> bool :=
  match pattern with
  | EmptyString => fun action => (action =? EmptyString)%string
  | String c pattern' =>
      if Ascii.eqb c "*" then
        fix star (action : string) : bool :=
          action_matches pattern' action ||
          match action with
          | EmptyString => false
          | String _ action' => star action'
          end
      else
        fun action =>
          match action with
          | EmptyString => false
          | String d action' =>
              (Ascii.eqb c "?" || Ascii.eqb c d) && action_matches pattern' action'
          end
  end.

Definition policy_statements (doc : json) : list json :=
  match doc with
  | JDict d => match dict_get "Statement" d with Some (JList l) => l | _ => [] end
  | _ => []
  end.

Definition statement_effect (st : json) : option string :=
  match st with
  | JDict d => match dict_get "Effect" d with Some (JStr e) => Some e | _ => None end
  | _ => None
  end.

(** The [Action] of a statement is one pattern or a list of patterns. *)
Definition statement_actions (st : json) : list string :=
  match st with
  | JDict d =>
      match dict_get "Action" d with
      | Some (JStr a) => [a]
      | Some (JList l) =>
          flat_map (fun j => match j with JStr a => [a] | _ => [] end) l
      | _ => []
      end
  | _ => []
  end.

(** Some [Deny] statement of the document covers the action. *)
Definition explicitly_denies (doc : json) (action : string) : bool :=
  existsb
    (fun st =>
       match statement_effect st with
       | Some e => (e =? "Deny")%string && existsb (fun p => action_matches p action) (statement_actions st)
       | None => false
       end)
    (policy_statements doc).

(** The actions by which a role could widen its own rights: changing roles
    and their policies, and deleting keys. *)
Definition role_policy_mutation_actions : list string :=
  ["iam:CreateRole"; "iam:DeleteRole"; "iam:AttachRolePolicy";
   "iam:DetachRolePolicy"; "iam:PutRolePolicy"; "iam:DeleteRolePolicy"].

Definition key_deletion_actions : list string :=
  ["kms:DeleteKey"; "kms:ScheduleKeyDeletion"].

Definition self_escalation_actions : list string :=
  role_policy_mutation_actions ++ key_deletion_actions.

(** *** Default templates *)

Definition dq : string := String (ascii_of_nat 34) EmptyString.
Definition nl : string := String (ascii_of_nat 10) EmptyString.

(** A string between double quotes. *)
Definition qs (s : string) : string := dq +:+ s +:+ dq.

(** A line at nesting depth [n], four spaces a level. *)
Fixpoint ind (n : nat) (s : string) : string :=
  match n with
  | O => s
  | S n' => "    " +:+ ind n' s
  end.

Definition lines (l : list string) : string := String.concat nl l.

Definition read_only_template_content : string :=
  lines
    [ "{";
      ind 1 (qs "Version" +:+ ": " +:+ qs "2012-10-17" +:+ ",");
      ind 1 (qs "Statement" +:+ ": [");
      ind 2 "{";
      ind 3 (qs "Effect" +:+ ": " +:+ qs "Allow" +:+ ",");
      ind 3 (qs "Action" +:+ ": [");
      ind 4 (qs "s3:GetObject" +:+ ",");
      ind 4 (qs "s3:ListBucket");
      ind 3 "],";
      ind 3 (qs "Resource" +:+ ": [");
      ind 4 (qs "arn:aws:s3:::${projectId}-*" +:+ ",");
      ind 4 (qs "arn:aws:s3:::${projectId}-*/*");
      ind 3 "]";
      ind 2 "},";
      ind 2 "{";
      ind 3 (qs "Effect" +:+ ": " +:+ qs "Allow" +:+ ",");
      ind 3 (qs "Action" +:+ ": [");
      ind 4 (qs "ec2:Describe*" +:+ ",");
      ind 4 (qs "iam:Get*" +:+ ",");
      ind 4 (qs "iam:List*");
      ind 3 "],";
      ind 3 (qs "Resource" +:+ ": " +:+ qs "*");
      ind 2 "}";
      ind 1 "]";
      "}" ].

Definition developer_template_content : string :=
  lines
    [ "{";
      ind 1 (qs "Version" +:+ ": " +:+ qs "2012-10-17" +:+ ",");
      ind 1 (qs "Statement" +:+ ": [");
      ind 2 "{";
      ind 3 (qs "Effect" +:+ ": " +:+ qs "Allow" +:+ ",");
      ind 3 (qs "Action" +:+ ": [");
      ind 4 (qs "s3:*");
      ind 3 "],";
      ind 3 (qs "Resource" +:+ ": [");
      ind 4 (qs "arn:aws:s3:::${projectId}-*" +:+ ",");
      ind 4 (qs "arn:aws:s3:::${projectId}-*/*");
      ind 3 "]";
      ind 2 "},";
      ind 2 "{";
      ind 3 (qs "Effect" +:+ ": " +:+ qs "Allow" +:+ ",");
      ind 3 (qs "Action" +:+ ": [");
      ind 4 (qs "ec2:*" +:+ ",");
      ind 4 (qs "lambda:*" +:+ ",");
      ind 4 (qs "iam:Get*" +:+ ",");
      ind 4 (qs "iam:List*" +:+ ",");
      ind 4 (qs "iam:PassRole");
      ind 3 "],";
      ind 3 (qs "Resource" +:+ ": " +:+ qs "*");
      ind 2 "}";
      ind 1 "]";
      "}" ].

Definition admin_template_content : string :=
  lines
    [ "{";
      ind 1 (qs "Version" +:+ ": " +:+ qs "2012-10-17" +:+ ",");
      ind 1 (qs "Statement" +:+ ": [");
      ind 2 "{";
      ind 3 (qs "Effect" +:+ ": " +:+ qs "Allow" +:+ ",");
      ind 3 (qs "Action" +:+ ": " +:+ qs "*" +:+ ",");
      ind 3 (qs "Resource" +:+ ": " +:+ qs "*");
      ind 2 "}";
      ind 1 "]";
      "}" ].

(** The module-level dict [DEFAULT_TEMPLATES] of [policy_manager.py]; it has
    no entry for the break-glass tier. *)
Definition DEFAULT_TEMPLATES (permission_tier : PermissionTier) : option PolicyTemplate :=
  match permission_tier with
  | READ_ONLY =>
      Some (mkPolicyTemplate "read-only-template" READ_ONLY
              read_only_template_content ["projectId"] "1.0")
  | DEVELOPER =>
      Some (mkPolicyTemplate "developer-template" DEVELOPER
              developer_template_content ["projectId"] "1.0")
  | ADMIN =>
      Some (mkPolicyTemplate "admin-template" ADMIN admin_template_content [] "1.0")
  | BREAK_GLASS => None
  end.

(** What an instance of [PolicyManager] answers to attribute access: the two
    clients set by [__init__] and the methods of the class.  The name
    [policy_manager] that [role_vendor.py] imports is bound to such an
    instance, not to the module. *)
Definition PolicyManager_attributes : list string :=
  [ "s3"; "iam"; "get_policy_template"; "generate_policy"; "create_trust_policy";
    "create_permission_boundary"; "validate_policy"; "_find_missing_variables";
    "upload_template" ].

(** [getattr(policy_manager, name)], as far as its success goes. *)
Definition policy_manager_getattr (name : string) : Res unit :=
  if existsb (String.eqb name) PolicyManager_attributes then Ok tt
  else Raise (AttributeError ("'PolicyManager' object has no attribute '" +:+ name +:+ "'")).

(** ** The AWS services

    The services are the environment of the package.  A call is refused
    with a [ClientError] when the state of the service says so (no such
    object in the bucket, a role of that name already there), and raises
    whatever [fault] decides for it (throttling, denied access, a lost
    connection); otherwise it succeeds. *)

Inductive Call : Type :=
  | PutItem (project session : string)
  | GetItem (project session : string)
  | UpdateItem (project session : string)
  | Query (index : string)
  | AuditPutItem
  | S3GetObject (bucket key : string)
  | IamCreateRole (role_name : string)
  | IamPutRolePolicy (role_name : string)
  | StsAssumeRole (role_arn : string)
  | SnsPublish (topic : string).

(** An item of the sessions table: its attributes other than the key
    [(ProjectId, SessionId)], each present or absent.  The fields [item_...]
    are the Pascal-case attributes [UserId], [RoleArn], [PermissionTier],
    [RequestedAt], [ExpiresAt], [Status] and [RequestMetadata]; the fields
    [snake_...] are the snake-case attributes [project_id], [session_id],
    [user_id], [role_arn], [permission_tier], [requested_at], [expires_at],
    [status] and [request_metadata]. *)
Record Item : Type := mkItem {
  item_user_id : option string;
  item_role_arn : option string;
  item_permission_tier : option PermissionTier;
  item_requested_at : option Z;
  item_expires_at : option Z;
  item_status : option SessionStatus;
  item_request_metadata : option (list (string * json));
  snake_project_id : option string;
  snake_session_id : option string;
  snake_user_id : option string;
  snake_role_arn : option string;
  snake_permission_tier : option PermissionTier;
  snake_requested_at : option Z;
  snake_expires_at : option Z;
  snake_status : option SessionStatus;
  snake_request_metadata : option (list (string * json))
}.

Definition empty_item : Item :=
  mkItem None None None None None None None
         None None None None None None None None None.

(** The body of an object of the bucket: the JSON text of a policy template,
    or anything else. *)
Inductive S3Body : Type :=
  | TemplateJson (t : PolicyTemplate)
  | OtherBody (text : string).

Record IamRole : Type := mkIamRole {
  iam_role_name : string;
  iam_assume_role_policy : json;
  iam_description : string;
  iam_max_session_duration : Z;
  iam_tags : list (string * string);
  iam_permissions_boundary : option json;
  iam_inline_policies : list (string * string)
}.

(** The state of the services, the clock, the faults and the identifiers to
    come.  [page_limit] is the number of items an index yields in one page
    of a query. *)
Record World : Type := mkWorld {
  clock : Z;
  fault : Call -> option exn;
  entropy : nat -> string;
  drawn : nat;
  sessions_table : gmap (string * string) Item;
  audit_table : list AuditLog;
  bucket : gmap (string * string) S3Body;
  iam_roles : list IamRole;
  sns_messages : list (string * json);
  page_limit : nat
}.

Definition with_drawn (n : nat) (w : World) : World :=
  mkWorld (clock w) (fault w) (entropy w) n (sessions_table w) (audit_table w)
          (bucket w) (iam_roles w) (sns_messages w) (page_limit w).

Definition with_sessions_table (t : gmap (string * string) Item) (w : World) : World :=
  mkWorld (clock w) (fault w) (entropy w) (drawn w) t (audit_table w)
          (bucket w) (iam_roles w) (sns_messages w) (page_limit w).

Definition with_audit_table (a : list AuditLog) (w : World) : World :=
  mkWorld (clock w) (fault w) (entropy w) (drawn w) (sessions_table w) a
          (bucket w) (iam_roles w) (sns_messages w) (page_limit w).

Definition with_iam_roles (r : list IamRole) (w : World) : World :=
  mkWorld (clock w) (fault w) (entropy w) (drawn w) (sessions_table w) (audit_table w)
          (bucket w) r (sns_messages w) (page_limit w).

Definition with_sns_messages (m : list (string * json)) (w : World) : World :=
  mkWorld (clock w) (fault w) (entropy w) (drawn w) (sessions_table w) (audit_table w)
          (bucket w) (iam_roles w) m (page_limit w).

(** *** Computations over the world *)

Definition M (A : Type) : Type := World -> Res A * World.

#[global] Instance M_ret : MRet M := fun A a w => (Ok a, w).

#[global] Instance M_bind : MBind M := fun A B k m w =>
  match m w with
  | (Ok a, w') => k a w'
  | (Raise e, w') => (Raise e, w')
  end.

Definition raise {A} (e : exn) : M A := fun w => (Raise e, w).

Definition lift {A} (r : Res A) : M A := fun w => (r, w).

Definition gets {A} (f : World -> A) : M A := fun w => (Ok (f w), w).

Definition modify (f : World -> World) : M unit := fun w => (Ok tt, f w).

(** [try: body except ...: handler]: [handler e] is the clause that catches
    [e], if there is one.  What a clause raises is not caught by its
    siblings. *)
Definition try_except {A} (body : M A) (handler : exn -> option (M A)) : M A :=
  fun w =>
    match body w with
    | (Ok a, w') => (Ok a, w')
    | (Raise e, w') =>
        match handler e with
        | Some h => h w'
        | None => (Raise e, w')
        end
    end.

(** [except ClientError: ...]. *)
Definition except_ClientError {A} (h : M A) (e : exn) : option (M A) :=
  if is_ClientError e then Some h else None.

(** [except Exception: ...]. *)
Definition except_Exception {A} (h : exn -> M A) (e : exn) : option (M A) :=
  Some (h e).

(** The transport of a call: it raises what [fault] decides. *)
Definition call (c : Call) : M unit :=
  fun w => match fault w c with Some e => (Raise e, w) | None => (Ok tt, w) end.

(** [datetime.utcnow()] and [time.time()]. *)
Definition utcnow : M Z := gets clock.

(** [str(uuid4())]. *)
Definition uuid4 : M string :=
  fun w => (Ok (entropy w (drawn w)), with_drawn (S (drawn w)) w).

(** *** DynamoDB *)

(** [table.put_item(Item=item)]: the item replaces any item with its key. *)
Definition put_item (key : string * string) (item : Item) : M unit :=
  _ ← call (PutItem key.1 key.2);
  modify (fun w => with_sessions_table (<[key := item]> (sessions_table w)) w).

(** [table.get_item(Key=key)]. *)
Definition get_item (key : string * string) : M (option Item) :=
  _ ← call (GetItem key.1 key.2);
  gets (fun w => sessions_table w !! key).

(** [table.update_item(Key=key, UpdateExpression="SET ...")] with no
    condition: the attributes are set on the item of that key, which is
    created when the table has none. *)
Definition update_item (key : string * string) (set : Item -> Item) : M unit :=
  _ ← call (UpdateItem key.1 key.2);
  modify (fun w =>
    with_sessions_table
      (partial_alter (fun o => Some (set (default empty_item o))) key (sessions_table w)) w).

(** [table.query(IndexName=index, KeyConditionExpression=..., FilterExpression=...)],
    read once: the response holds one page.  The index yields the items that
    carry its attribute and satisfy the key condition, a page of them at
    most; the filter expression is applied to that page. *)
Definition query (index : string) (key_condition filter_expression : Item -> bool)
  : M (list ((string * string) * Item)) :=
  _ ← call (Query index);
  gets (fun w =>
    List.filter (fun ki => filter_expression ki.2)
      (take (page_limit w)
         (List.filter (fun ki => key_condition ki.2) (map_to_list (sessions_table w))))).

(** [audit_table.put_item(Item=item)]: the audit table only grows. *)
Definition audit_put_item (entry : AuditLog) : M unit :=
  _ ← call AuditPutItem;
  modify (fun w => with_audit_table (audit_table w ++ [entry]) w).

(** *** S3, IAM, STS, SNS *)

(** [s3.get_object(Bucket=..., Key=...)]. *)
Definition s3_get_object (bucket_name key : string) : M S3Body :=
  _ ← call (S3GetObject bucket_name key);
  o ← gets (fun w => bucket w !! (bucket_name, key));
  match o with
  | Some body => mret body
  | None => raise (ClientError "NoSuchKey")
  end.

(** [json.loads(body)] followed by the construction of the [PolicyTemplate]
    from the decoded fields. *)
Definition load_template (body : S3Body) : Res PolicyTemplate :=
  match body with
  | TemplateJson t => Ok t
  | OtherBody _ => Raise (ValueError "not the JSON of a policy template" [])
  end.

Definition has_role (name : string) (w : World) : bool :=
  existsb (fun r => (iam_role_name r =? name)%string) (iam_roles w).

(** [iam.create_role(...)]. *)
Definition iam_create_role (role : IamRole) : M unit :=
  _ ← call (IamCreateRole (iam_role_name role));
  present ← gets (has_role (iam_role_name role));
  if (present : bool) then raise (ClientError "EntityAlreadyExists")
  else modify (fun w => with_iam_roles (iam_roles w ++ [role]) w).

Definition add_inline_policy (policy_name document : string) (r : IamRole) : IamRole :=
  mkIamRole (iam_role_name r) (iam_assume_role_policy r) (iam_description r)
            (iam_max_session_duration r) (iam_tags r) (iam_permissions_boundary r)
            ((policy_name, document) ::
             List.filter (fun p => negb (p.1 =? policy_name)%string) (iam_inline_policies r)).

(** [iam.put_role_policy(RoleName=..., PolicyName=..., PolicyDocument=...)]. *)
Definition iam_put_role_policy (role_name policy_name document : string) : M unit :=
  _ ← call (IamPutRolePolicy role_name);
  present ← gets (has_role role_name);
  if (present : bool)
  then modify (fun w =>
         with_iam_roles
           (map (fun r => if (iam_role_name r =? role_name)%string
                          then add_inline_policy policy_name document r else r)
                (iam_roles w)) w)
  else raise (ClientError "NoSuchEntity").

(** The [Credentials] part of the response of [sts.assume_role]. *)
Record StsCredentials : Type := mkStsCredentials {
  AccessKeyId : string;
  SecretAccessKey : string;
  SessionToken : string;
  Expiration : Z
}.

(** [sts.assume_role(...)]: whether the authority grants the request is
    [fault]'s decision; the secrets it hands out are fresh. *)
Definition sts_assume_role (role_arn session_name : string) (duration_seconds : Z)
    (external_id : option json) : M StsCredentials :=
  _ ← call (StsAssumeRole role_arn);
  k ← uuid4;
  s ← uuid4;
  t ← uuid4;
  now ← utcnow;
  mret (mkStsCredentials k s t (now + duration_seconds)).

(** [sns.publish(TopicArn=..., Message=..., Subject=...)]. *)
Definition sns_publish (topic : string) (message : json) : M unit :=
  _ ← call (SnsPublish topic);
  modify (fun w => with_sns_messages (sns_messages w ++ [(topic, message)]) w).

(** ** policy_manager.py, continued *)

(** [PolicyManager.get_policy_template]. *)
Definition get_policy_template (settings : Settings) (permission_tier : PermissionTier)
  : M (option PolicyTemplate) :=
  try_except
    (let key := "templates/" +:+ tier_value permission_tier +:+ ".json" in
     body ← s3_get_object (policy_templates_bucket settings) key;
     template ← lift (load_template body);
     mret (Some template))
    (except_ClientError (mret None)).

(** ** database.py *)

Definition session_key (session : RoleSession) : string * string :=
  (project_id session, session_id session).

(** The item [create_session] writes: [session.dict()], whose keys are the
    snake-case names of the fields; it has no Pascal-case attribute. *)
Definition session_item (session : RoleSession) : Item :=
  mkItem None None None None None None None
         (Some (project_id session)) (Some (session_id session))
         (Some (user_id session)) (Some (role_arn session))
         (Some (permission_tier session)) (Some (requested_at session))
         (Some (expires_at session)) (Some (status session))
         (Some (request_metadata session)).

(** [DynamoDBManager.create_session]. *)
Definition create_session (session : RoleSession) : M bool :=
  try_except
    (_ ← put_item (session_key session) (session_item session);
     mret true)
    (except_ClientError (mret false)).

(** [DynamoDBManager._item_to_session], on the item found under [key] at
    time [now]; the key gives the attributes [ProjectId] and [SessionId] of
    the item.  The two conversions at the top read the snake-case
    [requested_at] and [expires_at]: without them the lookup raises and the
    result is [None].  The mapping then copies the Pascal-case attributes
    only, and [RoleSession] requires [project_id], [user_id], [role_arn],
    [permission_tier] and [expires_at]: without [UserId], [RoleArn],
    [PermissionTier] or [ExpiresAt] the result is [None] again.
    [RequestedAt], [Status] and [RequestMetadata] have the defaults of the
    model: the current time, PENDING and the empty dict. *)
Definition _item_to_session (now : Z) (key : string * string) (item : Item)
  : option RoleSession :=
  match snake_requested_at item, snake_expires_at item with
  | Some _, Some _ =>
      match item_user_id item, item_role_arn item, item_permission_tier item,
            item_expires_at item with
      | Some u, Some r, Some t, Some ea =>
          Some (mkRoleSession key.1 key.2 u r t
                  (default now (item_requested_at item)) ea
                  (default PENDING (item_status item))
                  (default [] (item_request_metadata item)))
      | _, _, _, _ => None
      end
  | _, _ => None
  end.

(** [DynamoDBManager.get_session]. *)
Definition get_session (project session : string) : M (option RoleSession) :=
  try_except
    (o ← get_item (project, session);
     now ← utcnow;
     mret (match o with
           | Some item => _item_to_session now (project, session) item
           | None => None
           end))
    (except_ClientError (mret None)).

(** Truth value of an optional dict: [None] and the empty dict are false. *)
Definition truthy_dict {A} (o : option (list (string * A))) : bool :=
  match o with
  | Some (_ :: _) => true
  | _ => false
  end.

(** The update expression of [update_session_status]:
    [SET #status = :status] with [#status] standing for [Status], and
    [RequestMetadata = :metadata] when metadata is given.  The other
    attributes, the snake-case [status] and [request_metadata] among them,
    stay as they are. *)
Definition set_status (new_status : SessionStatus)
    (metadata : option (list (string * json))) (item : Item) : Item :=
  mkItem (item_user_id item) (item_role_arn item) (item_permission_tier item)
         (item_requested_at item) (item_expires_at item) (Some new_status)
         (if truthy_dict metadata then metadata else item_request_metadata item)
         (snake_project_id item) (snake_session_id item) (snake_user_id item)
         (snake_role_arn item) (snake_permission_tier item) (snake_requested_at item)
         (snake_expires_at item) (snake_status item) (snake_request_metadata item).

(** [DynamoDBManager.update_session_status]. *)
Definition update_session_status (project session : string) (new_status : SessionStatus)
    (metadata : option (list (string * json))) : M bool :=
  try_except
    (_ ← update_item (project, session) (set_status new_status metadata);
     mret true)
    (except_ClientError (mret false)).

(** The key condition of the query of [get_expired_sessions]:
    [Key('ExpiresAt').lt(current_time)]. *)
Definition expires_before (now : Z) (item : Item) : bool :=
  match item_expires_at item with
  | Some e => e <? now
  | None => false
  end.

(** Its filter expression: [Attr('Status').ne('EXPIRED')]. *)
Definition not_marked (item : Item) : bool :=
  negb (bool_decide (item_status item = Some EXPIRED)).


(** [DynamoDBManager.get_expired_sessions]. *)
Definition get_expired_sessions : M (list RoleSession) :=
  try_except
    (current_time ← utcnow;
     items ← query "ExpiresAtIndex" (expires_before current_time) not_marked;
     now ← utcnow;
     mret (omap (fun ki => _item_to_session now ki.1 ki.2) items))
    (except_ClientError (mret [])).

(** [DynamoDBManager.log_audit_event]. *)
Definition log_audit_event (audit_log : AuditLog) : M bool :=
  try_except
    (_ ← audit_put_item audit_log;
     mret true)
    (except_ClientError (mret false)).

(** ** role_vendor.py *)

(** [str(e)]. *)
Definition str_of_exn (e : exn) : string :=
  match e with
  | ClientError code => code
  | BotoCoreError msg => msg
  | ValueError msg names => msg +:+ String.concat ", " names
  | AttributeError msg => msg
  end.

Definition with_external_id (external_id : option string) (r : RoleRequest) : RoleRequest :=
  mkRoleRequest (req_project_id r) (req_user_id r) (req_permission_tier r)
                (req_duration_hours r) (req_reason r) (req_ip_address r)
                (req_mfa_used r) external_id.

Definition activated (arn : string) (s : RoleSession) : RoleSession :=
  mkRoleSession (project_id s) (session_id s) (user_id s) arn (permission_tier s)
                (requested_at s) (expires_at s) ACTIVE (request_metadata s).

Section RoleVendor.

Context `{Ipaddress}.
Variable settings : Settings.

(** The loop of [_is_ip_allowed] over [settings.allowed_ip_ranges]. *)
Fixpoint ip_in_ranges (ip : IPAddress) (ranges : list string) : Res bool :=
  match ranges with
  | [] => Ok false
  | cidr :: rest =>
      match ip_network cidr with
      | None => Raise (ValueError "does not appear to be an IPv4 or IPv6 network" [cidr])
      | Some network =>
          if ip_in_network ip network then Ok true else ip_in_ranges ip rest
      end
  end.

(** [RoleVendor._is_ip_allowed]. *)
Definition _is_ip_allowed (ip_address_text : string) : Res bool :=
  let body :=
    match ip_address ip_address_text with
    | None =>
        Raise (ValueError "does not appear to be an IPv4 or IPv6 address" [ip_address_text])
    | Some ip => ip_in_ranges ip (allowed_ip_ranges settings)
    end in
  match body with
  | Ok b => Ok b
  | Raise e => if is_ValueError e then Ok false else Raise e
  end.

(** [RoleVendor._validate_request]. *)
Definition _validate_request (request : RoleRequest) : Res bool :=
  res_bind
    (if truthy_str (req_ip_address request)
     then res_bind (_is_ip_allowed (str_of_opt (req_ip_address request)))
                   (fun allowed => Ok (negb allowed))
     else Ok false)
    (fun ip_refused =>
       if (ip_refused : bool) then Ok false
       else if mfa_required settings && negb (req_mfa_used request) then Ok false
       else if max_session_duration settings / 3600 <? req_duration_hours request
       then Ok false
       else Ok true).

(** [RoleVendor._log_audit_event]. *)
Definition _log_audit_event (user action : string) (tier : PermissionTier)
    (result : string) (session_duration : option Z)
    (error_details : option (list (string * json))) : M unit :=
  timestamp ← utcnow;
  request_id ← uuid4;
  let audit_log :=
    mkAuditLog timestamp request_id user action (Some tier) session_duration
               None false result error_details in
  _ ← log_audit_event audit_log;
  mret tt.

(** [RoleVendor._create_session_record]. *)
Definition _create_session_record (request : RoleRequest) : M (option RoleSession) :=
  try_except
    (now ← utcnow;
     let expires := now + 3600 * req_duration_hours request in
     sid ← uuid4;
     requested ← utcnow;
     let session :=
       mkRoleSession (req_project_id request) sid (req_user_id request)
         EmptyString (req_permission_tier request) requested expires PENDING
         [ ("external_id", json_of_opt_str (req_external_id request));
           ("ip_address", json_of_opt_str (req_ip_address request));
           ("mfa_used", JBool (req_mfa_used request));
           ("reason", JStr (req_reason request)) ] in
     created ← create_session session;
     if (created : bool) then mret (Some session) else mret None)
    (except_Exception (fun _ => mret None)).

(** [RoleVendor._create_temporary_role].  Timestamps print as their number
    of seconds. *)
Definition _create_temporary_role (request : RoleRequest) (sid : string)
  : M (option string) :=
  try_except
    (let role_name :=
       "temp-role-" +:+ req_project_id request +:+ "-" +:+ str_take 8 sid in
     stored ← get_policy_template settings (req_permission_tier request);
     template ←
       match stored with
       | Some t => mret t
       | None =>
           _ ← lift (policy_manager_getattr "DEFAULT_TEMPLATES");
           match DEFAULT_TEMPLATES (req_permission_tier request) with
           | Some t => mret t
           | None => raise (ValueError "No template found for "
                              [tier_value (req_permission_tier request)])
           end
       end;
     let policy_variables :=
       [ ("projectId", req_project_id request);
         ("userId", req_user_id request);
         ("sessionId", sid) ] in
     policy_document ← lift (generate_policy template policy_variables);
     let trust_policy :=
       create_trust_policy (req_external_id request) (allowed_departments settings)
         (allowed_ip_ranges settings) (mfa_required settings) in
     now ← utcnow;
     _ ← iam_create_role
           (mkIamRole role_name trust_policy
              ("Temporary role for " +:+ req_user_id request +:+ " on project "
               +:+ req_project_id request)
              (Z.min 3600 (req_duration_hours request * 3600))
              [ ("Project", req_project_id request);
                ("User", req_user_id request);
                ("SessionId", sid);
                ("PermissionTier", tier_value (req_permission_tier request));
                ("CreatedBy", "iam-role-vendor");
                ("ExpiresAt", str_of_Z (now + 3600 * req_duration_hours request)) ]
              None []);
     _ ← iam_put_role_policy role_name "TemporaryAccessPolicy" policy_document;
     mret (Some (get_role_arn (aws_account_id settings) role_name)))
    (except_Exception (fun _ => mret None)).

(** [RoleVendor._expire_session]. *)
Definition _expire_session (session : RoleSession) : M unit :=
  _ ← update_session_status (project_id session) (session_id session) EXPIRED None;
  mret tt.

(** [RoleVendor._send_break_glass_notification]. *)
Definition _send_break_glass_notification (session : RoleSession) : M unit :=
  match break_glass_notification_topic settings with
  | None => mret tt
  | Some EmptyString => mret tt
  | Some topic =>
      try_except
        (now ← utcnow;
         sns_publish topic
           (JDict [ ("alert_type", JStr "BREAK_GLASS_ACCESS");
                    ("user_id", JStr (user_id session));
                    ("project_id", JStr (project_id session));
                    ("session_id", JStr (session_id session));
                    ("timestamp", JStr (str_of_Z now));
                    ("expires_at", JStr (str_of_Z (expires_at session))) ]))
        (except_Exception (fun _ => mret tt))
  end.

(** [RoleVendor.request_role]. *)
Definition request_role (request : RoleRequest) : M (option RoleSession) :=
  try_except
    (valid ← lift (_validate_request request);
     if negb valid then mret None
     else
       now ← utcnow;
       let external_id :=
         get_external_id now (req_project_id request) (req_user_id request) in
       let request := with_external_id (Some external_id) request in
       created ← _create_session_record request;
       match created with
       | None => mret None
       | Some session =>
           role ← _create_temporary_role request (session_id session);
           if truthy_str role then
             let arn := str_of_opt role in
             let session := activated arn session in
             _ ← update_session_status (project_id session) (session_id session)
                   ACTIVE (Some [("role_arn", JStr arn)]);
             _ ← _log_audit_event (req_user_id request) "ROLE_REQUESTED"
                   (req_permission_tier request) "SUCCESS"
                   (Some (req_duration_hours request * 3600)) None;
             mret (Some session)
           else
             _ ← update_session_status (project_id session) (session_id session)
                   FAILED None;
             mret None
       end)
    (except_Exception (fun e =>
       _ ← _log_audit_event (req_user_id request) "ROLE_REQUESTED"
             (req_permission_tier request) "FAILURE" None
             (Some [("error", JStr (str_of_exn e))]);
       mret None)).

(** [RoleVendor.assume_role]. *)
Definition assume_role (session : RoleSession) (name : option string)
  : M (option Credentials) :=
  try_except
    (_ ← (if bool_decide (status session = ACTIVE) then mret tt
          else raise (ValueError "Session is not active" []));
     now ← utcnow;
     _ ← (if expires_at session <? now
          then _ ← _expire_session session;
               raise (ValueError "Session has expired" [])
          else mret tt);
     let name :=
       if truthy_str name then str_of_opt name
       else "temp-role-" +:+ str_take 8 (session_id session) in
     now ← utcnow;
     response ← sts_assume_role (role_arn session) name
                  (Z.min 3600 (expires_at session - now))
                  (dict_get "external_id" (request_metadata session));
     let credentials :=
       mkCredentials (AccessKeyId response) (SecretAccessKey response)
                     (SessionToken response) (Expiration response)
                     (role_arn session) name in
     _ ← _log_audit_event (user_id session) "ROLE_ASSUMED"
           (permission_tier session) "SUCCESS" None None;
     mret (Some credentials))
    (fun e =>
       if is_ClientError e
       then Some (_ ← _log_audit_event (user_id session) "ROLE_ASSUMED"
                        (permission_tier session) "FAILURE" None
                        (Some [("error", JStr (str_of_exn e))]);
                  mret None)
       else Some (mret None)).

(** [RoleVendor.revoke_session]. *)
Definition revoke_session (project sid : string) : M bool :=
  try_except
    (found ← get_session project sid;
     match found with
     | None => mret false
     | Some session =>
         success ← update_session_status project sid REVOKED None;
         _ ← (if (success : bool) then
                _ ← _log_audit_event (user_id session) "ROLE_REVOKED"
                      (permission_tier session) "SUCCESS" None None;
                if bool_decide (permission_tier session = BREAK_GLASS)
                then _send_break_glass_notification session
                else mret tt
              else mret tt);
         mret success
     end)
    (except_Exception (fun _ => mret false)).

(** The loop of [cleanup_expired_sessions]. *)
Fixpoint cleanup_loop (sessions : list RoleSession) (cleaned_count : nat) : M nat :=
  match sessions with
  | [] => mret cleaned_count
  | session :: rest =>
      updated ← update_session_status (project_id session) (session_id session)
                  EXPIRED None;
      if (updated : bool) then
        _ ← _log_audit_event (user_id session) "ROLE_EXPIRED"
              (permission_tier session) "SUCCESS" None None;
        cleanup_loop rest (S cleaned_count)
      else cleanup_loop rest cleaned_count
  end.

(** [RoleVendor.cleanup_expired_sessions]. *)
Definition cleanup_expired_sessions : M nat :=
  try_except
    (expired_sessions ← get_expired_sessions;
     cleanup_loop expired_sessions O)
    (except_Exception (fun _ => mret O)).

End RoleVendor.

(** ** Sample configurations and worlds *)

(** A world in which no call is disturbed. *)
Definition no_fault : Call -> option exn := fun _ => None.

(** Identifiers in the layout of [uuid4], numbered in the order drawn. *)
Definition sample_uuid (n : nat) : string :=
  Sha256.hex8 (Z.of_nat n) "-0000-4000-8000-000000000000".

(** [Settings()] under [IAM_ROLE_MAX_SESSION_DURATION] and
    [IAM_ROLE_AWS_ACCOUNT_ID]. *)
Definition configured (max_duration : Z) (account : string) : Settings :=
  let s := default_settings in
  mkSettings (aws_region s) (Some account) (dynamodb_table_name s) (dynamodb_region s)
    (policy_templates_bucket s) (mfa_required s) max_duration (allowed_ip_ranges s)
    (allowed_departments s) (api_gateway_stage s) (rate_limit_per_minute s)
    (log_level s) (enable_cloudtrail s) (break_glass_role_arn s)
    (break_glass_notification_topic s) (cleanup_interval_hours s)
    (session_cleanup_delay_hours s).

(** A deployment that lets every tier reach its documented maximum: the
    global ceiling is 36 hours. *)
Definition settings_36h : Settings := configured 129600 "123456789012".

(** The maximum duration of each tier, in hours, as the table printed by
    [list_available_roles] in [cli.py] documents it. *)
Definition tier_max (t : PermissionTier) : Z :=
  match t with
  | READ_ONLY => 36
  | DEVELOPER => 8
  | ADMIN => 8
  | BREAK_GLASS => 1
  end.

Definition world_at (now : Z) (table : gmap (string * string) Item)
    (objects : gmap (string * string) S3Body) : World :=
  mkWorld now no_fault sample_uuid 0 table [] objects [] [] 100.

(** Nothing stored anywhere. *)
Definition empty_world : World := world_at 1700000000 ∅ ∅.

(** The bucket holds a template for each of the four tiers. *)
Definition stored_template (t : PermissionTier) : PolicyTemplate :=
  mkPolicyTemplate (tier_value t +:+ "-template") t
    ("{" +:+ qs "Version" +:+ ": " +:+ qs "2012-10-17" +:+ ", "
     +:+ qs "Statement" +:+ ": [{" +:+ qs "Effect" +:+ ": " +:+ qs "Allow" +:+ ", "
     +:+ qs "Action" +:+ ": [" +:+ qs "s3:GetObject" +:+ "], "
     +:+ qs "Resource" +:+ ": " +:+ qs "arn:aws:s3:::${projectId}-*" +:+ "}]}")
    ["projectId"] "1.0".

Definition stocked_bucket : gmap (string * string) S3Body :=
  list_to_map
    (map (fun t => (("iam-role-templates", "templates/" +:+ tier_value t +:+ ".json"),
                    TemplateJson (stored_template t)))
         [READ_ONLY; DEVELOPER; ADMIN; BREAK_GLASS]).

Definition stocked_world : World := world_at 1700000000 ∅ stocked_bucket.

Definition sample_request (tier : PermissionTier) (hours : Z) (mfa : bool) : RoleRequest :=
  mkRoleRequest "test-project" "test-user" tier hours "Testing the system" None mfa None.

Definition sample_session (sid : string) (expires : Z) (st : SessionStatus) : RoleSession :=
  mkRoleSession "test-project" sid "test-user"
    "arn:aws:iam::123456789012:role/temp-role-test" READ_ONLY 1699990000 expires st [].

(** A session of the sample project as the package stores it: written by
    [create_session] as a pending session, then given the status by
    [update_session_status]. *)
Definition sample_item (expires : Z) (st : SessionStatus) : Item :=
  set_status st None (session_item (sample_session "s-1" expires PENDING)).

(** An item that carries the fields of a session under both spellings of the
    attribute names, as a writer other than [create_session] may leave it. *)
Definition readable_item (session : RoleSession) : Item :=
  mkItem (Some (user_id session)) (Some (role_arn session))
         (Some (permission_tier session)) (Some (requested_at session))
         (Some (expires_at session)) (Some (status session))
         (Some (request_metadata session))
         (Some (project_id session)) (Some (session_id session))
         (Some (user_id session)) (Some (role_arn session))
         (Some (permission_tier session)) (Some (requested_at session))
         (Some (expires_at session)) (Some (status session))
         (Some (request_metadata session)).

(** The [Status] of the item under the key of a session, if the table has
    such an item and the item has the attribute. *)
Definition stored_status (w : World) (project sid : string) : option SessionStatus :=
  match sessions_table w !! (project, sid) with
  | Some item => item_status item
  | None => None
  end.

(** The policy variables [_create_temporary_role] passes. *)
Definition sample_variables (project : string) : list (string * string) :=
  [ ("projectId", project); ("userId", "test-user");
    ("sessionId", "00000000-0000-4000-8000-000000000000") ].

(** IAM refuses to create roles. *)
Definition iam_refuses : Call -> option exn :=
  fun c => match c with
           | IamCreateRole _ => Some (ClientError "LimitExceeded")
           | _ => None
           end.

(** STS refuses to hand out credentials. *)
Definition sts_refuses : Call -> option exn :=
  fun c => match c with
           | StsAssumeRole _ => Some (ClientError "AccessDenied")
           | _ => None
           end.

Definition with_fault (f : Call -> option exn) (w : World) : World :=
  mkWorld (clock w) f (entropy w) (drawn w) (sessions_table w) (audit_table w)
          (bucket w) (iam_roles w) (sns_messages w) (page_limit w).

Definition with_page_limit (n : nat) (w : World) : World :=
  mkWorld (clock w) (fault w) (entropy w) (drawn w) (sessions_table w) (audit_table w)
          (bucket w) (iam_roles w) (sns_messages w) n.

(** The results of the audit entries written so far. *)
Definition audit_results (w : World) : list (string * string) :=
  map (fun a => (al_action a, al_result a)) (audit_table w).

(** One session of the sample project as the package stores it, with the
    given status and expiry. *)
Definition one_session (expires : Z) (st : SessionStatus) : World :=
  world_at 1700000000 (<[("test-project", "s-1") := sample_item expires st]> ∅) stocked_bucket.

(** One readable item, for the session "s-1" of the sample project. *)
Definition one_readable (expires : Z) (st : SessionStatus) : World :=
  world_at 1700000000
    (<[("test-project", "s-1") := readable_item (sample_session "s-1" expires st)]> ∅)
    stocked_bucket.

(** ** The items the package writes *)

(** The item has none of the attributes [UserId], [RoleArn],
    [PermissionTier], [RequestedAt] and [ExpiresAt]. *)
Definition unindexed (item : Item) : bool :=
  match item_user_id item, item_role_arn item, item_permission_tier item,
        item_requested_at item, item_expires_at item with
  | None, None, None, None, None => true
  | _, _, _, _, _ => false
  end.

(** Every item of the table is unindexed: the table holds what
    [create_session] and [update_session_status] wrote, and nothing else. *)
Definition package_table (w : World) : Prop :=
  forall key item, sessions_table w !! key = Some item -> unindexed item = true.

(** ** Vocabulary of the sweep *)

(** No call is disturbed. *)
Definition no_faults (w : World) : Prop := forall c, fault w c = None.




(** The table fits in one page of a query. *)
Definition one_page (w : World) : Prop :=
  (length (map_to_list (sessions_table w)) <= page_limit w)%nat.




(** Five readable items of the sample project: one of each status whose
    expiry has passed at 1700000000, but for the pending one, which
    expires later. *)
Definition five_sessions : World :=
  world_at 1700000000
    (list_to_map
       (map (fun session => (session_key session, readable_item session))
          [ sample_session "s-1" 1699999000 ACTIVE;
            sample_session "s-2" 1699999000 REVOKED;
            sample_session "s-3" 1699999000 FAILED;
            sample_session "s-4" 1699999000 EXPIRED;
            sample_session "s-5" 1700009000 PENDING ]))
    stocked_bucket.

(** The stored statuses of the five sessions. *)
Definition five_statuses (w : World) : list (option SessionStatus) :=
  map (stored_status w "test-project") ["s-1"; "s-2"; "s-3"; "s-4"; "s-5"].

(** ** database.py and role_vendor.py: the reads *)

(** The key condition of the query of [get_user_sessions]:
    [Key('UserId').eq(user_id)]. *)
Definition has_user (user : string) (item : Item) : bool :=
  bool_decide (item_user_id item = Some user).

(** Its filter expression, when a status is given:
    [Attr('Status').eq(status.value)]. *)
Definition has_status (status_filter : option SessionStatus) (item : Item) : bool :=
  match status_filter with
  | Some st => bool_decide (item_status item = Some st)
  | None => true
  end.

(** [DynamoDBManager.get_user_sessions]. *)
Definition get_user_sessions (user : string) (status_filter : option SessionStatus)
  : M (list RoleSession) :=
  try_except
    (items ← query "UserIdIndex" (has_user user) (has_status status_filter);
     now ← utcnow;
     mret (omap (fun ki => _item_to_session now ki.1 ki.2) items))
    (except_ClientError (mret [])).

(** [max(0, (session.expires_at - datetime.utcnow()).total_seconds())]. *)
Definition time_remaining (now : Z) (session : RoleSession) : Z :=
  Z.max 0 (expires_at session - now).

(** The dict [get_session_status] returns.  Timestamps print as their number
    of seconds. *)
Definition status_view (now : Z) (session : RoleSession) : list (string * json) :=
  [ ("session_id", JStr (session_id session));
    ("project_id", JStr (project_id session));
    ("user_id", JStr (user_id session));
    ("permission_tier", JStr (tier_value (permission_tier session)));
    ("status", JStr (status_value (status session)));
    ("requested_at", JStr (str_of_Z (requested_at session)));
    ("expires_at", JStr (str_of_Z (expires_at session)));
    ("time_remaining", JInt (time_remaining now session)) ].

(** The dicts [list_user_sessions] returns: they have no [user_id]. *)
Definition list_view (now : Z) (session : RoleSession) : list (string * json) :=
  [ ("session_id", JStr (session_id session));
    ("project_id", JStr (project_id session));
    ("permission_tier", JStr (tier_value (permission_tier session)));
    ("status", JStr (status_value (status session)));
    ("requested_at", JStr (str_of_Z (requested_at session)));
    ("expires_at", JStr (str_of_Z (expires_at session)));
    ("time_remaining", JInt (time_remaining now session)) ].

(** [RoleVendor.get_session_status]. *)
Definition get_session_status (project sid : string) : M (option (list (string * json))) :=
  try_except
    (found ← get_session project sid;
     match found with
     | None => mret None
     | Some session =>
         now ← utcnow;
         mret (Some (status_view now session))
     end)
    (except_Exception (fun _ => mret None)).

(** [RoleVendor.list_user_sessions]. *)
Definition list_user_sessions (user : string) (status_filter : option SessionStatus)
  : M (list (list (string * json))) :=
  try_except
    (sessions ← get_user_sessions user status_filter;
     now ← utcnow;
     mret (map (list_view now) sessions))
    (except_Exception (fun _ => mret [])).

(** ** Vocabulary of the properties *)

(** The session record [_create_session_record] builds for a request. *)
Definition new_session (request : RoleRequest) (w : World) : RoleSession :=
  mkRoleSession (req_project_id request) (entropy w (drawn w)) (req_user_id request)
    EmptyString (req_permission_tier request) (clock w)
    (clock w + 3600 * req_duration_hours request) PENDING
    [ ("external_id", json_of_opt_str (req_external_id request));
      ("ip_address", json_of_opt_str (req_ip_address request));
      ("mfa_used", JBool (req_mfa_used request));
      ("reason", JStr (req_reason request)) ].

(** The name of the role of a session. *)
Definition role_name_of (project sid : string) : string :=
  "temp-role-" +:+ project +:+ "-" +:+ str_take 8 sid.

(** The world differs from another at most by its IAM roles. *)
Definition same_but_roles (w w' : World) : Prop :=
  clock w' = clock w /\ fault w' = fault w /\ entropy w' = entropy w /\
  drawn w' = drawn w /\ sessions_table w' = sessions_table w /\
  audit_table w' = audit_table w /\ bucket w' = bucket w /\
  sns_messages w' = sns_messages w /\ page_limit w' = page_limit w.





(** Every status update is refused. *)
Definition refuses_updates : Call -> option exn :=
  fun c => match c with
           | UpdateItem _ _ => Some (ClientError "ProvisionedThroughputExceededException")
           | _ => None
           end.

(** The role [_create_temporary_role] asks IAM to create at time [now], with
    the inline policies it has later. *)
Definition role_for (settings : Settings) (request : RoleRequest) (sid : string)
    (now : Z) (policies : list (string * string)) : IamRole :=
  mkIamRole (role_name_of (req_project_id request) sid)
    (create_trust_policy (req_external_id request) (allowed_departments settings)
       (allowed_ip_ranges settings) (mfa_required settings))
    ("Temporary role for " +:+ req_user_id request +:+ " on project "
     +:+ req_project_id request)
    (Z.min 3600 (req_duration_hours request * 3600))
    [ ("Project", req_project_id request);
      ("User", req_user_id request);
      ("SessionId", sid);
      ("PermissionTier", tier_value (req_permission_tier request));
      ("CreatedBy", "iam-role-vendor");
      ("ExpiresAt", str_of_Z (now + 3600 * req_duration_hours request)) ]
    None policies.

(** The policy variables of a request. *)
Definition policy_variables_of (request : RoleRequest) (sid : string)
  : list (string * string) :=
  [ ("projectId", req_project_id request);
    ("userId", req_user_id request);
    ("sessionId", sid) ].

(** The key of the template of a tier in the bucket. *)
Definition template_key (settings : Settings) (tier : PermissionTier) : string * string :=
  (policy_templates_bucket settings, "templates/" +:+ tier_value tier +:+ ".json").

(** The request as [request_role] completes it: with the external
    identifier of the hour. *)
Definition completed (request : RoleRequest) (w : World) : RoleRequest :=
  with_external_id
    (Some (get_external_id (clock w) (req_project_id request) (req_user_id request)))
    request.

(** The ARN [request_role] gives the role of the session it creates in [w]. *)
Definition new_role_arn (settings : Settings) (request : RoleRequest) (w : World) : string :=
  get_role_arn (aws_account_id settings)
    (role_name_of (req_project_id request) (entropy w (drawn w))).

(** The world after [_create_session_record] has stored the new session. *)
Definition after_record (request : RoleRequest) (w : World) : World :=
  with_sessions_table
    (<[(req_project_id request, entropy w (drawn w))
       := session_item (new_session request w)]> (sessions_table w))
    (with_drawn (S (drawn w)) w).

(** The world after a status update, accepted or refused. *)
Definition after_update (key : string * string) (st : SessionStatus)
    (metadata : option (list (string * json))) (w : World) : World :=
  match fault w (UpdateItem key.1 key.2) with
  | None =>
      with_sessions_table
        (partial_alter (fun o => Some (set_status st metadata (default empty_item o)))
           key (sessions_table w)) w
  | Some _ => w
  end.

(** The world after an audit entry, written or refused. *)
Definition after_audit (user action : string) (tier : PermissionTier) (result : string)
    (duration : option Z) (details : option (list (string * json))) (w : World) : World :=
  match fault w AuditPutItem with
  | None =>
      with_audit_table
        (audit_table w ++
         [mkAuditLog (clock w) (entropy w (drawn w)) user action (Some tier) duration
            None false result details])
        (with_drawn (S (drawn w)) w)
  | Some _ => with_drawn (S (drawn w)) w
  end.

(** A world that already has the role of the next session. *)
Definition world_with_role : World :=
  with_iam_roles
    [role_for settings_36h (sample_request READ_ONLY 4 true)
       "00000000-0000-4000-8000-000000000000" 1699990000 []]
    stocked_world.

(** The message [_send_break_glass_notification] publishes at time [now]. *)
Definition break_glass_message (now : Z) (session : RoleSession) : json :=
  JDict [ ("alert_type", JStr "BREAK_GLASS_ACCESS");
          ("user_id", JStr (user_id session));
          ("project_id", JStr (project_id session));
          ("session_id", JStr (session_id session));
          ("timestamp", JStr (str_of_Z now));
          ("expires_at", JStr (str_of_Z (expires_at session))) ].

(** Settings with a topic for the break-glass alerts. *)
Definition settings_with_topic : Settings :=
  let s := settings_36h in
  mkSettings (aws_region s) (aws_account_id s) (dynamodb_table_name s) (dynamodb_region s)
    (policy_templates_bucket s) (mfa_required s) (max_session_duration s)
    (allowed_ip_ranges s) (allowed_departments s) (api_gateway_stage s)
    (rate_limit_per_minute s) (log_level s) (enable_cloudtrail s) (break_glass_role_arn s)
    (Some "arn:aws:sns:us-east-1:123456789012:break-glass") (cleanup_interval_hours s)
    (session_cleanup_delay_hours s).

(** The break-glass session "s-1" of the sample project. *)
Definition break_glass_session : RoleSession :=
  mkRoleSession "test-project" "s-1" "test-user"
    "arn:aws:iam::123456789012:role/temp-role-test" BREAK_GLASS 1699999000 1700002600
    ACTIVE [].

(** The break-glass session as the package stores it: written by
    [create_session], then given the status by [update_session_status]. *)
Definition break_glass_stored : World :=
  world_at 1700000000
    (<[("test-project", "s-1") := set_status ACTIVE None (session_item break_glass_session)]> ∅)
    stocked_bucket.

(** One readable item, for the break-glass session. *)
Definition break_glass_world : World :=
  world_at 1700000000
    (<[("test-project", "s-1") := readable_item break_glass_session]> ∅)
    stocked_bucket.


(** ** Templates as texts and placeholders *)

(** A piece of a template: literal text, or the placeholder of a variable. *)
Inductive token : Type :=
  | Text (s : string)
  | Var (name : string).

(** The text of a template made of pieces; a placeholder is written
    [${name}]. *)
Fixpoint flatten (pieces : list token) : string :=
  match pieces with
  | [] => EmptyString
  | Text s :: rest => s +:+ flatten rest
  | Var name :: rest => String "$" (String "{" (name +:+ String "}" (flatten rest)))
  end.

(** No dollar sign in the text. *)
Fixpoint dollar_free (s : string) : bool :=
  match s with
  | EmptyString => true
  | String c s' => negb (Ascii.eqb c "$") && dollar_free s'
  end.

(** No closing brace in the text. *)
Fixpoint close_free (s : string) : bool :=
  match s with
  | EmptyString => true
  | String c s' => negb (Ascii.eqb c "}") && close_free s'
  end.

(** A plain name: not empty, without dollar sign or closing brace. *)
Definition plain (name : string) : bool :=
  negb (name =? EmptyString)%string && dollar_free name && close_free name.

Definition well_formed (piece : token) : bool :=
  match piece with
  | Text s => dollar_free s
  | Var name => plain name
  end.

(** The variables have plain names and values without dollar sign. *)
Definition plain_variables (variables : list (string * string)) : bool :=
  forallb (fun kv => plain kv.1 && dollar_free kv.2) variables.

(** A piece after substitution: the placeholder of a supplied variable
    becomes the value. *)
Definition fill (variables : list (string * string)) (piece : token) : token :=
  match piece with
  | Text s => Text s
  | Var name =>
      match dict_get name variables with
      | Some value => Text value
      | None => Var name
      end
  end.

(** The names of the placeholders, in order. *)
Definition placeholders (pieces : list token) : list string :=
  flat_map (fun piece => match piece with Var name => [name] | Text _ => [] end) pieces.

(** The template of the sample bucket, in pieces. *)
Definition stored_template_pieces : list token :=
  [ Text ("{" +:+ qs "Version" +:+ ": " +:+ qs "2012-10-17" +:+ ", "
          +:+ qs "Statement" +:+ ": [{" +:+ qs "Effect" +:+ ": " +:+ qs "Allow" +:+ ", "
          +:+ qs "Action" +:+ ": [" +:+ qs "s3:GetObject" +:+ "], "
          +:+ qs "Resource" +:+ ": " +:+ dq +:+ "arn:aws:s3:::");
    Var "projectId";
    Text ("-*" +:+ dq +:+ "}]}") ].

(** The read-only default template of [DEFAULT_TEMPLATES], and its text in
    pieces. *)
Definition read_only_default : PolicyTemplate :=
  mkPolicyTemplate "read-only-template" READ_ONLY read_only_template_content
    ["projectId"] "1.0".

Definition read_only_template_pieces : list token :=
  [ Text (lines
            [ "{";
              ind 1 (qs "Version" +:+ ": " +:+ qs "2012-10-17" +:+ ",");
              ind 1 (qs "Statement" +:+ ": [");
              ind 2 "{";
              ind 3 (qs "Effect" +:+ ": " +:+ qs "Allow" +:+ ",");
              ind 3 (qs "Action" +:+ ": [");
              ind 4 (qs "s3:GetObject" +:+ ",");
              ind 4 (qs "s3:ListBucket");
              ind 3 "],";
              ind 3 (qs "Resource" +:+ ": [");
              ind 4 (dq +:+ "arn:aws:s3:::") ]);
    Var "projectId";
    Text ("-*" +:+ dq +:+ "," +:+ nl +:+ ind 4 (dq +:+ "arn:aws:s3:::"));
    Var "projectId";
    Text (lines
            [ "-*/*" +:+ dq;
              ind 3 "]";
              ind 2 "},";
              ind 2 "{";
              ind 3 (qs "Effect" +:+ ": " +:+ qs "Allow" +:+ ",");
              ind 3 (qs "Action" +:+ ": [");
              ind 4 (qs "ec2:Describe*" +:+ ",");
              ind 4 (qs "iam:Get*" +:+ ",");
              ind 4 (qs "iam:List*");
              ind 3 "],";
              ind 3 (qs "Resource" +:+ ": " +:+ qs "*");
              ind 2 "}";
              ind 1 "]";
              "}" ]) ].
(** * Properties *)

(** ** The library models *)

Example hexdigest_abc :
  Sha256.hexdigest (Sha256.encode "abc")
  = "ba7816bf8f01cfea414140de5dae2223b00361a396177a9cb410ff61f20015ad".
Proof. vm_compute. reflexivity. Qed.

Example hexdigest_empty :
  Sha256.hexdigest (Sha256.encode EmptyString)
  = "e3b0c44298fc1c149afbf4c8996fb92427ae41e4649b934ca495991b7852b855".
Proof. vm_compute. reflexivity. Qed.

(** A message of more than one block. *)
Example hexdigest_two_blocks :
  Sha256.hexdigest
    (Sha256.encode "abcdbcdecdefdefgefghfghighijhijkijkljklmklmnlmnomnopnopq")
  = "248d6a61d20638b8e5c026930c3e6039a33ce45964ff2167f6ecedd419db06c1".
Proof. vm_compute. reflexivity. Qed.

(** The constants computed from the primes are those of the standard. *)
Example sha256_constants :
  firstn 2 Sha256.K = [1116352408; 1899447441] /\
  List.last Sha256.K 0 = 3329325298 /\
  Sha256.sa Sha256.H0 = 1779033703 /\ Sha256.sh Sha256.H0 = 1541459225.
Proof. vm_compute. repeat split. Qed.

Lemma hexdigest_length (msg : list Z) : String.length (Sha256.hexdigest msg) = 64%nat.
Proof. unfold Sha256.hexdigest, Sha256.hex8. reflexivity. Qed.

Example ipv4_parse_address : ip_address "10.1.1.1" = Some 167837953.
Proof. reflexivity. Qed.

Example ipv4_parse_address_bad :
  map ip_address ["invalid-ip"; "10.1.1"; "10.1.1.256"; "10.01.1.1"; "10.1.1.1.1"; EmptyString]
  = [None; None; None; None; None; None].
Proof. reflexivity. Qed.

Example ipv4_parse_network :
  map ip_network ["10.0.0.0/8"; "10.0.0.1/8"; "10.0.0.0/33"; "10.0.0.7"]
  = [Some (167772160, 8); None; None; Some (167772167, 32)].
Proof. reflexivity. Qed.

(** The texts of the default templates are those of [policy_manager.py],
    byte for byte: their lengths and SHA-256 digests. *)
Example default_template_digests :
  map (fun t => (String.length t, Sha256.hexdigest (Sha256.encode t)))
    [read_only_template_content; developer_template_content; admin_template_content]
  = [ (554%nat, "bf29e58e027acd2700ece8cab733fd66efe9619522416413664733031d2c45af");
      (565%nat, "51b4d95bbae459a0a52a56e5d62ab342d2df3f0637a032a0dfff7dcf07466195");
      (163%nat, "9634dffc7c0fe73ae39a9acc4ddf292d639af132ecccea22112876331924be52") ].
Proof. vm_compute. reflexivity. Qed.

(** Python's [str.replace] and [re.findall] on a few texts. *)
Example str_replace_examples :
  str_replace "ab" "X" "ababcab" = "XXcX" /\
  str_replace "aa" "b" "aaaaa" = "bba" /\
  str_replace EmptyString "-" "abc" = "-a-b-c-".
Proof. repeat split. Qed.

Example re_findall_examples :
  re_findall "${a${b}} ${} $${c}{d} ${x" = ["a${b"; "c"] /\
  re_findall read_only_template_content = ["projectId"; "projectId"].
Proof. split; vm_compute; reflexivity. Qed.

Example get_external_id_example :
  get_external_id 1700000000 "test-project" "test-user" = "b7c1fea0f6886db2".
Proof. vm_compute. reflexivity. Qed.

(** ** The external identifier *)

(** C9: two calls of [get_external_id] for the same project and user whose
    clock readings fall in the same hour (equal floor of time / 3600) return
    the same token, and the token has 16 characters. *)
Theorem get_external_id_same_hour (now1 now2 : Z) (project user : string) :
  now1 / 3600 = now2 / 3600 ->
  get_external_id now1 project user = get_external_id now2 project user /\
  String.length (get_external_id now1 project user) = 16%nat.
Proof.
  intros Hhour. split.
  - unfold get_external_id. rewrite Hhour. reflexivity.
  - unfold get_external_id, str_take, Sha256.hexdigest, Sha256.hex8. reflexivity.
Qed.

Lemma get_external_id_same_hour_witness :
  get_external_id 1700000000 "test-project" "test-user"
  = get_external_id 1700002799 "test-project" "test-user" /\
  String.length (get_external_id 1700000000 "test-project" "test-user") = 16%nat.
Proof.
  apply (get_external_id_same_hour 1700000000 1700002799 "test-project" "test-user").
  reflexivity.
Defined.

(** The next hour gives another token. *)
Example get_external_id_next_hour :
  get_external_id 1700002800 "test-project" "test-user"
  <> get_external_id 1700000000 "test-project" "test-user".
Proof. vm_compute. discriminate. Qed.

(** ** The origin check *)

Section OriginCheck.

Context `{Ipaddress}.
Variable settings : Settings.

Lemma ip_in_ranges_true (ip : IPAddress) (ranges : list string) :
  ip_in_ranges ip ranges = Ok true ->
  exists cidr network,
    In cidr ranges /\ ip_network cidr = Some network /\
    ip_in_network ip network = true.
Proof.
  induction ranges as [|cidr rest IH]; simpl; [discriminate|].
  destruct (ip_network cidr) as [network|] eqn:Hnet; [|discriminate].
  destruct (ip_in_network ip network) eqn:Hin.
  - intros _. exists cidr, network. auto.
  - intros Hrest. destruct (IH Hrest) as (c & n & Hc & Hn & Hi).
    exists c, n. auto.
Qed.

Lemma ip_in_ranges_raises_ValueError (ip : IPAddress) (ranges : list string) (e : exn) :
  ip_in_ranges ip ranges = Raise e -> is_ValueError e = true.
Proof.
  induction ranges as [|cidr rest IH]; simpl; [discriminate|].
  destruct (ip_network cidr) as [network|].
  - destruct (ip_in_network ip network); [discriminate | exact IH].
  - intros [= <-]. reflexivity.
Qed.

(** [_is_ip_allowed] always returns a boolean. *)
Lemma _is_ip_allowed_returns (text : string) :
  exists b, _is_ip_allowed settings text = Ok b.
Proof.
  unfold _is_ip_allowed. destruct (ip_address text) as [ip|]; simpl.
  - destruct (ip_in_ranges ip (allowed_ip_ranges settings)) as [b|e] eqn:Hr.
    + eauto.
    + rewrite (ip_in_ranges_raises_ValueError _ _ _ Hr). eauto.
  - eauto.
Qed.

(** C8: the origin check accepts an address only if the address parses and
    lies in one of the configured ranges; on a string that is not a
    parseable address it answers False; it never raises. *)
Theorem origin_check_fails_closed (text : string) :
  (_is_ip_allowed settings text = Ok true ->
   exists ip cidr network,
     ip_address text = Some ip /\
     In cidr (allowed_ip_ranges settings) /\
     ip_network cidr = Some network /\
     ip_in_network ip network = true) /\
  (ip_address text = None -> _is_ip_allowed settings text = Ok false) /\
  (exists b, _is_ip_allowed settings text = Ok b).
Proof.
  split; [|split].
  - unfold _is_ip_allowed. destruct (ip_address text) as [ip|]; simpl.
    + destruct (ip_in_ranges ip (allowed_ip_ranges settings)) as [b|e] eqn:Hr.
      * intros [= ->]. destruct (ip_in_ranges_true _ _ Hr) as (c & n & Hc & Hn & Hi).
        exists ip, c, n. auto.
      * destruct (is_ValueError e); discriminate.
    + discriminate.
  - intros Hnone. unfold _is_ip_allowed. rewrite Hnone. reflexivity.
  - apply _is_ip_allowed_returns.
Qed.

(** [_validate_request] always returns a boolean. *)
Lemma _validate_request_returns (request : RoleRequest) :
  exists b, _validate_request settings request = Ok b.
Proof.
  unfold _validate_request.
  destruct (truthy_str (req_ip_address request)); simpl.
  - destruct (_is_ip_allowed_returns (str_of_opt (req_ip_address request))) as [b ->].
    simpl. destruct b; simpl; eauto.
    destruct (mfa_required settings && negb (req_mfa_used request)); eauto.
    destruct (max_session_duration settings / 3600 <? req_duration_hours request); eauto.
  - destruct (mfa_required settings && negb (req_mfa_used request)); eauto.
    destruct (max_session_duration settings / 3600 <? req_duration_hours request); eauto.
Qed.

(** The validator runs the origin check on every address that is not the
    empty string, which Python takes for no address. *)
Lemma _validate_request_checks_origin (request : RoleRequest) (address : string) :
  req_ip_address request = Some address ->
  address <> EmptyString ->
  _validate_request settings request = Ok true ->
  _is_ip_allowed settings address = Ok true.
Proof.
  intros Haddr Hne. unfold _validate_request. rewrite Haddr. simpl.
  destruct (String.eqb_spec address EmptyString) as [->|_]; [congruence|]. simpl.
  destruct (_is_ip_allowed_returns address) as [b Hb]. rewrite Hb. simpl.
  destruct b; simpl; [reflexivity | discriminate].
Qed.

(** The global ceiling on the duration. *)
Lemma _validate_request_ceiling (request : RoleRequest) :
  _validate_request settings request = Ok true ->
  req_duration_hours request <= max_session_duration settings / 3600.
Proof.
  unfold _validate_request.
  destruct (if truthy_str (req_ip_address request) then _ else _) as [[|]|e]; simpl;
    try discriminate.
  destruct (mfa_required settings && negb (req_mfa_used request)); [discriminate|].
  destruct (Z.ltb_spec (max_session_duration settings / 3600)
              (req_duration_hours request)); [discriminate|].
  intros _. lia.
Qed.

Lemma _validate_request_over_ceiling (request : RoleRequest) :
  max_session_duration settings / 3600 < req_duration_hours request ->
  _validate_request settings request = Ok false.
Proof.
  intros Hover. destruct (_validate_request_returns request) as [[|] Hb]; [|exact Hb].
  apply _validate_request_ceiling in Hb. lia.
Qed.

End OriginCheck.

Lemma origin_check_fails_closed_witness :
  _is_ip_allowed default_settings "10.1.1.1" = Ok true /\
  (exists ip cidr network,
     ip_address "10.1.1.1" = Some ip /\
     In cidr (allowed_ip_ranges default_settings) /\
     ip_network cidr = Some network /\
     ip_in_network ip network = true) /\
  ip_address "invalid-ip" = None /\
  _is_ip_allowed default_settings "invalid-ip" = Ok false.
Proof.
  split; [reflexivity|]. split.
  - apply (proj1 (origin_check_fails_closed default_settings "10.1.1.1")). reflexivity.
  - split; [reflexivity|].
    apply (proj1 (proj2 (origin_check_fails_closed default_settings "invalid-ip"))).
    reflexivity.
Defined.

(** The cases of the unit tests, and a range that does not parse: the check
    then answers False even for an address inside a later range. *)
Example _is_ip_allowed_examples :
  _is_ip_allowed default_settings "10.1.1.1" = Ok true /\
  _is_ip_allowed default_settings "8.8.8.8" = Ok false /\
  _is_ip_allowed default_settings "invalid-ip" = Ok false /\
  _is_ip_allowed default_settings EmptyString = Ok false.
Proof. repeat split. Qed.

(** A request whose address is the empty string passes the validator
    without an origin check. *)
Example _validate_request_empty_address :
  _validate_request settings_36h
    (mkRoleRequest "test-project" "test-user" READ_ONLY 4 "Testing the system"
       (Some EmptyString) true None) = Ok true.
Proof. reflexivity. Qed.

(** ** The global ceiling on the duration *)

(** C10: the validator accepts a duration only up to
    [max_session_duration // 3600] hours; under the default configuration
    (3600 seconds) it refuses every request of more than one hour, whatever
    the tier, although the request model admits up to 36 hours. *)
Theorem validator_global_ceiling `{Ipaddress} (settings : Settings)
    (request : RoleRequest) :
  (_validate_request settings request = Ok true ->
   req_duration_hours request <= max_session_duration settings / 3600) /\
  (max_session_duration settings / 3600 < req_duration_hours request ->
   _validate_request settings request = Ok false) /\
  (1 < req_duration_hours request ->
   _validate_request default_settings request = Ok false) /\
  (req_permission_tier request = READ_ONLY \/ req_permission_tier request = DEVELOPER ->
   1 <= req_duration_hours request <= 36 ->
   (10 <= String.length (req_reason request))%nat ->
   RoleRequest_init request = Ok request).
Proof.
  split; [apply _validate_request_ceiling|].
  split; [apply _validate_request_over_ceiling|].
  split.
  - intros Hd. apply _validate_request_over_ceiling. simpl. exact Hd.
  - intros Htier [Hlo Hhi] Hreason. unfold RoleRequest_init, check_duration_hours,
      validate_duration, check_reason.
    destruct (Z.leb_spec 1 (req_duration_hours request)); [|lia].
    destruct (Z.leb_spec (req_duration_hours request) 36); [|lia].
    destruct (Nat.leb_spec 10 (String.length (req_reason request))); [|lia].
    destruct Htier as [-> | ->]; reflexivity.
Qed.

Lemma validator_global_ceiling_witness :
  _validate_request settings_36h (sample_request READ_ONLY 36 true) = Ok true /\
  36 <= max_session_duration settings_36h / 3600 /\
  _validate_request settings_36h (sample_request READ_ONLY 37 true) = Ok false /\
  _validate_request default_settings (sample_request READ_ONLY 2 true) = Ok false /\
  RoleRequest_init (sample_request DEVELOPER 36 true) = Ok (sample_request DEVELOPER 36 true).
Proof.
  split; [reflexivity|]. split.
  - apply (proj1 (validator_global_ceiling settings_36h
                    (sample_request READ_ONLY 36 true))). reflexivity.
  - split.
    + apply (proj1 (proj2 (validator_global_ceiling settings_36h
                             (sample_request READ_ONLY 37 true)))). reflexivity.
    + split.
      * apply (proj1 (proj2 (proj2 (validator_global_ceiling default_settings
                                      (sample_request READ_ONLY 2 true))))). reflexivity.
      * apply (proj2 (proj2 (proj2 (validator_global_ceiling default_settings
                                      (sample_request DEVELOPER 36 true))))).
        -- right. reflexivity.
        -- simpl. lia.
        -- simpl. lia.
Defined.

(** ** Policy rendering *)

Lemma until_close_shorter (s name rest : string) :
  until_close s = Some (name, rest) ->
  (String.length rest < String.length s)%nat.
Proof.
  revert name rest. induction s as [|c s IH]; intros name rest; simpl; [discriminate|].
  destruct (Ascii.eqb c "}").
  - intros [= <- <-]. lia.
  - destruct (until_close s) as [[n r]|]; [|discriminate].
    intros [= <- <-]. specialize (IH n r eq_refl). lia.
Qed.

Lemma match_placeholder_shorter (s name rest : string) :
  match_placeholder s = Some (name, rest) ->
  (String.length rest < String.length s)%nat.
Proof.
  unfold match_placeholder. destruct s as [|c1 [|c2 t]]; try discriminate.
  destruct (Ascii.eqb c1 "$" && Ascii.eqb c2 "{"); [|discriminate].
  destruct (until_close t) as [[[|c n] r]|] eqn:Hc; try discriminate.
  intros [= <- <-]. apply until_close_shorter in Hc. simpl. lia.
Qed.

(** The scan of [re_findall] never runs out of steps: any bound at least the
    length of the text gives the same matches. *)
Lemma findall_fuel_enough (fuel : nat) (s : string) :
  (String.length s <= fuel)%nat -> findall_fuel fuel s = re_findall s.
Proof.
  unfold re_findall.
  assert (Hgen : forall f1 f2 t, (String.length t <= f1)%nat ->
                   (String.length t <= f2)%nat ->
                   findall_fuel f1 t = findall_fuel f2 t).
  { induction f1 as [|f1 IH]; intros f2 t H1 H2.
    - destruct t; [|simpl in H1; lia]. destruct f2; reflexivity.
    - destruct f2 as [|f2]; [destruct t; [reflexivity | simpl in H2; lia]|].
      simpl. destruct t as [|c t']; [reflexivity|].
      destruct (match_placeholder (String c t')) as [[name rest]|] eqn:Hm.
      + apply match_placeholder_shorter in Hm. f_equal. apply IH; simpl in *; lia.
      + apply IH; simpl in *; lia. }
  intros Hle. apply Hgen; [exact Hle | lia].
Qed.

(** *** Templates in pieces *)

Lemma replace_from_dollar_free (old' new s rest : string) :
  dollar_free s = true ->
  replace_from (String "$" old') new O (s +:+ rest)
  = s +:+ replace_from (String "$" old') new O rest.
Proof.
  induction s as [|c s IH]; intros Hfree; [reflexivity|].
  simpl in Hfree. apply andb_true_iff in Hfree as [Hc Hs].
  change (String c s +:+ rest) with (String c (s +:+ rest)).
  cbn [replace_from startswith].
  rewrite Ascii.eqb_sym. apply negb_true_iff in Hc. rewrite Hc. simpl.
  rewrite IH by exact Hs. reflexivity.
Qed.

Lemma replace_from_skip (old new name rest : string) :
  replace_from old new (S (String.length name)) (name +:+ String "}" rest)
  = replace_from old new O rest.
Proof.
  induction name as [|c name IH]; [reflexivity|]. simpl. exact IH.
Qed.

Lemma length_append_close (name : string) :
  String.length (name +:+ "}") = S (String.length name).
Proof. induction name as [|c name IH]; simpl; [reflexivity | rewrite IH; reflexivity]. Qed.

Lemma startswith_placeholder (name rest : string) :
  startswith (name +:+ "}") (name +:+ String "}" rest) = true.
Proof.
  induction name as [|c name IH]; simpl; [reflexivity|].
  rewrite Ascii.eqb_refl. exact IH.
Qed.

Lemma startswith_other_placeholder (k name rest : string) :
  close_free k = true -> close_free name = true ->
  startswith (k +:+ "}") (name +:+ String "}" rest) = true -> k = name.
Proof.
  revert name. induction k as [|c k IH]; intros [|d name] Hk Hname Hs.
  - reflexivity.
  - exfalso. cbn [close_free] in Hname. apply andb_true_iff in Hname as [Hd _].
    cbn [String.append startswith] in Hs. apply andb_true_iff in Hs as [Hs _].
    apply Ascii.eqb_eq in Hs. subst d. discriminate Hd.
  - exfalso. cbn [close_free] in Hk. apply andb_true_iff in Hk as [Hc _].
    cbn [String.append startswith] in Hs. apply andb_true_iff in Hs as [Hs _].
    apply Ascii.eqb_eq in Hs. subst c. discriminate Hc.
  - cbn [close_free] in Hk, Hname.
    apply andb_true_iff in Hk as [_ Hk]. apply andb_true_iff in Hname as [_ Hname].
    cbn [String.append startswith] in Hs.
    apply andb_true_iff in Hs as [Hcd Hs]. apply Ascii.eqb_eq in Hcd.
    subst d. f_equal. apply (IH name); assumption.
Qed.

Lemma append_close (name rest : string) :
  name +:+ String "}" rest = (name +:+ "}") +:+ rest.
Proof.
  induction name as [|c name IH]; [reflexivity|].
  change (String c (name +:+ String "}" rest) = String c ((name +:+ "}") +:+ rest)).
  f_equal. exact IH.
Qed.

Lemma replace_from_no_match (old new : string) (c : ascii) (s : string) :
  startswith old (String c s) = false ->
  replace_from old new O (String c s) = String c (replace_from old new O s).
Proof. intros Hs. cbn [replace_from]. rewrite Hs. reflexivity. Qed.

Lemma dollar_free_append (s t : string) :
  dollar_free s = true -> dollar_free t = true -> dollar_free (s +:+ t) = true.
Proof.
  intros Hs Ht. induction s as [|c s IH]; [exact Ht|].
  cbn [dollar_free] in Hs. apply andb_true_iff in Hs as [Hc Hs].
  change (dollar_free (String c (s +:+ t)) = true). cbn [dollar_free].
  rewrite Hc, (IH Hs). reflexivity.
Qed.

(** One step of the substitution on a template in pieces. *)
Lemma str_replace_pieces (k value : string) (pieces : list token) :
  plain k = true ->
  forallb well_formed pieces = true ->
  str_replace ("${" +:+ k +:+ "}") value (flatten pieces)
  = flatten (map (fill [(k, value)]) pieces).
Proof.
  intros Hk Hwf.
  change (str_replace ("${" +:+ k +:+ "}") value (flatten pieces))
    with (replace_from (String "$" (String "{" (k +:+ "}"))) value O (flatten pieces)).
  unfold plain in Hk. apply andb_true_iff in Hk as [Hk Hkclose].
  apply andb_true_iff in Hk as [_ Hkfree].
  induction pieces as [|piece rest IH]; [reflexivity|].
  simpl in Hwf. apply andb_true_iff in Hwf as [Hpiece Hrest].
  specialize (IH Hrest). destruct piece as [s|name]; simpl in Hpiece.
  - cbn [flatten map fill]. rewrite replace_from_dollar_free by exact Hpiece.
    rewrite IH. reflexivity.
  - unfold plain in Hpiece. apply andb_true_iff in Hpiece as [Hn Hnclose].
    apply andb_true_iff in Hn as [_ Hnfree].
    cbn [flatten map fill dict_get].
    destruct (String.eqb_spec name k) as [->|Hne].
    + cbn [flatten replace_from startswith]. rewrite !Ascii.eqb_refl.
      rewrite startswith_placeholder. cbn [andb].
      cbn [String.length Nat.sub]. rewrite length_append_close.
      cbn [replace_from]. rewrite replace_from_skip, IH. reflexivity.
    + cbn [flatten].
      assert (Hs : startswith (String "$" (String "{" (k +:+ "}")))
                     (String "$" (String "{" (name +:+ String "}" (flatten rest)))) = false).
      { cbn [startswith]. rewrite !Ascii.eqb_refl. cbn [andb].
        destruct (startswith (k +:+ "}") (name +:+ String "}" (flatten rest))) eqn:Hs;
          [|reflexivity].
        apply startswith_other_placeholder in Hs; congruence. }
      rewrite (replace_from_no_match _ _ _ _ Hs). f_equal.
      rewrite (append_close name (flatten rest)).
      change (String "{" ((name +:+ "}") +:+ flatten rest))
        with (String "{" (name +:+ "}") +:+ flatten rest).
      rewrite replace_from_dollar_free.
      * rewrite IH, (append_close name (flatten (map (fill [(k, value)]) rest))).
        reflexivity.
      * cbn [dollar_free]. change (Ascii.eqb "{" "$") with false. cbn [negb andb].
        apply dollar_free_append; [exact Hnfree | reflexivity].
Qed.

Lemma fill_well_formed (k value : string) (piece : token) :
  dollar_free value = true -> well_formed piece = true ->
  well_formed (fill [(k, value)] piece) = true.
Proof.
  intros Hv Hp. destruct piece as [s|name]; [exact Hp|].
  cbn [fill dict_get]. destruct (name =? k)%string; [exact Hv | exact Hp].
Qed.

Lemma fill_cons (k value : string) (variables : list (string * string)) (piece : token) :
  fill variables (fill [(k, value)] piece) = fill ((k, value) :: variables) piece.
Proof.
  destruct piece as [s|name]; [reflexivity|].
  cbn [fill dict_get]. destruct (name =? k)%string; reflexivity.
Qed.

(** The loop of [generate_policy] on a template in pieces fills every
    placeholder whose variable is supplied and leaves the rest of the text
    as it is. *)
Lemma substitute_pieces (variables : list (string * string)) (pieces : list token) :
  plain_variables variables = true ->
  forallb well_formed pieces = true ->
  substitute (flatten pieces) variables = flatten (map (fill variables) pieces).
Proof.
  unfold substitute. revert pieces.
  induction variables as [|[k value] variables IH]; intros pieces Hvars Hwf.
  - cbn [fold_left]. f_equal. clear. induction pieces as [|[s|name] rest IHp];
      [reflexivity | | ]; cbn [map fill dict_get]; f_equal; exact IHp.
  - unfold plain_variables in Hvars. cbn [forallb] in Hvars.
    apply andb_true_iff in Hvars as [Hkv Hvars].
    apply andb_true_iff in Hkv as [Hk Hv]. cbn [fst snd] in Hk, Hv.
    cbn [fold_left fst snd].
    rewrite (str_replace_pieces k value pieces Hk Hwf).
    rewrite (IH (map (fill [(k, value)]) pieces) Hvars).
    + rewrite map_map. f_equal. apply map_ext. intros piece. apply fill_cons.
    + rewrite forallb_forall in Hwf |- *. intros piece Hin.
      apply in_map_iff in Hin as [piece0 [<- Hin0]].
      apply fill_well_formed; [exact Hv | exact (Hwf piece0 Hin0)].
Qed.

Lemma re_findall_no_match (c : ascii) (s : string) :
  match_placeholder (String c s) = None -> re_findall (String c s) = re_findall s.
Proof.
  intros Hm. unfold re_findall at 1. cbn [String.length findall_fuel].
  rewrite Hm. apply findall_fuel_enough. lia.
Qed.

Lemma re_findall_match (c : ascii) (s name rest : string) :
  match_placeholder (String c s) = Some (name, rest) ->
  re_findall (String c s) = name :: re_findall rest.
Proof.
  intros Hm. unfold re_findall at 1. cbn [String.length findall_fuel].
  rewrite Hm. f_equal. apply findall_fuel_enough.
  apply match_placeholder_shorter in Hm. cbn [String.length] in Hm. lia.
Qed.

Lemma re_findall_dollar_free (s rest : string) :
  dollar_free s = true -> re_findall (s +:+ rest) = re_findall rest.
Proof.
  induction s as [|c s IH]; intros Hfree; [reflexivity|].
  cbn [dollar_free] in Hfree. apply andb_true_iff in Hfree as [Hc Hs].
  change (String c s +:+ rest) with (String c (s +:+ rest)).
  rewrite re_findall_no_match; [exact (IH Hs)|].
  apply negb_true_iff in Hc. unfold match_placeholder.
  destruct (s +:+ rest) as [|c2 t]; [reflexivity|]. rewrite Hc. reflexivity.
Qed.

Lemma until_close_name (name rest : string) :
  close_free name = true -> until_close (name +:+ String "}" rest) = Some (name, rest).
Proof.
  induction name as [|c name IH]; intros Hclose.
  - reflexivity.
  - cbn [close_free] in Hclose. apply andb_true_iff in Hclose as [Hc Hn].
    apply negb_true_iff in Hc.
    change (String c name +:+ String "}" rest) with (String c (name +:+ String "}" rest)).
    cbn [until_close]. rewrite Hc, (IH Hn). reflexivity.
Qed.

Lemma re_findall_placeholder (name rest : string) :
  plain name = true ->
  re_findall (String "$" (String "{" (name +:+ String "}" rest))) = name :: re_findall rest.
Proof.
  intros Hplain. apply re_findall_match.
  unfold plain in Hplain. apply andb_true_iff in Hplain as [Hplain Hclose].
  apply andb_true_iff in Hplain as [Hne _].
  unfold match_placeholder. rewrite !Ascii.eqb_refl. cbn [andb].
  rewrite (until_close_name name rest Hclose).
  destruct name as [|c name]; [discriminate Hne | reflexivity].
Qed.

(** The scan for placeholders finds, on a template in pieces, the names of
    its placeholders in order. *)
Lemma re_findall_pieces (pieces : list token) :
  forallb well_formed pieces = true -> re_findall (flatten pieces) = placeholders pieces.
Proof.
  induction pieces as [|piece rest IH]; intros Hwf; [reflexivity|].
  cbn [forallb] in Hwf. apply andb_true_iff in Hwf as [Hpiece Hrest].
  destruct piece as [s|name]; cbn [well_formed] in Hpiece; cbn [flatten].
  - rewrite (re_findall_dollar_free s _ Hpiece). exact (IH Hrest).
  - rewrite (re_findall_placeholder name _ Hpiece), (IH Hrest). reflexivity.
Qed.

Lemma placeholders_fill (variables : list (string * string)) (pieces : list token) :
  placeholders (map (fill variables) pieces)
  = List.filter (fun var => negb (dict_mem var variables)) (placeholders pieces).
Proof.
  induction pieces as [|piece rest IH]; [reflexivity|].
  unfold placeholders in *. destruct piece as [s|name].
  - cbn [map flat_map fill app]. exact IH.
  - cbn [map flat_map fill app List.filter]. unfold dict_mem at 1.
    destruct (dict_get name variables) as [value|];
      cbn [negb flat_map app]; [exact IH | f_equal; exact IH].
Qed.

Lemma filter_twice {A} (f : A -> bool) (l : list A) :
  List.filter f (List.filter f l) = List.filter f l.
Proof.
  induction l as [|x l IH]; [reflexivity|].
  cbn [List.filter]. destruct (f x) eqn:Hx; [|exact IH].
  cbn [List.filter]. rewrite Hx, IH. reflexivity.
Qed.

Lemma forallb_fill (variables : list (string * string)) (pieces : list token) :
  plain_variables variables = true ->
  forallb well_formed pieces = true ->
  forallb well_formed (map (fill variables) pieces) = true.
Proof.
  intros Hvars Hwf. rewrite forallb_forall in Hwf |- *. intros piece Hin.
  apply in_map_iff in Hin as [piece0 [<- Hin0]]. specialize (Hwf piece0 Hin0).
  destruct piece0 as [s|name]; [exact Hwf|]. cbn [fill].
  destruct (dict_get name variables) as [value|] eqn:Hget; [|exact Hwf].
  cbn [well_formed]. unfold plain_variables in Hvars. rewrite forallb_forall in Hvars.
  clear -Hget Hvars. induction variables as [|[k v] variables IH]; [discriminate|].
  cbn [dict_get] in Hget. destruct (name =? k)%string.
  - injection Hget as <-. specialize (Hvars (k, v) (or_introl eq_refl)).
    apply andb_true_iff in Hvars as [_ Hv]. exact Hv.
  - apply IH; [|exact Hget]. intros x Hx. apply Hvars. right. exact Hx.
Qed.

(** C7, as the code has it.  Rendering returns the substituted text exactly
    when every placeholder left in it names a supplied variable, and
    otherwise raises the error that lists the names, among those of the
    placeholders left, that were not supplied.  On a template made of
    literal texts without dollar sign and of placeholders with plain names,
    rendered with variables of plain names and dollar-free values, the
    substituted text is the template with every placeholder of a supplied
    variable replaced by the value, and the placeholders left in it are those
    of the variables that were not supplied, in order. *)
Theorem generate_policy_missing_variables (template : PolicyTemplate)
    (variables : list (string * string)) :
  let content := substitute (template_content template) variables in
  let missing := _find_missing_variables content variables in
  (generate_policy template variables = Ok content <->
   forall name, In name (re_findall content) -> dict_mem name variables = true) /\
  (generate_policy template variables
   = Raise (ValueError "Missing required variables: " missing) <->
   exists name, In name (re_findall content) /\ dict_mem name variables = false) /\
  (forall name, In name missing <->
     In name (re_findall content) /\ dict_mem name variables = false) /\
  (forall doc, generate_policy template variables = Ok doc ->
     doc = content /\
     forall name, In name (re_findall doc) -> dict_mem name variables = true) /\
  (forall pieces,
     template_content template = flatten pieces ->
     forallb well_formed pieces = true ->
     plain_variables variables = true ->
     content = flatten (map (fill variables) pieces) /\
     re_findall content
     = List.filter (fun var => negb (dict_mem var variables)) (placeholders pieces) /\
     missing = re_findall content).
Proof.
  intros content missing.
  assert (Hpieces : forall pieces,
            template_content template = flatten pieces ->
            forallb well_formed pieces = true ->
            plain_variables variables = true ->
            content = flatten (map (fill variables) pieces) /\
            re_findall content
            = List.filter (fun var => negb (dict_mem var variables)) (placeholders pieces) /\
            missing = re_findall content).
  { intros pieces Htext Hwf Hvars.
    assert (Hcontent : content = flatten (map (fill variables) pieces)).
    { unfold content. rewrite Htext. apply substitute_pieces; assumption. }
    assert (Hleft : re_findall content
                    = List.filter (fun var => negb (dict_mem var variables))
                        (placeholders pieces)).
    { rewrite Hcontent, (re_findall_pieces _ (forallb_fill variables pieces Hvars Hwf)).
      apply placeholders_fill. }
    split; [exact Hcontent|]. split; [exact Hleft|].
    unfold missing, _find_missing_variables. rewrite Hleft. apply filter_twice. }
  assert (Hmissing : forall name, In name missing <->
            In name (re_findall content) /\ dict_mem name variables = false).
  { intros name. unfold missing, _find_missing_variables. rewrite filter_In.
    rewrite negb_true_iff. reflexivity. }
  assert (Hgen : generate_policy template variables
                 = match missing with
                   | [] => Ok content
                   | _ => Raise (ValueError "Missing required variables: " missing)
                   end) by reflexivity.
  clearbody missing. rewrite Hgen. clear Hgen.
  destruct missing as [|n rest].
  - assert (Hall : forall name, In name (re_findall content) ->
                     dict_mem name variables = true).
    { intros name Hin. destruct (dict_mem name variables) eqn:Hm; [reflexivity|].
      destruct (proj2 (Hmissing name) (conj Hin Hm)). }
    split; [|split; [|split; [|split]]].
    + split; auto.
    + split; [discriminate|]. intros (name & Hin & Hm).
      rewrite (Hall name Hin) in Hm. discriminate.
    + exact Hmissing.
    + intros doc [= <-]. auto.
    + exact Hpieces.
  - assert (Hn : In n (re_findall content) /\ dict_mem n variables = false).
    { apply Hmissing. left. reflexivity. }
    destruct Hn as [Hin Hm].
    split; [|split; [|split; [|split]]].
    + split; [discriminate|]. intros Hall. rewrite (Hall n Hin) in Hm. discriminate.
    + split; [|reflexivity]. intros _. exists n. auto.
    + exact Hmissing.
    + intros doc. discriminate.
    + exact Hpieces.
Qed.

Lemma generate_policy_missing_variables_witness :
  generate_policy (stored_template READ_ONLY) (sample_variables "acme")
  = Ok ("{" +:+ qs "Version" +:+ ": " +:+ qs "2012-10-17" +:+ ", "
        +:+ qs "Statement" +:+ ": [{" +:+ qs "Effect" +:+ ": " +:+ qs "Allow" +:+ ", "
        +:+ qs "Action" +:+ ": [" +:+ qs "s3:GetObject" +:+ "], "
        +:+ qs "Resource" +:+ ": " +:+ qs "arn:aws:s3:::acme-*" +:+ "}]}") /\
  generate_policy (stored_template READ_ONLY) [("userId", "test-user")]
  = Raise (ValueError "Missing required variables: " ["projectId"]).
Proof.
  split.
  - destruct (generate_policy_missing_variables (stored_template READ_ONLY)
                (sample_variables "acme")) as (Hok & _ & _ & _ & Hpieces).
    destruct (Hpieces stored_template_pieces eq_refl eq_refl eq_refl)
      as (Hcontent & Hleft & _).
    rewrite (proj2 Hok).
    + rewrite Hcontent. reflexivity.
    + intros name Hin. rewrite Hleft in Hin. destruct Hin.
  - destruct (generate_policy_missing_variables (stored_template READ_ONLY)
                [("userId", "test-user")]) as (_ & Hraise & _ & _ & Hpieces).
    destruct (Hpieces stored_template_pieces eq_refl eq_refl eq_refl)
      as (_ & Hleft & Hmissing).
    rewrite (proj2 Hraise).
    + rewrite Hmissing, Hleft. reflexivity.
    + exists "projectId". split; [rewrite Hleft; left; reflexivity | reflexivity].
Defined.

(** The scenario of the specification: a template with a placeholder for
    [projectId], rendered with no variable, is refused and the error names
    [projectId]. *)
Example generate_policy_no_variables :
  generate_policy (stored_template READ_ONLY) []
  = Raise (ValueError "Missing required variables: " ["projectId"]).
Proof. vm_compute. reflexivity. Qed.

(** The default template of the read-only tier, rendered for a project. *)
Example generate_policy_default_read_only :
  exists doc,
    option_map (fun t => generate_policy t (sample_variables "acme"))
      (DEFAULT_TEMPLATES READ_ONLY) = Some (Ok doc) /\
    re_findall doc = [].
Proof. eexists. split; vm_compute; reflexivity. Qed.

(** C7 as stated fails: a value that itself contains the placeholder of a
    supplied variable stays in the returned document, here with the project
    identifier [${projectId}]. *)
Lemma generate_policy_returns_placeholder :
  exists doc,
    generate_policy (stored_template READ_ONLY) (sample_variables "${projectId}") = Ok doc /\
    re_findall doc = ["projectId"].
Proof. eexists. split; vm_compute; reflexivity. Qed.

(** ** Permission boundaries *)

(** C2, as the code has it: the boundary document is fixed by the tier
    alone.  Its [Deny] statements cover every self-escalation action for the
    developer tier; for the read-only tier they cover the changes of roles
    and policies (through [iam:*]) but not the deletion of keys; for the
    admin and break-glass tiers they cover none of these actions. *)
Theorem boundary_deny_coverage (tier : PermissionTier) :
  map (explicitly_denies (create_permission_boundary tier)) self_escalation_actions
  = match tier with
    | DEVELOPER => [true; true; true; true; true; true; true; true]
    | READ_ONLY => [true; true; true; true; true; true; false; false]
    | ADMIN | BREAK_GLASS => [false; false; false; false; false; false; false; false]
    end.
Proof. destruct tier; vm_compute; reflexivity. Qed.

(** C2 as stated fails: the boundary of the admin tier denies neither the
    creation of a role nor the deletion of a key, and that of the
    break-glass tier has no [Deny] statement at all. *)
Lemma admin_boundary_allows_escalation :
  explicitly_denies (create_permission_boundary ADMIN) "iam:CreateRole" = false /\
  explicitly_denies (create_permission_boundary ADMIN) "iam:PutRolePolicy" = false /\
  explicitly_denies (create_permission_boundary ADMIN) "kms:DeleteKey" = false /\
  List.filter (fun st => bool_decide (statement_effect st = Some "Deny"))
    (policy_statements (create_permission_boundary BREAK_GLASS)) = [].
Proof. repeat split. Qed.

(** What the admin boundary does deny. *)
Example admin_boundary_denies :
  map (explicitly_denies (create_permission_boundary ADMIN))
    ["iam:DeleteAccountPasswordPolicy"; "iam:DeleteAccountAlias"; "iam:DeleteAccount";
     "organizations:LeaveOrganization"; "organizations:DeleteOrganization"]
  = [true; true; true; true; true].
Proof. vm_compute. reflexivity. Qed.

(** ** Tier maxima *)

(** The request model enforces the maximum of the read-only tier (the bound
    of the field), of the admin tier and of the break-glass tier (the
    validator): a longer request cannot be built. *)
Lemma RoleRequest_init_tier_maximum (request : RoleRequest) :
  req_permission_tier request <> DEVELOPER ->
  tier_max (req_permission_tier request) < req_duration_hours request ->
  exists e, RoleRequest_init request = Raise e.
Proof.
  intros Htier Hover. unfold RoleRequest_init, check_duration_hours, validate_duration.
  destruct (req_permission_tier request); simpl in *; try congruence.
  - destruct (Z.leb_spec (req_duration_hours request) 36); [lia|].
    rewrite andb_false_r. simpl. eauto.
  - destruct (Z.ltb_spec 8 (req_duration_hours request)); [|lia].
    rewrite andb_false_r. simpl. eauto.
  - destruct (Z.ltb_spec 1 (req_duration_hours request)); [|lia].
    rewrite andb_false_r. simpl. eauto.
Qed.

(** C1 fails on the developer tier: a developer request of 10 hours, two
    above the documented maximum of 8, is built by the model, passes the
    validator of a deployment whose global ceiling is 36 hours, and is
    granted: the session is stored and active, for 36000 seconds. *)
Theorem developer_request_over_maximum_granted :
  let request := sample_request DEVELOPER 10 true in
  let result := request_role settings_36h request stocked_world in
  tier_max DEVELOPER < req_duration_hours request /\
  RoleRequest_init request = Ok request /\
  _validate_request settings_36h request = Ok true /\
  match result.1 with
  | Ok (Some session) =>
      status session = ACTIVE /\
      expires_at session = clock stocked_world + 36000 /\
      stored_status result.2 (project_id session) (session_id session) = Some ACTIVE
  | _ => False
  end.
Proof. vm_compute. repeat split; congruence. Qed.

(** The same request on the other tiers with a maximum of 8 hours or less. *)
Example admin_request_over_maximum_refused :
  RoleRequest_init (sample_request ADMIN 10 true)
  = Raise (ValueError "validation error for RoleRequest" ["duration_hours"]) /\
  RoleRequest_init (sample_request BREAK_GLASS 2 true)
  = Raise (ValueError "validation error for RoleRequest" ["duration_hours"]).
Proof. split; reflexivity. Qed.

(** ** Default templates *)

(** Without a stored template, provisioning stops at the attribute access
    [policy_manager.DEFAULT_TEMPLATES], whatever the tier. *)
Lemma _create_temporary_role_without_stored_template `{Ipaddress}
    (settings : Settings) (request : RoleRequest) (sid : string) (w : World) :
  get_policy_template settings (req_permission_tier request) w = (Ok None, w) ->
  _create_temporary_role settings request sid w = (Ok None, w).
Proof.
  intros Hget. unfold _create_temporary_role, try_except, mbind, M_bind.
  rewrite Hget. reflexivity.
Qed.

(** C6 fails: the bucket has no template, the read-only tier has a default
    one that renders for this request, and yet the request fails: the
    session is marked FAILED and no role is created. *)
Theorem request_fails_without_stored_template :
  let request := sample_request READ_ONLY 4 true in
  let result := request_role settings_36h request empty_world in
  (exists template doc,
     DEFAULT_TEMPLATES (req_permission_tier request) = Some template /\
     generate_policy template (sample_variables (req_project_id request)) = Ok doc) /\
  policy_manager_getattr "DEFAULT_TEMPLATES"
  = Raise (AttributeError "'PolicyManager' object has no attribute 'DEFAULT_TEMPLATES'") /\
  result.1 = Ok None /\
  map (fun ki => item_status ki.2) (map_to_list (sessions_table result.2)) = [Some FAILED] /\
  iam_roles result.2 = [].
Proof.
  split; [|vm_compute; repeat split].
  eexists. eexists. split; vm_compute; reflexivity.
Qed.

(** With the template in the bucket the same request is granted. *)
Example request_granted_with_stored_template :
  let result := request_role settings_36h (sample_request READ_ONLY 4 true) stocked_world in
  option_map status <$> match result.1 with Ok o => Some o | Raise _ => None end
  = Some (Some ACTIVE) /\
  map iam_role_name (iam_roles result.2) = ["temp-role-test-project-00000000"] /\
  map iam_permissions_boundary (iam_roles result.2) = [None] /\
  map (fun r => map fst (iam_inline_policies r)) (iam_roles result.2)
  = [["TemporaryAccessPolicy"]].
Proof. vm_compute. repeat split. Qed.

(** ** Audit entries *)

(** A request the validator refuses leaves no trace at all. *)
Lemma request_role_refused_silent `{Ipaddress} (settings : Settings)
    (request : RoleRequest) (w : World) :
  _validate_request settings request = Ok false ->
  request_role settings request w = (Ok None, w).
Proof.
  intros Hv. unfold request_role, try_except, lift, mbind, M_bind.
  rewrite Hv. reflexivity.
Qed.

(** Nor does a call of [assume_role] on a session that is not active. *)
Lemma assume_role_inactive_silent (session : RoleSession) (name : option string)
    (w : World) :
  status session <> ACTIVE ->
  assume_role session name w = (Ok None, w).
Proof.
  intros Hst. unfold assume_role, try_except, mbind, M_bind.
  rewrite bool_decide_false by exact Hst. reflexivity.
Qed.

(** C4 fails on the early exits.  [request_role] writes no audit entry when
    the validator refuses the request (here: no MFA) nor when provisioning
    fails and the session is marked FAILED (here: IAM refuses the role);
    [assume_role] writes none when the session is not active nor when it has
    expired, although it then marks the session EXPIRED. *)
Theorem early_exits_write_no_audit_entry :
  (let result := request_role default_settings (sample_request READ_ONLY 1 false)
                   stocked_world in
   result.1 = Ok None /\ audit_results result.2 = []) /\
  (let result := request_role settings_36h (sample_request READ_ONLY 4 true)
                   (with_fault iam_refuses stocked_world) in
   result.1 = Ok None /\
   map (fun ki => item_status ki.2) (map_to_list (sessions_table result.2))
   = [Some FAILED] /\
   audit_results result.2 = []) /\
  (let result := assume_role (sample_session "s-1" 1700003600 PENDING) None
                   (one_session 1700003600 PENDING) in
   result.1 = Ok None /\ audit_results result.2 = []) /\
  (let result := assume_role (sample_session "s-1" 1699999999 ACTIVE) None
                   (one_session 1699999999 ACTIVE) in
   result.1 = Ok None /\
   stored_status result.2 "test-project" "s-1" = Some EXPIRED /\
   audit_results result.2 = []).
Proof. vm_compute. repeat split. Qed.

(** The paths that do write an entry: a granted request, credentials handed
    out, and credentials refused by STS. *)
Example audited_paths :
  audit_results
    (request_role settings_36h (sample_request READ_ONLY 4 true) stocked_world).2
  = [("ROLE_REQUESTED", "SUCCESS")] /\
  audit_results
    (assume_role (sample_session "s-1" 1700003600 ACTIVE) None
       (one_session 1700003600 ACTIVE)).2
  = [("ROLE_ASSUMED", "SUCCESS")] /\
  audit_results
    (assume_role (sample_session "s-1" 1700003600 ACTIVE) None
       (with_fault sts_refuses (one_session 1700003600 ACTIVE))).2
  = [("ROLE_ASSUMED", "FAILURE")].
Proof. vm_compute. repeat split. Qed.

(** ** Status updates and the sweep *)

(** Unfolds the operations of the monad. *)
Ltac run_monad :=
  unfold try_except, except_ClientError, except_Exception, call, gets, modify,
    utcnow, uuid4, lift, raise, mbind, M_bind, mret, M_ret; simpl.

Lemma update_session_status_run (project sid : string) (st : SessionStatus)
    (md : option (list (string * json))) (w : World) :
  update_session_status project sid st md w =
  match fault w (UpdateItem project sid) with
  | None =>
      (Ok true,
       with_sessions_table
         (partial_alter (fun o => Some (set_status st md (default empty_item o)))
            (project, sid) (sessions_table w)) w)
  | Some e => if is_ClientError e then (Ok false, w) else (Raise e, w)
  end.
Proof.
  unfold update_session_status, update_item. run_monad.
  destruct (fault w (UpdateItem project sid)) as [e|]; [|reflexivity].
  destruct (is_ClientError e); reflexivity.
Qed.


(** What a query yields when the table fits in one page: the items that
    satisfy both expressions. *)
Lemma one_page_query (w : World) (key_condition filter_expression : Item -> bool) :
  one_page w ->
  List.filter (fun ki : (string * string) * Item => filter_expression ki.2)
    (take (page_limit w)
       (List.filter (fun ki => key_condition ki.2) (map_to_list (sessions_table w))))
  = List.filter (fun ki => key_condition ki.2 && filter_expression ki.2)
      (map_to_list (sessions_table w)).
Proof.
  unfold one_page. intros Hpage.
  generalize dependent (map_to_list (sessions_table w)). intros l Hpage.
  rewrite take_ge.
  - induction l as [|ki l IH]; [reflexivity|]. cbn [List.filter].
    destruct (key_condition ki.2); cbn [andb List.filter].
    + destruct (filter_expression ki.2); [f_equal|]; apply IH; simpl in Hpage; lia.
    + apply IH. simpl in Hpage. lia.
  - etransitivity; [apply List.filter_length_le | exact Hpage].
Qed.

(** A query on a table without the attribute of the index yields nothing. *)
Lemma filter_absent {A} (f : A -> bool) (l : list A) :
  (forall a, In a l -> f a = false) -> List.filter f l = [].
Proof.
  induction l as [|a l IH]; intros Hall; [reflexivity|]. cbn [List.filter].
  rewrite (Hall a (or_introl eq_refl)). apply IH. intros b Hb. apply Hall. right. exact Hb.
Qed.





Lemma _item_to_session_key (now : Z) (key : string * string) (item : Item)
    (session : RoleSession) :
  _item_to_session now key item = Some session -> session_key session = key.
Proof.
  unfold _item_to_session.
  destruct (snake_requested_at item), (snake_expires_at item),
    (item_user_id item), (item_role_arn item), (item_permission_tier item),
    (item_expires_at item); try discriminate.
  intros [= <-]. destruct key; reflexivity.
Qed.

(** An item without the Pascal-case attributes converts to no session. *)
Lemma _item_to_session_unindexed (now : Z) (key : string * string) (item : Item) :
  unindexed item = true -> _item_to_session now key item = None.
Proof.
  unfold unindexed, _item_to_session. intros Hitem.
  destruct (item_user_id item); [discriminate|].
  destruct (snake_requested_at item), (snake_expires_at item); reflexivity.
Qed.


(** On a table of unindexed items the index on the expiry is empty: the
    query, when it answers, yields no session. *)
Lemma get_expired_sessions_unindexed (w : World) :
  package_table w ->
  get_expired_sessions w = (Ok [], w) \/ exists e, get_expired_sessions w = (Raise e, w).
Proof.
  intros Htable. unfold get_expired_sessions, query. run_monad.
  destruct (fault w (Query "ExpiresAtIndex")) as [e|].
  - destruct (is_ClientError e); simpl; eauto.
  - left.
    rewrite (filter_absent (fun ki : (string * string) * Item =>
                              expires_before (clock w) ki.2));
      [rewrite take_nil; reflexivity|].
    intros [key item] Hin. apply list_elem_of_In, elem_of_map_to_list in Hin.
    specialize (Htable key item Hin). unfold unindexed in Htable.
    unfold expires_before. simpl.
    destruct (item_user_id item), (item_role_arn item), (item_permission_tier item),
      (item_requested_at item), (item_expires_at item); try discriminate. reflexivity.
Qed.

(** ** The sweep and the sessions the package stores *)

Lemma create_session_run (session : RoleSession) (w : World) :
  create_session session w =
  match fault w (PutItem (project_id session) (session_id session)) with
  | None =>
      (Ok true,
       with_sessions_table
         (<[session_key session := session_item session]> (sessions_table w)) w)
  | Some e => if is_ClientError e then (Ok false, w) else (Raise e, w)
  end.
Proof.
  unfold create_session, put_item. run_monad.
  destruct (fault w (PutItem (project_id session) (session_id session))) as [e|];
    [|reflexivity].
  destruct (is_ClientError e); reflexivity.
Qed.

Lemma empty_table_package (w : World) :
  sessions_table w = ∅ -> package_table w.
Proof. intros Hempty key item. rewrite Hempty, lookup_empty. discriminate. Qed.

(** The writes of [database.py] keep a table of unindexed items so. *)
Lemma create_session_package_table (session : RoleSession) (w : World) :
  package_table w -> package_table (create_session session w).2.
Proof.
  intros Htable. rewrite create_session_run.
  destruct (fault w (PutItem _ _)) as [e|]; [destruct (is_ClientError e); exact Htable|].
  intros key item. simpl.
  destruct (decide (session_key session = key)) as [<-|Hne].
  - rewrite lookup_insert_eq. intros [= <-]. reflexivity.
  - rewrite lookup_insert_ne by exact Hne. apply Htable.
Qed.

Lemma set_status_unindexed (st : SessionStatus) (md : option (list (string * json)))
    (item : Item) :
  unindexed (set_status st md item) = unindexed item.
Proof. reflexivity. Qed.

Lemma update_session_status_package_table (project sid : string) (st : SessionStatus)
    (md : option (list (string * json))) (w : World) :
  package_table w -> package_table (update_session_status project sid st md w).2.
Proof.
  intros Htable. rewrite update_session_status_run.
  destruct (fault w (UpdateItem _ _)) as [e|]; [destruct (is_ClientError e); exact Htable|].
  intros key item. simpl.
  destruct (decide ((project, sid) = key)) as [<-|Hne].
  - rewrite lookup_partial_alter_eq. intros [= <-]. rewrite set_status_unindexed.
    destruct (sessions_table w !! (project, sid)) as [stored|] eqn:Hstored;
      [exact (Htable _ _ Hstored) | reflexivity].
  - rewrite lookup_partial_alter_ne by exact Hne. apply Htable.
Qed.

(** C5 fails on every session the package stores.  [create_session] writes
    [expires_at] and [status]; the sweep queries the index on [ExpiresAt]
    and filters on [Status].  On a table that holds only what
    [create_session] and [update_session_status] wrote, the sweep therefore
    finds nothing, whatever the expiries and whatever the services answer:
    it returns 0 and changes nothing, and it still does so right after a
    session whose expiry has passed was stored, and after any status
    update. *)
Theorem cleanup_expired_sessions_finds_nothing (w : World) :
  package_table w ->
  cleanup_expired_sessions w = (Ok O, w) /\
  (forall session,
     let stored := (create_session session w).2 in
     cleanup_expired_sessions stored = (Ok O, stored)) /\
  (forall project sid st metadata,
     let updated := (update_session_status project sid st metadata w).2 in
     cleanup_expired_sessions updated = (Ok O, updated)).
Proof.
  assert (Hnothing : forall w0, package_table w0 ->
                       cleanup_expired_sessions w0 = (Ok O, w0)).
  { intros w0 Htable. unfold cleanup_expired_sessions, try_except, mbind, M_bind.
    destruct (get_expired_sessions_unindexed w0 Htable) as [-> | [e ->]]; reflexivity. }
  intros Htable. split; [exact (Hnothing w Htable)|]. split.
  - intros session. cbn zeta. apply Hnothing, create_session_package_table, Htable.
  - intros project sid st metadata. cbn zeta.
    apply Hnothing, update_session_status_package_table, Htable.
Qed.

(** The integration test [test_session_cleanup]: a pending session whose
    expiry has passed an hour ago is stored; the sweep then returns 0, not
    1, and the stored item is as [create_session] wrote it. *)
Lemma cleanup_expired_sessions_finds_nothing_witness :
  let expired_session := sample_session "s-1" 1699996400 PENDING in
  let stored := (create_session expired_session empty_world).2 in
  (create_session expired_session empty_world).1 = Ok true /\
  expires_at expired_session < clock stored /\
  cleanup_expired_sessions stored = (Ok O, stored) /\
  sessions_table stored !! ("test-project", "s-1") = Some (session_item expired_session) /\
  stored_status stored "test-project" "s-1" = None.
Proof.
  cbn zeta. split; [reflexivity|]. split; [reflexivity|]. split; [|split; reflexivity].
  apply (proj1 (proj2 (cleanup_expired_sessions_finds_nothing empty_world
                         (empty_table_package empty_world eq_refl)))
           (sample_session "s-1" 1699996400 PENDING)).
Defined.

(** On readable items the sweep does run, and it marks EXPIRED the sessions
    that were REVOKED or FAILED as well: the filter of the query excludes
    the status EXPIRED only. *)
Example sweep_of_readable_items :
  five_statuses five_sessions
  = [Some ACTIVE; Some REVOKED; Some FAILED; Some EXPIRED; Some PENDING] /\
  (cleanup_expired_sessions five_sessions).1 = Ok 3%nat /\
  five_statuses (cleanup_expired_sessions five_sessions).2
  = [Some EXPIRED; Some EXPIRED; Some EXPIRED; Some EXPIRED; Some PENDING].
Proof. vm_compute. repeat split. Qed.

(** ** Terminal states *)

Lemma get_session_run (project sid : string) (w : World) :
  fault w (GetItem project sid) = None ->
  get_session project sid w =
  (Ok (match sessions_table w !! (project, sid) with
       | Some item => _item_to_session (clock w) (project, sid) item
       | None => None
       end), w).
Proof.
  intros Hf. unfold get_session, get_item. run_monad. rewrite Hf. reflexivity.
Qed.

(** The break-glass notification returns normally and leaves the sessions
    alone. *)
Lemma _send_break_glass_notification_run (settings : Settings) (session : RoleSession)
    (w : World) :
  (_send_break_glass_notification settings session w).1 = Ok tt /\
  sessions_table (_send_break_glass_notification settings session w).2 = sessions_table w.
Proof.
  unfold _send_break_glass_notification.
  destruct (break_glass_notification_topic settings) as [[|c topic]|]; try (split; reflexivity).
  unfold sns_publish. run_monad.
  destruct (fault w (SnsPublish (String c topic))); split; reflexivity.
Qed.

(** C3, as the code has it: a status update never looks at the stored
    status.  Whenever the store accepts the call, [update_session_status]
    writes the new status over the old one, terminal or not, and reports
    success, leaving the other sessions alone; when the store refuses the
    call it reports failure and changes nothing. *)
Theorem update_session_status_unconditional (project sid : string)
    (new_status : SessionStatus) (metadata : option (list (string * json))) (w : World) :
  (fault w (UpdateItem project sid) = None ->
   let result := update_session_status project sid new_status metadata w in
   result.1 = Ok true /\
   stored_status result.2 project sid = Some new_status /\
   forall key, key <> (project, sid) ->
     sessions_table result.2 !! key = sessions_table w !! key) /\
  (forall code, fault w (UpdateItem project sid) = Some (ClientError code) ->
   update_session_status project sid new_status metadata w = (Ok false, w)).
Proof.
  split.
  - intros Hf. cbn zeta. rewrite update_session_status_run, Hf. simpl.
    split; [reflexivity|]. split.
    + unfold stored_status. simpl. rewrite lookup_partial_alter_eq. reflexivity.
    + intros key Hne. rewrite lookup_partial_alter_ne by congruence. reflexivity.
  - intros code Hf. rewrite update_session_status_run, Hf. reflexivity.
Qed.

Lemma update_session_status_unconditional_witness :
  stored_status (one_session 1699999000 FAILED) "test-project" "s-1" = Some FAILED /\
  (let result := update_session_status "test-project" "s-1" ACTIVE None
                   (one_session 1699999000 FAILED) in
   result.1 = Ok true /\
   stored_status result.2 "test-project" "s-1" = Some ACTIVE) /\
  update_session_status "test-project" "s-1" ACTIVE None
    (with_fault refuses_updates (one_session 1699999000 FAILED))
  = (Ok false, with_fault refuses_updates (one_session 1699999000 FAILED)).
Proof.
  split; [reflexivity|]. split.
  - destruct (proj1 (update_session_status_unconditional "test-project" "s-1" ACTIVE None
                       (one_session 1699999000 FAILED)) eq_refl) as (Hr & Hs & _).
    split; assumption.
  - apply (proj2 (update_session_status_unconditional "test-project" "s-1" ACTIVE None
                    (with_fault refuses_updates (one_session 1699999000 FAILED)))
             "ProvisionedThroughputExceededException").
    reflexivity.
Defined.

(** C3 as stated fails: a FAILED session becomes ACTIVE by a status update
    that reports success; and a REVOKED one becomes EXPIRED when
    [assume_role] is called with a session object that is still ACTIVE and
    whose expiry has passed. *)
Lemma terminal_status_overwritten :
  (let result := update_session_status "test-project" "s-1" ACTIVE None
                   (one_session 1699999000 FAILED) in
   stored_status (one_session 1699999000 FAILED) "test-project" "s-1" = Some FAILED /\
   result.1 = Ok true /\
   stored_status result.2 "test-project" "s-1" = Some ACTIVE) /\
  (let result := assume_role (sample_session "s-1" 1699999000 ACTIVE) None
                   (one_session 1699999000 REVOKED) in
   stored_status (one_session 1699999000 REVOKED) "test-project" "s-1" = Some REVOKED /\
   result.1 = Ok None /\
   stored_status result.2 "test-project" "s-1" = Some EXPIRED).
Proof. vm_compute. repeat split. Qed.

(** * Further properties *)

(** ** The store: writing and reading back *)

Lemma _item_to_session_item (now : Z) (session : RoleSession) :
  _item_to_session now (session_key session) (session_item session) = None.
Proof. reflexivity. Qed.

Lemma _item_to_session_readable (now : Z) (session : RoleSession) :
  _item_to_session now (session_key session) (readable_item session) = Some session.
Proof. destruct session. reflexivity. Qed.

Lemma get_session_reads (project sid : string) (w : World) :
  (get_session project sid w).2 = w /\
  forall session, (get_session project sid w).1 = Ok (Some session) ->
    exists item, sessions_table w !! (project, sid) = Some item /\
                 _item_to_session (clock w) (project, sid) item = Some session.
Proof.
  unfold get_session, get_item. run_monad.
  destruct (fault w (GetItem project sid)) as [e|]; simpl.
  - destruct (is_ClientError e); simpl; split; auto; discriminate.
  - split; [reflexivity|]. intros session.
    destruct (sessions_table w !! (project, sid)) as [item|]; [|discriminate].
    intros [= Hconv]. eauto.
Qed.

Lemma get_session_returns (project sid : string) (w : World) :
  (exists o, get_session project sid w = (Ok o, w)) \/
  (exists e, get_session project sid w = (Raise e, w)).
Proof.
  unfold get_session, get_item. run_monad.
  destruct (fault w (GetItem project sid)) as [e|]; simpl; [|eauto].
  destruct (is_ClientError e); simpl; eauto.
Qed.

(** No session is read from an unindexed item. *)
Lemma get_session_unindexed (project sid : string) (w : World) (item : Item) :
  sessions_table w !! (project, sid) = Some item ->
  unindexed item = true ->
  forall found, (get_session project sid w).1 = Ok found -> found = None.
Proof.
  intros Hitem Hun [session|] Hfound; [|reflexivity].
  destruct (proj2 (get_session_reads project sid w) session Hfound) as (item' & Hitem' & Hconv).
  rewrite Hitem in Hitem'. injection Hitem' as <-.
  rewrite (_item_to_session_unindexed _ _ _ Hun) in Hconv. discriminate.
Qed.

(** A session written by [create_session] is not read back by
    [get_session].  When the put is accepted, the item stored is the dict of
    the session under its snake-case names and the other items stay as they
    were; [get_session] of the key of the session then finds no session,
    whatever the services answer, and still finds none after a status
    update.  An item that carries the fields of a session under both
    spellings is read back as that session. *)
Theorem create_session_not_read_back (session : RoleSession) (w : World) :
  fault w (PutItem (project_id session) (session_id session)) = None ->
  let written := create_session session w in
  written.1 = Ok true /\
  sessions_table written.2 !! session_key session = Some (session_item session) /\
  (forall key, key <> session_key session ->
     sessions_table written.2 !! key = sessions_table w !! key) /\
  (forall found,
     (get_session (project_id session) (session_id session) written.2).1 = Ok found ->
     found = None) /\
  (forall st md found,
     let updated := update_session_status (project_id session) (session_id session)
                      st md written.2 in
     (get_session (project_id session) (session_id session) updated.2).1 = Ok found ->
     found = None) /\
  (forall other w0,
     fault w0 (GetItem (project_id other) (session_id other)) = None ->
     sessions_table w0 !! session_key other = Some (readable_item other) ->
     get_session (project_id other) (session_id other) w0 = (Ok (Some other), w0)).
Proof.
  intros Hput. cbn zeta. rewrite create_session_run, Hput. cbn [fst snd].
  assert (Hstored : sessions_table
                      (with_sessions_table
                         (<[session_key session := session_item session]> (sessions_table w)) w)
                    !! session_key session = Some (session_item session)).
  { simpl. apply lookup_insert_eq. }
  split; [reflexivity|]. split; [exact Hstored|]. split; [|split; [|split]].
  - intros key Hne. simpl. rewrite lookup_insert_ne by congruence. reflexivity.
  - intros found. apply (get_session_unindexed _ _ _ _ Hstored). reflexivity.
  - intros st md found. rewrite update_session_status_run.
    destruct (fault _ (UpdateItem _ _)) as [e|].
    + destruct (is_ClientError e); cbn [snd];
        apply (get_session_unindexed _ _ _ _ Hstored); reflexivity.
    + cbn [snd].
      apply (get_session_unindexed _ _ _
               (set_status st md (session_item session))); [|reflexivity].
      simpl. rewrite lookup_partial_alter_eq, lookup_insert_eq. reflexivity.
  - intros other w0 Hget Hitem. rewrite get_session_run by exact Hget.
    change (project_id other, session_id other) with (session_key other).
    rewrite Hitem, _item_to_session_readable. reflexivity.
Qed.

Lemma create_session_not_read_back_witness :
  let session := sample_session "s-9" 1700003600 ACTIVE in
  let written := create_session session empty_world in
  written.1 = Ok true /\
  get_session "test-project" "s-9" written.2 = (Ok None, written.2) /\
  get_session "test-project" "s-1" (one_readable 1700003600 ACTIVE)
  = (Ok (Some (sample_session "s-1" 1700003600 ACTIVE)), one_readable 1700003600 ACTIVE).
Proof.
  destruct (create_session_not_read_back (sample_session "s-9" 1700003600 ACTIVE)
              empty_world eq_refl) as (Hwritten & _ & _ & Hnone & _ & Hreadable).
  split; [exact Hwritten|]. split.
  - destruct (get_session_returns "test-project" "s-9"
                (create_session (sample_session "s-9" 1700003600 ACTIVE) empty_world).2)
      as [[found Hfound]|[e He]].
    + rewrite Hfound. rewrite (Hnone found (f_equal fst Hfound)). reflexivity.
    + vm_compute in He. discriminate.
  - apply (Hreadable (sample_session "s-1" 1700003600 ACTIVE)
             (one_readable 1700003600 ACTIVE)); reflexivity.
Defined.

(** ** The reads *)

(** A [try] whose [except Exception] clause returns a value never raises. *)
Lemma try_except_Exception_returns {A} (body : M A) (v : A) (w : World) :
  exists a, (try_except body (except_Exception (fun _ => mret v)) w).1 = Ok a.
Proof.
  unfold try_except, except_Exception. destruct (body w) as [[a|e] w']; simpl; eauto.
Qed.

(** [get_session_status] is a pure read that never raises: the world is
    left as it was.  A view is returned only for an item that converts to a
    session; it shows the [Status] of the item as it is, even when the
    expiry has passed, and a remaining time of [expires_at - now] cut off at
    zero.  A key without an item gives [None], and so does an unindexed
    item: the sessions the package stores have no view. *)
Theorem get_session_status_pure_read (project sid : string) (w : World) :
  let result := get_session_status project sid w in
  result.2 = w /\
  (exists o, result.1 = Ok o) /\
  (sessions_table w !! (project, sid) = None -> result.1 = Ok None) /\
  (forall item, sessions_table w !! (project, sid) = Some item ->
     unindexed item = true -> result.1 = Ok None) /\
  (forall view, result.1 = Ok (Some view) ->
     exists item session,
       sessions_table w !! (project, sid) = Some item /\
       _item_to_session (clock w) (project, sid) item = Some session /\
       view = status_view (clock w) session /\
       dict_get "status" view
       = Some (JStr (status_value (default PENDING (item_status item)))) /\
       exists t, dict_get "time_remaining" view = Some (JInt t) /\
                 0 <= t /\ expires_at session - clock w <= t /\
                 (clock w <= expires_at session -> t = expires_at session - clock w)).
Proof.
  cbn zeta. unfold get_session_status.
  split; [|split; [apply try_except_Exception_returns|split; [|split]]].
  - unfold try_except, except_Exception, mbind, M_bind.
    destruct (get_session_returns project sid w) as [[o ->]|[e ->]]; [|reflexivity].
    destruct o; reflexivity.
  - intros Hnone. unfold try_except, except_Exception, mbind, M_bind.
    destruct (get_session_returns project sid w) as [[o Ho]|[e ->]]; [|reflexivity].
    rewrite Ho. destruct o as [session|]; [|reflexivity].
    destruct (proj2 (get_session_reads project sid w) session) as (item & Hitem & _).
    { rewrite Ho. reflexivity. }
    congruence.
  - intros item Hitem Hun. unfold try_except, except_Exception, mbind, M_bind.
    destruct (get_session_returns project sid w) as [[o Ho]|[e ->]]; [|reflexivity].
    rewrite Ho.
    rewrite (get_session_unindexed project sid w item Hitem Hun o); [reflexivity|].
    rewrite Ho. reflexivity.
  - intros view. unfold try_except, except_Exception, mbind, M_bind.
    destruct (get_session_returns project sid w) as [[o Ho]|[e ->]]; [|discriminate].
    rewrite Ho. destruct o as [session|]; [|discriminate].
    simpl. intros [= <-].
    destruct (proj2 (get_session_reads project sid w) session) as (item & Hitem & Hconv).
    { rewrite Ho. reflexivity. }
    exists item, session. split; [exact Hitem|]. split; [exact Hconv|].
    split; [reflexivity|]. split.
    + simpl. unfold _item_to_session in Hconv.
      destruct (snake_requested_at item), (snake_expires_at item),
        (item_user_id item), (item_role_arn item), (item_permission_tier item),
        (item_expires_at item); try discriminate.
      injection Hconv as <-. reflexivity.
    + exists (time_remaining (clock w) session). split; [reflexivity|].
      unfold time_remaining. lia.
Qed.

Lemma get_session_status_pure_read_witness :
  (get_session_status "test-project" "s-1" (one_session 1699999000 ACTIVE)).1 = Ok None /\
  exists view,
    (get_session_status "test-project" "s-1" (one_readable 1699999000 ACTIVE)).1
    = Ok (Some view) /\
    dict_get "status" view = Some (JStr "ACTIVE") /\
    dict_get "time_remaining" view = Some (JInt 0).
Proof.
  split.
  - apply (proj1 (proj2 (proj2 (proj2 (get_session_status_pure_read "test-project" "s-1"
                                          (one_session 1699999000 ACTIVE)))))
             (sample_item 1699999000 ACTIVE)); reflexivity.
  - eexists. split; [vm_compute; reflexivity|].
    split; vm_compute; reflexivity.
Defined.

(** The sessions [get_user_sessions] returns when the query answers. *)
Lemma get_user_sessions_run (user : string) (status_filter : option SessionStatus)
    (w : World) :
  fault w (Query "UserIdIndex") = None ->
  get_user_sessions user status_filter w =
  (Ok (omap (fun ki => _item_to_session (clock w) ki.1 ki.2)
         (List.filter (fun ki => has_status status_filter ki.2)
            (take (page_limit w)
               (List.filter (fun ki => has_user user ki.2)
                  (map_to_list (sessions_table w)))))), w).
Proof.
  intros Hf. unfold get_user_sessions, query. run_monad. rewrite Hf. reflexivity.
Qed.

Lemma get_user_sessions_returns (user : string) (status_filter : option SessionStatus)
    (w : World) :
  (exists sessions, get_user_sessions user status_filter w = (Ok sessions, w)) \/
  (exists e, get_user_sessions user status_filter w = (Raise e, w)).
Proof.
  unfold get_user_sessions, query. run_monad.
  destruct (fault w (Query "UserIdIndex")) as [e|]; simpl; [|eauto].
  destruct (is_ClientError e); simpl; eauto.
Qed.

(** On a table of unindexed items the index on the user is empty. *)
Lemma get_user_sessions_unindexed (user : string) (status_filter : option SessionStatus)
    (w : World) :
  package_table w ->
  forall sessions, (get_user_sessions user status_filter w).1 = Ok sessions -> sessions = [].
Proof.
  intros Htable sessions. unfold get_user_sessions, query. run_monad.
  destruct (fault w (Query "UserIdIndex")) as [e|].
  - destruct (is_ClientError e); simpl; congruence.
  - rewrite (filter_absent (fun ki : (string * string) * Item => has_user user ki.2)).
    + rewrite take_nil. simpl. congruence.
    + intros [key item] Hin. apply list_elem_of_In, elem_of_map_to_list in Hin.
      specialize (Htable key item Hin). unfold unindexed in Htable.
      unfold has_user. simpl. destruct (item_user_id item); [discriminate|]. reflexivity.
Qed.

(** [get_user_sessions] reads the index on [UserId] and filters on
    [Status].  When the query answers and the table fits in one page, it
    returns exactly the sessions of the items that carry the user as
    [UserId], have the given [Status] when one is given, and convert to a
    session; the world is left as it was.  On a table that holds only what
    the package wrote it returns no session at all. *)
Theorem get_user_sessions_exact (user : string) (status_filter : option SessionStatus)
    (w : World) :
  fault w (Query "UserIdIndex") = None ->
  one_page w ->
  exists sessions,
    get_user_sessions user status_filter w = (Ok sessions, w) /\
    (forall session,
       In session sessions <->
       exists item,
         sessions_table w !! session_key session = Some item /\
         _item_to_session (clock w) (session_key session) item = Some session /\
         item_user_id item = Some user /\
         user_id session = user /\
         forall st, status_filter = Some st -> item_status item = Some st) /\
    (package_table w -> sessions = []).
Proof.
  intros Hf Hpage. eexists. split; [|split].
  - rewrite (get_user_sessions_run user status_filter w Hf).
    rewrite (one_page_query w _ _ Hpage). reflexivity.
  - intros session. rewrite <- list_elem_of_In, list_elem_of_omap. split.
    + intros ([key item] & Hin & Hconv). simpl in Hconv.
      apply list_elem_of_In, filter_In in Hin. destruct Hin as [Hin Hsel].
      apply list_elem_of_In, elem_of_map_to_list in Hin.
      pose proof (_item_to_session_key _ _ _ _ Hconv) as Hkey. subst key.
      exists item. split; [exact Hin|]. split; [exact Hconv|].
      simpl in Hsel. apply andb_true_iff in Hsel as [Huser Hstatus].
      unfold has_user in Huser. apply bool_decide_eq_true in Huser.
      split; [exact Huser|]. split.
      * unfold _item_to_session in Hconv. rewrite Huser in Hconv.
        destruct (snake_requested_at item), (snake_expires_at item),
          (item_role_arn item), (item_permission_tier item),
          (item_expires_at item); try discriminate.
        injection Hconv as <-. reflexivity.
      * intros st ->. unfold has_status in Hstatus.
        apply bool_decide_eq_true in Hstatus. exact Hstatus.
    + intros (item & Hitem & Hconv & Huser & _ & Hstatus).
      exists (session_key session, item). split; [|exact Hconv].
      apply list_elem_of_In, filter_In. split.
      * apply list_elem_of_In, elem_of_map_to_list. exact Hitem.
      * simpl. apply andb_true_iff. split.
        -- unfold has_user. apply bool_decide_eq_true. exact Huser.
        -- unfold has_status. destruct status_filter as [st|]; [|reflexivity].
           apply bool_decide_eq_true. apply Hstatus. reflexivity.
  - intros Htable.
    apply (get_user_sessions_unindexed user status_filter w Htable).
    rewrite (get_user_sessions_run user status_filter w Hf).
    rewrite (one_page_query w _ _ Hpage). reflexivity.
Qed.

(** A table whose items are all found unindexed holds what the package
    wrote. *)
Lemma package_table_check (w : World) :
  forallb (fun ki => unindexed ki.2) (map_to_list (sessions_table w)) = true ->
  package_table w.
Proof.
  intros Hall key item Hitem. rewrite forallb_forall in Hall.
  apply (Hall (key, item)). apply list_elem_of_In, elem_of_map_to_list. exact Hitem.
Qed.

Lemma get_user_sessions_exact_witness :
  (exists sessions,
     get_user_sessions "test-user" (Some REVOKED) five_sessions = (Ok sessions, five_sessions) /\
     In (sample_session "s-2" 1699999000 REVOKED) sessions /\
     ~ In (sample_session "s-1" 1699999000 ACTIVE) sessions) /\
  get_user_sessions "test-user" None (one_session 1700003600 ACTIVE)
  = (Ok [], one_session 1700003600 ACTIVE).
Proof.
  split.
  - destruct (get_user_sessions_exact "test-user" (Some REVOKED) five_sessions eq_refl)
      as (sessions & Hrun & Hexact & _).
    { unfold one_page. vm_compute. lia. }
    exists sessions. split; [exact Hrun|]. split.
    + apply Hexact. exists (readable_item (sample_session "s-2" 1699999000 REVOKED)).
      split; [vm_compute; reflexivity|]. split; [reflexivity|]. split; [reflexivity|].
      split; [reflexivity|]. intros st [= <-]. reflexivity.
    + intros Hin. apply Hexact in Hin.
      destruct Hin as (item & Hitem & _ & _ & _ & Hstatus).
      vm_compute in Hitem. injection Hitem as <-.
      specialize (Hstatus REVOKED eq_refl). discriminate.
  - destruct (get_user_sessions_exact "test-user" None (one_session 1700003600 ACTIVE) eq_refl)
      as (sessions & Hrun & _ & Hnone).
    { unfold one_page. vm_compute. lia. }
    rewrite Hrun, Hnone; [reflexivity|].
    apply package_table_check. vm_compute. reflexivity.
Defined.

(** The response of the query is read once: of the five sessions of the
    user, a page of two gives two. *)
Example get_user_sessions_one_page_only :
  match (get_user_sessions "test-user" None (with_page_limit 2 five_sessions)).1 with
  | Ok sessions => length sessions
  | Raise _ => O
  end = 2%nat /\
  match (get_user_sessions "test-user" None five_sessions).1 with
  | Ok sessions => length sessions
  | Raise _ => O
  end = 5%nat.
Proof. vm_compute. split; reflexivity. Qed.

(** [list_user_sessions] never raises and leaves the world as it was; it
    gives one view per session [get_user_sessions] returns, none of which
    has a [user_id], each with a remaining time that is not negative; when
    the query is refused it gives the empty list, and so it does on a table
    that holds only what the package wrote. *)
Theorem list_user_sessions_views (user : string) (status_filter : option SessionStatus)
    (w : World) :
  let result := list_user_sessions user status_filter w in
  result.2 = w /\
  (exists views, result.1 = Ok views) /\
  (forall sessions,
     get_user_sessions user status_filter w = (Ok sessions, w) ->
     result.1 = Ok (map (list_view (clock w)) sessions)) /\
  (forall views view,
     result.1 = Ok views -> In view views ->
     dict_get "user_id" view = None /\
     exists t, dict_get "time_remaining" view = Some (JInt t) /\ 0 <= t) /\
  (forall code, fault w (Query "UserIdIndex") = Some (ClientError code) ->
     result.1 = Ok []) /\
  (package_table w -> result.1 = Ok []).
Proof.
  cbn zeta.
  pose proof (get_user_sessions_returns user status_filter w) as Hcases.
  assert (Hrun : list_user_sessions user status_filter w
                 = match get_user_sessions user status_filter w with
                   | (Ok sessions, _) => (Ok (map (list_view (clock w)) sessions), w)
                   | (Raise _, _) => (Ok [], w)
                   end).
  { unfold list_user_sessions. run_monad.
    destruct Hcases as [[sessions ->]|[e ->]]; reflexivity. }
  rewrite Hrun.
  split; [destruct Hcases as [[? ->]|[? ->]]; reflexivity|].
  split; [destruct Hcases as [[? ->]|[? ->]]; simpl; eauto|].
  split; [intros sessions ->; reflexivity|].
  split; [|split].
  - intros views view Hviews Hin.
    destruct Hcases as [[sessions Hs]|[e He]].
    + rewrite Hs in Hviews. simpl in Hviews. injection Hviews as <-.
      apply in_map_iff in Hin. destruct Hin as (session & <- & _).
      split; [reflexivity|].
      exists (time_remaining (clock w) session). split; [reflexivity|].
      unfold time_remaining. lia.
    + rewrite He in Hviews. simpl in Hviews. injection Hviews as <-. destruct Hin.
  - intros code Hf.
    assert (Hnone : get_user_sessions user status_filter w = (Ok [], w)).
    { unfold get_user_sessions, query. run_monad. rewrite Hf. reflexivity. }
    rewrite Hnone. reflexivity.
  - intros Htable. destruct Hcases as [[sessions Hs]|[e He]].
    + rewrite Hs.
      rewrite (get_user_sessions_unindexed user status_filter w Htable sessions);
        [reflexivity|].
      rewrite Hs. reflexivity.
    + rewrite He. reflexivity.
Qed.

Lemma list_user_sessions_views_witness :
  (exists views,
     (list_user_sessions "test-user" (Some ACTIVE) five_sessions).1 = Ok views /\
     map (dict_get "session_id") views = [Some (JStr "s-1")] /\
     forall view, In view views -> dict_get "user_id" view = None) /\
  (list_user_sessions "test-user" None (one_session 1700003600 ACTIVE)).1 = Ok [].
Proof.
  split.
  - eexists. split; [vm_compute; reflexivity|]. split; [reflexivity|].
    intros view Hin.
    apply (proj1 (proj1 (proj2 (proj2 (proj2
             (list_user_sessions_views "test-user" (Some ACTIVE) five_sessions))))
             _ view eq_refl Hin)).
  - apply (proj2 (proj2 (proj2 (proj2 (proj2
             (list_user_sessions_views "test-user" None
                (one_session 1700003600 ACTIVE))))))).
    apply package_table_check. vm_compute. reflexivity.
Defined.

(** ** Provisioning *)

Lemma get_policy_template_run (settings : Settings) (tier : PermissionTier) (w : World) :
  get_policy_template settings tier w =
  match fault w (S3GetObject (template_key settings tier).1 (template_key settings tier).2) with
  | Some e => if is_ClientError e then (Ok None, w) else (Raise e, w)
  | None =>
      match bucket w !! template_key settings tier with
      | None => (Ok None, w)
      | Some (TemplateJson t) => (Ok (Some t), w)
      | Some (OtherBody _) => (Raise (ValueError "not the JSON of a policy template" []), w)
      end
  end.
Proof.
  unfold get_policy_template, s3_get_object, template_key. run_monad.
  destruct (fault w _) as [e|]; simpl.
  - destruct (is_ClientError e); reflexivity.
  - destruct (bucket w !! _) as [[t|text]|]; reflexivity.
Qed.

Lemma map_other_roles (name : string) (f : IamRole -> IamRole) (roles : list IamRole) :
  existsb (fun r => (iam_role_name r =? name)%string) roles = false ->
  map (fun r => if (iam_role_name r =? name)%string then f r else r) roles = roles.
Proof.
  induction roles as [|r roles IH]; simpl; [reflexivity|].
  intros Hnone. apply orb_false_iff in Hnone as [Hr Hrest].
  rewrite Hr, IH by exact Hrest. reflexivity.
Qed.

(** The outcomes of [_create_temporary_role]: nothing happens and [None] is
    returned; or the role is created and its policy attached, and the ARN is
    returned; or the role is created, the policy is refused, and [None] is
    returned. *)
Lemma _create_temporary_role_cases `{Ipaddress} (settings : Settings)
    (request : RoleRequest) (sid : string) (w : World) :
  let name := role_name_of (req_project_id request) sid in
  let result := _create_temporary_role settings request sid w in
  result = (Ok None, w) \/
  exists template doc,
    bucket w !! template_key settings (req_permission_tier request)
    = Some (TemplateJson template) /\
    generate_policy template (policy_variables_of request sid) = Ok doc /\
    has_role name w = false /\
    (result = (Ok (Some (get_role_arn (aws_account_id settings) name)),
               with_iam_roles
                 (iam_roles w ++
                  [role_for settings request sid (clock w) [("TemporaryAccessPolicy", doc)]])
                 w) \/
     result = (Ok None,
               with_iam_roles
                 (iam_roles w ++ [role_for settings request sid (clock w) []]) w)).
Proof.
  cbn zeta.
  generalize (eq_refl (_create_temporary_role settings request sid w)).
  generalize (_create_temporary_role settings request sid w) at 2 3 4 5.
  intros result Hres. unfold _create_temporary_role in Hres.
  unfold try_except at 1 in Hres. unfold mbind at 1, M_bind at 1 in Hres.
  rewrite get_policy_template_run in Hres.
  destruct (fault w (S3GetObject _ _)) as [e|].
  { left. destruct (is_ClientError e); symmetry; exact Hres. }
  destruct (bucket w !! template_key settings (req_permission_tier request))
    as [[template|text]|] eqn:Hstored;
    [|left; symmetry; exact Hres|left; symmetry; exact Hres].
  fold (policy_variables_of request sid) in Hres.
  fold (role_name_of (req_project_id request) sid) in Hres.
  unfold iam_create_role, iam_put_role_policy in Hres.
  unfold try_except, except_Exception, call, gets, modify, utcnow, lift, raise,
    mbind, M_bind, mret, M_ret in Hres.
  destruct (generate_policy template (policy_variables_of request sid)) as [doc|e] eqn:Hdoc;
    [|left; symmetry; exact Hres].
  simpl in Hres.
  destruct (fault w (IamCreateRole _)) as [e|]; [left; symmetry; exact Hres|].
  destruct (has_role (role_name_of (req_project_id request) sid) w) eqn:Hrole;
    [left; symmetry; exact Hres|].
  right. exists template, doc.
  split; [first [reflexivity | assumption]|].
  split; [first [reflexivity | assumption]|].
  split; [first [reflexivity | assumption]|]. simpl in Hres.
  try match type of Hres with
      | context [fault (with_iam_roles ?r w) ?c] =>
          change (fault (with_iam_roles r w) c) with (fault w c) in Hres
      end.
  destruct (fault w (IamPutRolePolicy _)) as [e|]; [right; symmetry; exact Hres|].
  left. unfold has_role in Hres. simpl in Hres. rewrite existsb_app in Hres.
  simpl in Hres. rewrite String.eqb_refl, orb_true_r in Hres. simpl in Hres.
  rewrite map_app in Hres. simpl in Hres. rewrite String.eqb_refl in Hres.
  rewrite map_other_roles in Hres by exact Hrole. symmetry. exact Hres.
Qed.

(** [_create_temporary_role] never raises and touches nothing but the IAM
    roles: it leaves them as they were or adds one role at the end, named
    after the project and the session and without a permission boundary;
    the roles that were there are not changed. *)
Theorem provisioning_only_adds_a_role `{Ipaddress} (settings : Settings)
    (request : RoleRequest) (sid : string) (w : World) :
  let result := _create_temporary_role settings request sid w in
  (exists o, result.1 = Ok o) /\
  same_but_roles w result.2 /\
  (iam_roles result.2 = iam_roles w \/
   exists role,
     iam_roles result.2 = iam_roles w ++ [role] /\
     iam_role_name role = role_name_of (req_project_id request) sid /\
     iam_permissions_boundary role = None).
Proof.
  cbn zeta.
  destruct (_create_temporary_role_cases settings request sid w)
    as [-> | (template & doc & _ & _ & _ & [-> | ->])]; simpl.
  - split; [eauto|]. split; [repeat split|]. left. reflexivity.
  - split; [eauto|]. split; [repeat split|]. right. eexists. repeat split.
  - split; [eauto|]. split; [repeat split|]. right. eexists. repeat split.
Qed.

(** Provisioning again under a role name that exists fails cleanly: [None]
    is returned and the world, the existing role included, is left as it
    was. *)
Theorem provisioning_existing_role_fails `{Ipaddress} (settings : Settings)
    (request : RoleRequest) (sid : string) (w : World) :
  has_role (role_name_of (req_project_id request) sid) w = true ->
  _create_temporary_role settings request sid w = (Ok None, w).
Proof.
  intros Hrole.
  destruct (_create_temporary_role_cases settings request sid w)
    as [Hres | (template & doc & _ & _ & Hfree & _)]; [exact Hres|].
  congruence.
Qed.

Lemma provisioning_existing_role_fails_witness :
  _create_temporary_role settings_36h (sample_request READ_ONLY 4 true)
    "00000000-0000-4000-8000-000000000000" world_with_role
  = (Ok None, world_with_role).
Proof.
  apply (provisioning_existing_role_fails settings_36h (sample_request READ_ONLY 4 true)
           "00000000-0000-4000-8000-000000000000" world_with_role).
  vm_compute. reflexivity.
Defined.

(** A rendering that is returned holds no placeholder of a variable that
    was not supplied. *)
Lemma generate_policy_ok_supplied (template : PolicyTemplate)
    (variables : list (string * string)) (doc : string) :
  generate_policy template variables = Ok doc ->
  forall v, In v (re_findall doc) -> dict_mem v variables = true.
Proof.
  unfold generate_policy, _find_missing_variables. cbn zeta.
  destruct (List.filter _ (re_findall (substitute (template_content template) variables)))
    as [|missing rest] eqn:Hfilter; [|discriminate].
  intros [= <-] v Hin. destruct (dict_mem v variables) eqn:Hmem; [reflexivity|].
  assert (Hv : In v []).
  { rewrite <- Hfilter. apply List.filter_In. split; [exact Hin|].
    rewrite Hmem. reflexivity. }
  destruct Hv.
Qed.

(** When provisioning returns an ARN, it is the ARN of the role named after
    the project and the first eight characters of the session identifier;
    that role is new, is the last of the roles, lasts at most an hour,
    carries the trust document of the request's external identifier and no
    boundary, and has one inline policy: the rendering of the template
    stored for the tier, in which no placeholder of an unsupplied variable
    is left. *)
Theorem provisioning_success `{Ipaddress} (settings : Settings)
    (request : RoleRequest) (sid arn : string) (w w' : World) :
  _create_temporary_role settings request sid w = (Ok (Some arn), w') ->
  let name := role_name_of (req_project_id request) sid in
  arn = get_role_arn (aws_account_id settings) name /\
  has_role name w = false /\
  exists template doc,
    bucket w !! template_key settings (req_permission_tier request)
    = Some (TemplateJson template) /\
    generate_policy template (policy_variables_of request sid) = Ok doc /\
    (forall v, In v (re_findall doc) -> In v ["projectId"; "userId"; "sessionId"]) /\
    iam_roles w'
    = iam_roles w ++
      [role_for settings request sid (clock w) [("TemporaryAccessPolicy", doc)]] /\
    iam_max_session_duration
      (role_for settings request sid (clock w) [("TemporaryAccessPolicy", doc)]) <= 3600.
Proof.
  intros Hres. cbn zeta.
  destruct (_create_temporary_role_cases settings request sid w)
    as [Hnone | (template & doc & Hstored & Hdoc & Hfree & [Hok | Hnone])];
    rewrite Hres in *; try discriminate.
  injection Hok as -> ->.
  split; [reflexivity|]. split; [exact Hfree|].
  exists template, doc. split; [exact Hstored|]. split; [exact Hdoc|].
  split; [|split; [reflexivity | simpl; lia]].
  intros v Hin.
  pose proof (generate_policy_ok_supplied template (policy_variables_of request sid)
                doc Hdoc v Hin) as Hsupplied.
  unfold dict_mem, policy_variables_of in Hsupplied.
  simpl in Hsupplied.
  destruct (String.eqb_spec v "projectId") as [->|_]; [simpl; auto|].
  destruct (String.eqb_spec v "userId") as [->|_]; [simpl; auto|].
  destruct (String.eqb_spec v "sessionId") as [->|_]; [simpl; auto|].
  discriminate.
Qed.

Lemma provisioning_success_witness :
  exists doc,
    iam_roles
      (_create_temporary_role settings_36h (sample_request READ_ONLY 4 true)
         "00000000-0000-4000-8000-000000000000" stocked_world).2
    = [role_for settings_36h (sample_request READ_ONLY 4 true)
         "00000000-0000-4000-8000-000000000000" 1700000000
         [("TemporaryAccessPolicy", doc)]].
Proof.
  destruct (_create_temporary_role settings_36h (sample_request READ_ONLY 4 true)
              "00000000-0000-4000-8000-000000000000" stocked_world)
    as [r w'] eqn:Hrun.
  assert (Hr : r = Ok (Some "arn:aws:iam::123456789012:role/temp-role-test-project-00000000")).
  { apply (f_equal fst) in Hrun. vm_compute in Hrun. congruence. }
  subst r.
  destruct (provisioning_success settings_36h (sample_request READ_ONLY 4 true)
              "00000000-0000-4000-8000-000000000000" _ stocked_world w' Hrun)
    as (_ & _ & template & doc & _ & _ & _ & Hroles & _).
  exists doc. exact Hroles.
Defined.

(** ** Granting a request *)

Lemma _create_session_record_run `{Ipaddress} (request : RoleRequest) (w : World) :
  _create_session_record request w =
  match fault w (PutItem (req_project_id request) (entropy w (drawn w))) with
  | None => (Ok (Some (new_session request w)), after_record request w)
  | Some _ => (Ok None, with_drawn (S (drawn w)) w)
  end.
Proof.
  unfold _create_session_record, create_session, put_item. run_monad.
  destruct (fault w (PutItem _ _)) as [e|]; [|reflexivity].
  destruct (is_ClientError e); reflexivity.
Qed.

Lemma _log_audit_event_outcome (user action : string) (tier : PermissionTier)
    (result : string) (duration : option Z) (details : option (list (string * json)))
    (w : World) :
  _log_audit_event user action tier result duration details w =
  (match fault w AuditPutItem with
   | Some e => if is_ClientError e then Ok tt else Raise e
   | None => Ok tt
   end,
   after_audit user action tier result duration details w).
Proof.
  unfold _log_audit_event, log_audit_event, audit_put_item, after_audit. run_monad.
  destruct (fault w AuditPutItem) as [e|]; [|reflexivity].
  destruct (is_ClientError e); reflexivity.
Qed.

Lemma update_session_status_outcome (project sid : string) (st : SessionStatus)
    (metadata : option (list (string * json))) (w : World) :
  update_session_status project sid st metadata w =
  (match fault w (UpdateItem project sid) with
   | Some e => if is_ClientError e then Ok false else Raise e
   | None => Ok true
   end,
   after_update (project, sid) st metadata w).
Proof.
  rewrite update_session_status_run. unfold after_update. simpl.
  destruct (fault w (UpdateItem project sid)) as [e|]; [|reflexivity].
  destruct (is_ClientError e); reflexivity.
Qed.

(** Closes the branches of [request_role] that return a session. *)
Ltac granted_end doc Hvalid Hok :=
  split; [exact Hvalid|];
  split; [reflexivity|];
  split; [first [reflexivity | assumption]|];
  exists doc; split; [exact Hok | reflexivity].

(** How [request_role] ends when it returns a session. *)
Lemma request_role_granted `{Ipaddress} (settings : Settings) (request : RoleRequest)
    (session : RoleSession) (w w' : World) :
  request_role settings request w = (Ok (Some session), w') ->
  let request' := completed request w in
  let sid := entropy w (drawn w) in
  let arn := new_role_arn settings request w in
  _validate_request settings request = Ok true /\
  session = activated arn (new_session request' w) /\
  fault w (PutItem (req_project_id request) sid) = None /\
  (exists doc,
     _create_temporary_role settings request' sid (after_record request' w)
     = (Ok (Some arn),
        with_iam_roles
          (iam_roles w ++
           [role_for settings request' sid (clock w) [("TemporaryAccessPolicy", doc)]])
          (after_record request' w)) /\
     w' = after_audit (req_user_id request) "ROLE_REQUESTED" (req_permission_tier request)
            "SUCCESS" (Some (req_duration_hours request * 3600)) None
            (after_update (req_project_id request, sid) ACTIVE
               (Some [("role_arn", JStr arn)])
               (with_iam_roles
                  (iam_roles w ++
                   [role_for settings request' sid (clock w)
                      [("TemporaryAccessPolicy", doc)]])
                  (after_record request' w)))).
Proof.
  intros Hres. cbn zeta. unfold request_role in Hres.
  unfold try_except at 1 in Hres. unfold mbind at 1, M_bind at 1, lift at 1 in Hres.
  destruct (_validate_request_returns settings request) as [valid Hvalid].
  rewrite Hvalid in Hres. destruct valid; simpl in Hres.
  2:{ discriminate. }
  unfold mbind at 1, M_bind at 1, utcnow at 1, gets at 1 in Hres.
  unfold mbind at 1, M_bind at 1 in Hres.
  fold (completed request w) in Hres.
  rewrite _create_session_record_run in Hres.
  change (req_project_id (completed request w)) with (req_project_id request) in Hres.
  destruct (fault w (PutItem (req_project_id request) (entropy w (drawn w)))) as [e|] eqn:Hput.
  { discriminate. }
  unfold mbind at 1, M_bind at 1 in Hres.
  change (session_id (new_session (completed request w) w)) with (entropy w (drawn w)) in Hres.
  pose proof (_create_temporary_role_cases settings (completed request w)
                (entropy w (drawn w)) (after_record (completed request w) w)) as Hcases.
  cbn zeta in Hcases.
  destruct Hcases as [Hnone | (template & doc & _ & _ & _ & [Hok | Hnone])].
  - rewrite Hnone in Hres. simpl in Hres.
    unfold mbind, M_bind in Hres. rewrite update_session_status_outcome in Hres.
    unfold after_update in Hres. simpl in Hres.
    destruct (fault w (UpdateItem _ _)) as [e|]; [|discriminate].
    destruct (is_ClientError e); [discriminate|].
    unfold except_Exception, mbind, M_bind in Hres.
    rewrite _log_audit_event_outcome in Hres.
    destruct (fault _ AuditPutItem) as [e'|]; [|discriminate].
    destruct (is_ClientError e'); discriminate.
  - rewrite Hok in Hres.
    change (truthy_str (Some (get_role_arn (aws_account_id settings)
              (role_name_of (req_project_id (completed request w)) (entropy w (drawn w))))))
      with true in Hres.
    cbn iota in Hres. unfold mbind at 1, M_bind at 1 in Hres.
    rewrite update_session_status_outcome in Hres.
    match type of Hres with
    | context [after_update ?k ?st ?md ?w0] => set (w3 := after_update k st md w0) in *
    end.
    assert (Hfault3 : fault w3 = fault w).
    { subst w3. unfold after_update. simpl. destruct (fault w (UpdateItem _ _)); reflexivity. }
    simpl fault in Hres.
    destruct (fault w (UpdateItem _ _)) as [e|] eqn:Hupd.
    + destruct (is_ClientError e) eqn:Hce.
      * unfold mbind at 1, M_bind at 1 in Hres.
        rewrite _log_audit_event_outcome, Hfault3 in Hres.
        destruct (fault w AuditPutItem) as [e'|] eqn:Haud.
        -- destruct (is_ClientError e') eqn:Hce'.
           ++ simpl in Hres. injection Hres as <- <-.
              granted_end doc Hvalid Hok.
           ++ simpl in Hres. unfold except_Exception, mbind, M_bind in Hres.
              rewrite _log_audit_event_outcome in Hres.
              destruct (match fault _ AuditPutItem with
                        | Some e0 => if is_ClientError e0 then Ok tt else Raise e0
                        | None => Ok tt
                        end); discriminate.
        -- simpl in Hres. injection Hres as <- <-.
           granted_end doc Hvalid Hok.
      * simpl in Hres. unfold except_Exception, mbind, M_bind in Hres.
        rewrite _log_audit_event_outcome in Hres.
        destruct (match fault _ AuditPutItem with
                  | Some e0 => if is_ClientError e0 then Ok tt else Raise e0
                  | None => Ok tt
                  end); discriminate.
    + unfold mbind at 1, M_bind at 1 in Hres.
      rewrite _log_audit_event_outcome, Hfault3 in Hres.
      destruct (fault w AuditPutItem) as [e'|] eqn:Haud.
      * destruct (is_ClientError e') eqn:Hce'.
        -- simpl in Hres. injection Hres as <- <-.
           granted_end doc Hvalid Hok.
        -- simpl in Hres. unfold except_Exception, mbind, M_bind in Hres.
           rewrite _log_audit_event_outcome in Hres.
           destruct (match fault _ AuditPutItem with
                     | Some e0 => if is_ClientError e0 then Ok tt else Raise e0
                     | None => Ok tt
                     end); discriminate.
      * simpl in Hres. injection Hres as <- <-.
        granted_end doc Hvalid Hok.
  - rewrite Hnone in Hres. simpl in Hres.
    unfold mbind, M_bind in Hres. rewrite update_session_status_outcome in Hres.
    simpl in Hres.
    destruct (fault w (UpdateItem _ _)) as [e|]; [|discriminate].
    destruct (is_ClientError e); [discriminate|].
    unfold except_Exception, mbind, M_bind in Hres.
    rewrite _log_audit_event_outcome in Hres.
    destruct (match fault _ AuditPutItem with
              | Some e0 => if is_ClientError e0 then Ok tt else Raise e0
              | None => Ok tt
              end); discriminate.
Qed.

Lemma _validate_request_mfa `{Ipaddress} (settings : Settings) (request : RoleRequest) :
  _validate_request settings request = Ok true ->
  mfa_required settings = true -> req_mfa_used request = true.
Proof.
  unfold _validate_request.
  destruct (if truthy_str (req_ip_address request) then _ else _) as [[|]|e]; simpl;
    try discriminate.
  intros Hv Hmfa. rewrite Hmfa in Hv. destruct (req_mfa_used request); [reflexivity|].
  discriminate.
Qed.

(** [request_role] returns a session only for a request the validator
    accepts: the source address, when the request has one, lies in a
    configured range; MFA was used when the settings require it; the
    duration is within the global ceiling.  The session returned is ACTIVE,
    belongs to the project, user and tier of the request, runs from now for
    the requested hours, names the role created for it (which is then the
    last of the IAM roles) and carries the external identifier of the hour. *)
Theorem request_role_grants_only_valid `{Ipaddress} (settings : Settings)
    (request : RoleRequest) (session : RoleSession) (w w' : World) :
  request_role settings request w = (Ok (Some session), w') ->
  (forall address, req_ip_address request = Some address -> address <> EmptyString ->
     _is_ip_allowed settings address = Ok true) /\
  (mfa_required settings = true -> req_mfa_used request = true) /\
  req_duration_hours request <= max_session_duration settings / 3600 /\
  status session = ACTIVE /\
  project_id session = req_project_id request /\
  user_id session = req_user_id request /\
  permission_tier session = req_permission_tier request /\
  requested_at session = clock w /\
  expires_at session = clock w + 3600 * req_duration_hours request /\
  role_arn session
  = get_role_arn (aws_account_id settings)
      (role_name_of (project_id session) (session_id session)) /\
  dict_get "external_id" (request_metadata session)
  = Some (JStr (get_external_id (clock w) (req_project_id request) (req_user_id request))) /\
  (exists role,
     iam_roles w' = iam_roles w ++ [role] /\
     iam_role_name role = role_name_of (project_id session) (session_id session)) /\
  is_Some (sessions_table w' !! session_key session).
Proof.
  intros Hres. apply request_role_granted in Hres. cbn zeta in Hres.
  destruct Hres as (Hvalid & -> & Hput & doc & _ & ->).
  split; [intros address Ha Hne; eapply _validate_request_checks_origin; eauto|].
  split; [apply _validate_request_mfa; exact Hvalid|].
  split; [apply _validate_request_ceiling; exact Hvalid|].
  do 8 (split; [reflexivity|]).
  split.
  - eexists. split.
    + unfold after_update. simpl.
      destruct (fault w (UpdateItem _ _)); unfold after_audit; simpl;
        destruct (fault w AuditPutItem); reflexivity.
    + reflexivity.
  - unfold after_update, session_key. simpl.
    destruct (fault w (UpdateItem _ _)); unfold after_audit; simpl;
      destruct (fault w AuditPutItem); simpl;
      rewrite ?lookup_partial_alter_eq, ?lookup_insert_eq; eauto.
Qed.

Lemma request_role_grants_only_valid_witness :
  exists session,
    (request_role settings_36h (sample_request READ_ONLY 4 true) stocked_world).1
    = Ok (Some session) /\
    status session = ACTIVE /\
    expires_at session = 1700000000 + 3600 * 4.
Proof.
  destruct (request_role settings_36h (sample_request READ_ONLY 4 true) stocked_world)
    as [[[session|]|e] w'] eqn:Hrun;
    try (apply (f_equal fst) in Hrun; vm_compute in Hrun; discriminate).
  exists session.
  destruct (request_role_grants_only_valid settings_36h (sample_request READ_ONLY 4 true)
              session stocked_world w' Hrun)
    as (_ & _ & _ & Hstatus & _ & _ & _ & _ & Hexpires & _).
  split; [reflexivity|]. split; [exact Hstatus | exact Hexpires].
Defined.



(** ** Handing out credentials *)

Lemma sts_assume_role_run (arn name : string) (duration : Z) (external_id : option json)
    (w : World) :
  sts_assume_role arn name duration external_id w =
  match fault w (StsAssumeRole arn) with
  | Some e => (Raise e, w)
  | None =>
      (Ok (mkStsCredentials (entropy w (drawn w)) (entropy w (S (drawn w)))
             (entropy w (S (S (drawn w)))) (clock w + duration)),
       with_drawn (S (S (S (drawn w)))) w)
  end.
Proof.
  unfold sts_assume_role. run_monad.
  destruct (fault w (StsAssumeRole arn)); reflexivity.
Qed.

(** [assume_role] returns credentials only for a session that is ACTIVE and
    whose expiry has not passed.  The credentials are for the role of the
    session, under the given session name or, without one, under the name
    made of the first eight characters of the session identifier; they
    expire within the hour and not after the session.  The stored sessions
    are left as they were, and the success is audited unless the audit
    table refuses the entry. *)
Theorem assume_role_grants_only_active (session : RoleSession) (name : option string)
    (credentials : Credentials) (w w' : World) :
  assume_role session name w = (Ok (Some credentials), w') ->
  status session = ACTIVE /\
  clock w <= expires_at session /\
  cred_role_arn credentials = role_arn session /\
  session_name credentials
  = (if truthy_str name then str_of_opt name
     else "temp-role-" +:+ str_take 8 (session_id session)) /\
  expiration credentials <= clock w + 3600 /\
  expiration credentials <= expires_at session /\
  sessions_table w' = sessions_table w /\
  (fault w AuditPutItem = None ->
   audit_results w' = audit_results w ++ [("ROLE_ASSUMED", "SUCCESS")]).
Proof.
  intros Hres. unfold assume_role in Hres.
  unfold try_except at 1 in Hres. unfold mbind at 1, M_bind at 1 in Hres.
  destruct (bool_decide (status session = ACTIVE)) eqn:Hactive;
    [|simpl in Hres; discriminate].
  apply bool_decide_eq_true in Hactive.
  unfold mret at 1, M_ret at 1 in Hres.
  unfold mbind at 1, M_bind at 1, utcnow at 1, gets at 1 in Hres.
  unfold mbind at 1, M_bind at 1 in Hres.
  destruct (Z.ltb_spec (expires_at session) (clock w)) as [Hlate|Hintime].
  { unfold _expire_session, mbind, M_bind, raise in Hres.
    rewrite update_session_status_outcome in Hres.
    destruct (fault w (UpdateItem _ _)) as [e|];
      [destruct (is_ClientError e) eqn:Hce|];
      unfold mret, M_ret in Hres; simpl in Hres; rewrite ?Hce in Hres; discriminate. }
  unfold mret at 1, M_ret at 1 in Hres.
  unfold mbind at 1, M_bind at 1, utcnow at 1, gets at 1 in Hres.
  unfold mbind at 1, M_bind at 1 in Hres.
  rewrite sts_assume_role_run in Hres.
  destruct (fault w (StsAssumeRole (role_arn session))) as [e|].
  { simpl in Hres. destruct (is_ClientError e) eqn:Hce; simpl in Hres.
    - unfold mbind, M_bind, mret, M_ret in Hres.
      rewrite _log_audit_event_outcome in Hres.
      destruct (fault w AuditPutItem) as [e'|]; [destruct (is_ClientError e')|];
        simpl in Hres; discriminate.
    - unfold mret, M_ret in Hres. discriminate. }
  unfold mbind at 1, M_bind at 1 in Hres. rewrite _log_audit_event_outcome in Hres.
  unfold after_audit in Hres. simpl fault in Hres.
  destruct (fault w AuditPutItem) as [e'|].
  - destruct (is_ClientError e') eqn:Hce'; simpl in Hres.
    + unfold mret, M_ret in Hres. injection Hres as <- <-. simpl.
      repeat split; try lia; try reflexivity; try assumption. discriminate.
    + rewrite Hce' in Hres. unfold mret, M_ret in Hres. discriminate.
  - simpl in Hres. unfold mret, M_ret in Hres. injection Hres as <- <-. simpl.
    repeat split; try lia; try reflexivity; try assumption.
    intros _. unfold audit_results. simpl. rewrite map_app. reflexivity.
Qed.

Lemma assume_role_grants_only_active_witness :
  exists credentials,
    (assume_role (sample_session "s-1" 1700001800 ACTIVE) None
       (one_session 1700001800 ACTIVE)).1 = Ok (Some credentials) /\
    session_name credentials = "temp-role-s-1" /\
    expiration credentials <= 1700001800.
Proof.
  destruct (assume_role (sample_session "s-1" 1700001800 ACTIVE) None
              (one_session 1700001800 ACTIVE))
    as [[[credentials|]|e] w'] eqn:Hrun;
    try (apply (f_equal fst) in Hrun; vm_compute in Hrun; discriminate).
  exists credentials.
  destruct (assume_role_grants_only_active _ _ _ _ _ Hrun)
    as (_ & _ & _ & Hname & _ & Hexp & _).
  split; [reflexivity|]. split; [exact Hname | exact Hexp].
Defined.

(** [assume_role] on an ACTIVE session whose expiry has passed never returns
    credentials, audits nothing and draws no identifier; when the store
    accepts the update it returns [None] and the session is marked EXPIRED
    in the store. *)
Theorem assume_role_expires_session (session : RoleSession) (name : option string)
    (w : World) :
  status session = ACTIVE ->
  expires_at session < clock w ->
  let result := assume_role session name w in
  (fault w (UpdateItem (project_id session) (session_id session)) = None ->
   result.1 = Ok None /\
   stored_status result.2 (project_id session) (session_id session) = Some EXPIRED) /\
  (forall credentials, result.1 <> Ok (Some credentials)) /\
  audit_table result.2 = audit_table w /\
  drawn result.2 = drawn w.
Proof.
  intros Hactive Hlate. cbn zeta.
  assert (Hrun : assume_role session name w
                 = (Ok None,
                    after_update (project_id session, session_id session) EXPIRED None w)).
  { unfold assume_role. unfold try_except. unfold mbind at 1, M_bind at 1.
    rewrite bool_decide_true by exact Hactive.
    unfold mret at 1, M_ret at 1.
    unfold mbind at 1, M_bind at 1, utcnow at 1, gets at 1.
    unfold mbind at 1, M_bind at 1.
    destruct (Z.ltb_spec (expires_at session) (clock w)) as [_|Hge]; [|lia].
    unfold _expire_session, mbind, M_bind, raise.
    rewrite update_session_status_outcome.
    destruct (fault w (UpdateItem _ _)) as [e|]; [|reflexivity].
    destruct (is_ClientError e) eqn:Hce; simpl; rewrite ?Hce; reflexivity. }
  rewrite Hrun. simpl. unfold after_update. simpl.
  split; [|split; [|split]].
  - intros ->. split; [reflexivity|]. unfold stored_status. simpl.
    rewrite lookup_partial_alter_eq. reflexivity.
  - discriminate.
  - destruct (fault w (UpdateItem _ _)); reflexivity.
  - destruct (fault w (UpdateItem _ _)); reflexivity.
Qed.

Lemma assume_role_expires_session_witness :
  stored_status
    (assume_role (sample_session "s-1" 1699999000 ACTIVE) None
       (one_session 1699999000 ACTIVE)).2 "test-project" "s-1" = Some EXPIRED.
Proof.
  apply (proj1 (assume_role_expires_session (sample_session "s-1" 1699999000 ACTIVE) None
                  (one_session 1699999000 ACTIVE) eq_refl eq_refl)).
  reflexivity.
Defined.

(** ** Revoking *)

Lemma _send_break_glass_notification_outcome (settings : Settings) (session : RoleSession)
    (w : World) :
  _send_break_glass_notification settings session w =
  (Ok tt,
   match break_glass_notification_topic settings with
   | Some (String c topic) =>
       match fault w (SnsPublish (String c topic)) with
       | None =>
           with_sns_messages
             (sns_messages w ++ [(String c topic, break_glass_message (clock w) session)]) w
       | Some _ => w
       end
   | _ => w
   end).
Proof.
  unfold _send_break_glass_notification.
  destruct (break_glass_notification_topic settings) as [[|c topic]|]; try reflexivity.
  unfold sns_publish. run_monad.
  destruct (fault w (SnsPublish (String c topic))); reflexivity.
Qed.

(** [revoke_session] leaves alone what [get_session] does not read. *)
Lemma revoke_session_unreadable (settings : Settings) (project sid : string) (w : World) :
  (forall found, (get_session project sid w).1 = Ok found -> found = None) ->
  revoke_session settings project sid w = (Ok false, w).
Proof.
  intros Hnone. unfold revoke_session, try_except, except_Exception, mbind, M_bind.
  destruct (get_session_returns project sid w) as [[o Ho]|[e ->]]; [|reflexivity].
  rewrite Ho. rewrite (Hnone o); [reflexivity|]. rewrite Ho. reflexivity.
Qed.

(** [revoke_session] never raises.  For a key without an item it returns
    False and changes nothing, and so it does, whatever the services answer,
    for an unindexed item: a session the package stored cannot be revoked.
    It returns True only when the item converts to a session and the store
    accepts the update; the item then has the [Status] REVOKED and, unless
    the session is of the break-glass tier, no notification is published. *)
Theorem revoke_session_outcomes (settings : Settings) (project sid : string) (w : World) :
  let result := revoke_session settings project sid w in
  (exists b, result.1 = Ok b) /\
  (fault w (GetItem project sid) = None ->
   sessions_table w !! (project, sid) = None ->
   result = (Ok false, w)) /\
  (forall item,
     sessions_table w !! (project, sid) = Some item -> unindexed item = true ->
     result = (Ok false, w)) /\
  (result.1 = Ok true ->
   exists item session,
     sessions_table w !! (project, sid) = Some item /\
     _item_to_session (clock w) (project, sid) item = Some session /\
     fault w (UpdateItem project sid) = None /\
     stored_status result.2 project sid = Some REVOKED /\
     (permission_tier session <> BREAK_GLASS -> sns_messages result.2 = sns_messages w)) /\
  (forall item session,
     no_faults w ->
     sessions_table w !! (project, sid) = Some item ->
     _item_to_session (clock w) (project, sid) item = Some session ->
     result.1 = Ok true).
Proof.
  cbn zeta. split; [apply try_except_Exception_returns|]. split; [|split; [|split]].
  - intros Hget Hnone. unfold revoke_session, try_except, mbind, M_bind.
    rewrite get_session_run by exact Hget. rewrite Hnone. reflexivity.
  - intros item Hitem Hun. apply revoke_session_unreadable.
    exact (get_session_unindexed project sid w item Hitem Hun).
  - generalize (eq_refl (revoke_session settings project sid w)).
    generalize (revoke_session settings project sid w) at 2 3 4 5.
    intros result Hrun Htrue.
    unfold revoke_session, try_except, except_Exception in Hrun.
    unfold mbind at 1, M_bind at 1 in Hrun.
    destruct (get_session_returns project sid w) as [[o Ho]|[e He]].
    2:{ rewrite He in Hrun. subst result. discriminate. }
    rewrite Ho in Hrun. destruct o as [session|]; [|subst result; discriminate].
    destruct (proj2 (get_session_reads project sid w) session) as (item & Hitem & Hconv).
    { rewrite Ho. reflexivity. }
    exists item, session. split; [exact Hitem|]. split; [exact Hconv|].
    unfold mbind at 1, M_bind at 1 in Hrun. rewrite update_session_status_outcome in Hrun.
    unfold after_update in Hrun. simpl fst in Hrun. simpl snd in Hrun.
    destruct (fault w (UpdateItem project sid)) as [e|] eqn:Hupd.
    { destruct (is_ClientError e); subst result; discriminate. }
    split; [reflexivity|].
    unfold mbind at 1, M_bind at 1 in Hrun. unfold mbind at 1, M_bind at 1 in Hrun.
    rewrite _log_audit_event_outcome in Hrun. unfold after_audit in Hrun.
    simpl fault in Hrun.
    assert (Hsns : forall w0 : World,
              sessions_table
                (_send_break_glass_notification settings session w0).2
              = sessions_table w0)
      by (intros w0; apply _send_break_glass_notification_run).
    destruct (fault w AuditPutItem) as [e'|];
      [destruct (is_ClientError e'); [|subst result; discriminate]|];
      (destruct (bool_decide (permission_tier session = BREAK_GLASS)) eqn:Hbg;
       [ match type of Hrun with
         | context [_send_break_glass_notification settings session ?w0] =>
             specialize (Hsns w0);
             destruct (_send_break_glass_notification_run settings session w0) as [Hok _];
             destruct (_send_break_glass_notification settings session w0) as [[[]|e0] w1];
             simpl in Hok, Hsns; [|discriminate]
         end;
         subst result; simpl; split;
         [ unfold stored_status; rewrite Hsns; simpl;
           rewrite lookup_partial_alter_eq; reflexivity
         | apply bool_decide_eq_true in Hbg; intros Hne; contradiction ]
       | subst result; simpl; split;
         [ unfold stored_status; simpl; rewrite lookup_partial_alter_eq; reflexivity
         | reflexivity ] ]).
  - intros item session Hnf Hitem Hconv.
    unfold revoke_session, try_except, except_Exception.
    unfold mbind at 1, M_bind at 1.
    rewrite get_session_run by apply Hnf. rewrite Hitem, Hconv.
    unfold mbind at 1, M_bind at 1. rewrite update_session_status_outcome.
    unfold after_update. simpl fst. simpl snd. rewrite (Hnf (UpdateItem _ _)).
    unfold mbind at 1, M_bind at 1. unfold mbind at 1, M_bind at 1.
    rewrite _log_audit_event_outcome. unfold after_audit. simpl fault.
    rewrite (Hnf AuditPutItem).
    destruct (bool_decide (permission_tier session = BREAK_GLASS)); [|reflexivity].
    rewrite _send_break_glass_notification_outcome. reflexivity.
Qed.

Lemma revoke_session_outcomes_witness :
  revoke_session settings_36h "test-project" "s-1" (one_session 1700003600 ACTIVE)
  = (Ok false, one_session 1700003600 ACTIVE) /\
  (let result := revoke_session settings_36h "test-project" "s-1"
                   (one_readable 1700003600 ACTIVE) in
   result.1 = Ok true /\ stored_status result.2 "test-project" "s-1" = Some REVOKED).
Proof.
  split.
  - apply (proj1 (proj2 (proj2 (revoke_session_outcomes settings_36h "test-project" "s-1"
                                  (one_session 1700003600 ACTIVE))))
             (sample_item 1700003600 ACTIVE)); reflexivity.
  - cbn zeta.
    assert (Htrue : (revoke_session settings_36h "test-project" "s-1"
                       (one_readable 1700003600 ACTIVE)).1 = Ok true).
    { apply (proj2 (proj2 (proj2 (proj2
               (revoke_session_outcomes settings_36h "test-project" "s-1"
                  (one_readable 1700003600 ACTIVE)))))
               (readable_item (sample_session "s-1" 1700003600 ACTIVE))
               (sample_session "s-1" 1700003600 ACTIVE)).
      - intros c. reflexivity.
      - reflexivity.
      - reflexivity. }
    split; [exact Htrue|].
    destruct (proj1 (proj2 (proj2 (proj2
               (revoke_session_outcomes settings_36h "test-project" "s-1"
                  (one_readable 1700003600 ACTIVE))))) Htrue)
      as (_ & _ & _ & _ & _ & Hstatus & _).
    exact Hstatus.
Defined.

(** A session that [request_role] has just granted cannot be revoked. *)
Example granted_session_not_revoked :
  let granted := request_role settings_36h (sample_request READ_ONLY 4 true) stocked_world in
  match granted.1 with
  | Ok (Some session) =>
      stored_status granted.2 (project_id session) (session_id session) = Some ACTIVE /\
      (revoke_session settings_36h (project_id session) (session_id session) granted.2).1
      = Ok false
  | _ => False
  end.
Proof. vm_compute. split; reflexivity. Qed.

(** The break-glass alert.  With a topic configured and no failing call,
    revoking an item that converts to a session returns True and publishes
    exactly one alert on that topic if the session is of the break-glass
    tier, which names the user, the project and the session, and none for
    another tier.  Revoking an unindexed item publishes nothing, whatever
    its tier: the break-glass sessions the package stores are revoked
    without an alert, because they are not revoked at all. *)
Theorem revoke_session_break_glass_alert (settings : Settings) (project sid topic : string)
    (w : World) :
  no_faults w ->
  break_glass_notification_topic settings = Some topic ->
  topic <> EmptyString ->
  let result := revoke_session settings project sid w in
  (forall item session,
     sessions_table w !! (project, sid) = Some item ->
     _item_to_session (clock w) (project, sid) item = Some session ->
     result.1 = Ok true /\
     sns_messages result.2
     = sns_messages w ++
       (if bool_decide (permission_tier session = BREAK_GLASS)
        then [(topic, break_glass_message (clock w) session)]
        else [])) /\
  (forall item,
     sessions_table w !! (project, sid) = Some item -> unindexed item = true ->
     result.1 = Ok false /\ sns_messages result.2 = sns_messages w).
Proof.
  intros Hnf Htopic Hne. cbn zeta. split.
  - intros item session Hitem Hconv.
    generalize (eq_refl (revoke_session settings project sid w)).
    generalize (revoke_session settings project sid w) at 2 3 4.
    intros result Hrun.
    unfold revoke_session, try_except, except_Exception in Hrun.
    unfold mbind at 1, M_bind at 1 in Hrun.
    rewrite get_session_run in Hrun by apply Hnf. rewrite Hitem, Hconv in Hrun.
    unfold mbind at 1, M_bind at 1 in Hrun. rewrite update_session_status_outcome in Hrun.
    unfold after_update in Hrun. simpl fst in Hrun. simpl snd in Hrun.
    rewrite (Hnf (UpdateItem _ _)) in Hrun.
    unfold mbind at 1, M_bind at 1 in Hrun. unfold mbind at 1, M_bind at 1 in Hrun.
    rewrite _log_audit_event_outcome in Hrun. unfold after_audit in Hrun.
    simpl fault in Hrun. rewrite (Hnf AuditPutItem) in Hrun.
    destruct (bool_decide (permission_tier session = BREAK_GLASS)).
    + rewrite _send_break_glass_notification_outcome, Htopic in Hrun.
      destruct topic as [|c topic]; [congruence|]. simpl fault in Hrun.
      rewrite (Hnf (SnsPublish _)) in Hrun. subst result. simpl. split; reflexivity.
    + subst result. simpl. rewrite app_nil_r. split; reflexivity.
  - intros item Hitem Hun.
    rewrite (revoke_session_unreadable settings project sid w
               (get_session_unindexed project sid w item Hitem Hun)).
    split; reflexivity.
Qed.

Lemma revoke_session_break_glass_alert_witness :
  map fst (sns_messages
             (revoke_session settings_with_topic "test-project" "s-1" break_glass_world).2)
  = ["arn:aws:sns:us-east-1:123456789012:break-glass"] /\
  sns_messages
    (revoke_session settings_with_topic "test-project" "s-1" break_glass_stored).2 = [].
Proof.
  destruct (revoke_session_break_glass_alert settings_with_topic "test-project" "s-1"
              "arn:aws:sns:us-east-1:123456789012:break-glass"
              break_glass_world (fun c => eq_refl) eq_refl) as [Hreadable _];
    [discriminate|].
  destruct (revoke_session_break_glass_alert settings_with_topic "test-project" "s-1"
              "arn:aws:sns:us-east-1:123456789012:break-glass"
              break_glass_stored (fun c => eq_refl) eq_refl) as [_ Hstored];
    [discriminate|].
  split.
  - destruct (Hreadable (readable_item break_glass_session) break_glass_session
                eq_refl eq_refl) as [_ Hsns].
    rewrite Hsns. reflexivity.
  - destruct (Hstored (set_status ACTIVE None (session_item break_glass_session))
                eq_refl eq_refl) as [_ Hsns].
    rewrite Hsns. reflexivity.
Defined.

(** ** The sweep under refused updates *)







(** ** Rendering a well-formed template *)

(** [generate_policy] on a well-formed template: a template whose text is
    made of literal texts without dollar sign and of placeholders with plain
    names, rendered with variables of plain names and dollar-free values,
    gives the text with every placeholder replaced by its variable's value
    when each placeholder's variable is supplied; otherwise it raises the
    error that lists, in order, the placeholders whose variable is not
    supplied. *)
Theorem generate_policy_well_formed (template : PolicyTemplate)
    (pieces : list token) (variables : list (string * string)) :
  template_content template = flatten pieces ->
  forallb well_formed pieces = true ->
  plain_variables variables = true ->
  generate_policy template variables
  = match List.filter (fun var => negb (dict_mem var variables)) (placeholders pieces) with
    | [] => Ok (flatten (map (fill variables) pieces))
    | missing => Raise (ValueError "Missing required variables: " missing)
    end.
Proof.
  intros Htext Hwf Hvars. unfold generate_policy, _find_missing_variables.
  rewrite Htext, (substitute_pieces variables pieces Hvars Hwf).
  rewrite (re_findall_pieces _ (forallb_fill variables pieces Hvars Hwf)).
  rewrite placeholders_fill, filter_twice.
  destruct (List.filter _ (placeholders pieces)); reflexivity.
Qed.

Lemma generate_policy_well_formed_witness :
  generate_policy read_only_default (sample_variables "acme")
  = Ok (flatten (map (fill (sample_variables "acme")) read_only_template_pieces)) /\
  generate_policy read_only_default [("userId", "test-user")]
  = Raise (ValueError "Missing required variables: " ["projectId"; "projectId"]).
Proof.
  split.
  - exact (generate_policy_well_formed read_only_default read_only_template_pieces
             (sample_variables "acme") eq_refl eq_refl eq_refl).
  - exact (generate_policy_well_formed read_only_default read_only_template_pieces
             [("userId", "test-user")] eq_refl eq_refl eq_refl).
Defined.
